(** * Mountain Passes API: the submission pipeline of [app/database.py]
      and the endpoint of [app/main.py]

    The development embeds [Database.submit_pass_data] and the methods it
    calls as functions in a state-and-exception monad over a model of the
    PostgreSQL store, and [base64.b64decode] / [base64.b64encode] as
    functions on strings and byte lists. *)

From Stdlib Require Import ZArith NArith List String Ascii Bool Lia.
From Stdlib Require Strings.Byte.
Import ListNotations.

Local Open Scope string_scope.

(** ** Python exceptions and the classes the handlers test *)

Inductive exn : Set :=
| IntegrityError    (* psycopg2.IntegrityError *)
| Psycopg2Error     (* any other psycopg2.Error: OperationalError, InterfaceError, ... *)
| BinasciiError     (* binascii.Error, a ValueError *)
| ValueError
| TypeError
| AttributeError.

(** [isinstance(e, psycopg2.IntegrityError)] *)
Definition is_IntegrityError (e : exn) : bool :=
  match e with IntegrityError => true | _ => false end.

(** [isinstance(e, psycopg2.Error)] *)
Definition is_psycopg2_Error (e : exn) : bool :=
  match e with IntegrityError | Psycopg2Error => true | _ => false end.

(** [isinstance(e, Exception)]: every class above derives from it. *)
Definition is_Exception (e : exn) : bool := true.

(** ** Python's [base64] module, as far as the pipeline uses it *)

Module Base64.

Local Open Scope N_scope.

Abbreviation byte := Byte.byte.

(** A C [unsigned char] store: the low eight bits of the value. *)
Definition byte_of_N (n : N) : byte := byte_of_ascii (ascii_of_N (n mod 256)).
Definition N_of_byte (b : byte) : N := Byte.to_N b.

Definition alphabet : list ascii :=
  list_ascii_of_string
    "ABCDEFGHIJKLMNOPQRSTUVWXYZabcdefghijklmnopqrstuvwxyz0123456789+/".

Definition BASE64_PAD : ascii := "="%char.

(** [table_b2a_base64]: the character of a six-bit value. *)
Definition table_b2a (v : N) : ascii := nth (N.to_nat v) alphabet BASE64_PAD.

(** [table_a2b_base64]: the six-bit value of a character; [None] stands for
    the table entries (>= 64) of the characters outside the alphabet. *)
Definition table_a2b (c : ascii) : option N :=
  let n := N_of_ascii c in
  if (65 <=? n) && (n <=? 90) then Some (n - 65)
  else if (97 <=? n) && (n <=? 122) then Some (n - 71)
  else if (48 <=? n) && (n <=? 57) then Some (n + 4)
  else if n =? 43 then Some 62
  else if n =? 47 then Some 63
  else None.

(** [binascii.b2a_base64(data, newline=False)], three bytes at a time. *)
Fixpoint b2a_base64 (data : list byte) : string :=
  match data with
  | [] => EmptyString
  | [b0] =>
      let n0 := N_of_byte b0 in
      String (table_b2a (N.shiftr n0 2))
        (String (table_b2a (N.shiftl (N.land n0 3) 4))
           (String BASE64_PAD (String BASE64_PAD EmptyString)))
  | [b0; b1] =>
      let n0 := N_of_byte b0 in
      let n1 := N_of_byte b1 in
      String (table_b2a (N.shiftr n0 2))
        (String (table_b2a (N.lor (N.shiftl (N.land n0 3) 4) (N.shiftr n1 4)))
           (String (table_b2a (N.shiftl (N.land n1 15) 2))
              (String BASE64_PAD EmptyString)))
  | b0 :: b1 :: b2 :: rest =>
      let n0 := N_of_byte b0 in
      let n1 := N_of_byte b1 in
      let n2 := N_of_byte b2 in
      String (table_b2a (N.shiftr n0 2))
        (String (table_b2a (N.lor (N.shiftl (N.land n0 3) 4) (N.shiftr n1 4)))
           (String (table_b2a (N.lor (N.shiftl (N.land n1 15) 2) (N.shiftr n2 6)))
              (String (table_b2a (N.land n2 63)) (b2a_base64 rest))))
  end.

(** [base64.b64encode(data).decode('ascii')]. *)
Definition b64encode (data : list byte) : string := b2a_base64 data.

(** The decoder of [binascii.a2b_base64] in its default, non-strict mode,
    as CPython implements it since the version that knows [strict_mode]:
    the loop variables [quad_pos], [leftchar], [pads] and the output written
    so far (most recent byte first). *)
Record a2b_state : Type := mk_a2b {
  quad_pos : N;
  leftchar : N;
  pads : N;
  bin_data : list byte
}.

Definition a2b_init : a2b_state := mk_a2b 0 0 0 [].

(** The [switch (quad_pos)] of the loop body, for a character of value [v]. *)
Definition a2b_push (st : a2b_state) (v : N) : a2b_state :=
  let lc := leftchar st in
  let out := bin_data st in
  if quad_pos st =? 0 then mk_a2b 1 v 0 out
  else if quad_pos st =? 1 then
    mk_a2b 2 (N.land v 15) 0 (byte_of_N (N.lor (N.shiftl lc 2) (N.shiftr v 4)) :: out)
  else if quad_pos st =? 2 then
    mk_a2b 3 (N.land v 3) 0 (byte_of_N (N.lor (N.shiftl lc 4) (N.shiftr v 2)) :: out)
  else
    mk_a2b 0 0 0 (byte_of_N (N.lor (N.shiftl lc 6) v) :: out).

(** The loop over the input; [None] is [binascii.Error]. A pad character
    that completes a quad ends the decoding ([goto done]); pad characters
    elsewhere and characters outside the alphabet are passed over. *)
Fixpoint a2b_loop (s : string) (st : a2b_state) : option (list byte) :=
  match s with
  | EmptyString =>
      if quad_pos st =? 0 then Some (rev (bin_data st)) else None
  | String c rest =>
      if Ascii.eqb c BASE64_PAD then
        if 2 <=? quad_pos st then
          if 4 <=? quad_pos st + (pads st + 1) then Some (rev (bin_data st))
          else a2b_loop rest
                 (mk_a2b (quad_pos st) (leftchar st) (pads st + 1) (bin_data st))
        else a2b_loop rest st
      else
        match table_a2b c with
        | None => a2b_loop rest st
        | Some v => a2b_loop rest (a2b_push st v)
        end
  end.

Definition a2b_base64 (s : string) : option (list byte) := a2b_loop s a2b_init.

(** [str.encode('ascii')] succeeds when every character is below 128. *)
Fixpoint is_ascii (s : string) : bool :=
  match s with
  | EmptyString => true
  | String c rest => (N_of_ascii c <? 128) && is_ascii rest
  end.

(** [base64.b64decode(s)] for a [str] argument, [validate=False]: the
    bytes, or the exception raised ([ValueError] by the conversion of a
    string that is not ASCII, [binascii.Error] by the decoder). *)
Definition b64decode (s : string) : exn + list byte :=
  if is_ascii s then
    match a2b_base64 s with
    | Some bs => inr bs
    | None => inl BinasciiError
    end
  else inl ValueError.

End Base64.

Import Base64.

Definition bytes_of_string (s : string) : list byte :=
  map byte_of_ascii (list_ascii_of_string s).

(** ** Exhaustive checks over bytes, used to invert the decoder *)



Local Open Scope N_scope.

Fixpoint forall_below (n : nat) (P : N -> bool) : bool :=
  match n with
  | O => true
  | S k => P (N.of_nat k) && forall_below k P
  end.

Definition forall_byte (P : byte -> bool) : bool :=
  forall_below 256
    (fun n => match Byte.of_N n with Some b => P b | None => true end).

(** A six-bit value survives the two tables. *)
Definition sextet_ok (v : N) : bool :=
  match table_a2b (table_b2a v) with
  | Some w => (w =? v) && negb (Ascii.eqb (table_b2a v) BASE64_PAD)
  | None => false
  end.

Definition byte_is (n : N) (b : byte) : bool := Byte.eqb (byte_of_N n) b.

(** The four characters of a full group, and what the decoder rebuilds. *)
Definition enc0 (b0 : byte) : N := N.shiftr (N_of_byte b0) 2.
Definition enc1 (b0 b1 : byte) : N :=
  N.lor (N.shiftl (N.land (N_of_byte b0) 3) 4) (N.shiftr (N_of_byte b1) 4).
Definition enc2 (b1 b2 : byte) : N :=
  N.lor (N.shiftl (N.land (N_of_byte b1) 15) 2) (N.shiftr (N_of_byte b2) 6).
Definition enc3 (b2 : byte) : N := N.land (N_of_byte b2) 63.
Definition enc1_last (b0 : byte) : N := N.shiftl (N.land (N_of_byte b0) 3) 4.
Definition enc2_last (b1 : byte) : N := N.shiftl (N.land (N_of_byte b1) 15) 2.

Definition hi4 (b1 : byte) : N := N.shiftr (N_of_byte b1) 4.
Definition hi2 (b2 : byte) : N := N.shiftr (N_of_byte b2) 6.

Definition check0 (b0 : byte) : bool :=
  sextet_ok (enc0 b0) && sextet_ok (enc1_last b0)
  && byte_is (N.lor (N.shiftl (enc0 b0) 2) (N.shiftr (enc1_last b0) 4)) b0.

Definition check01 (b0 b1 : byte) : bool :=
  sextet_ok (enc1 b0 b1)
  && byte_is (N.lor (N.shiftl (enc0 b0) 2) (N.shiftr (enc1 b0 b1) 4)) b0
  && (N.land (enc1 b0 b1) 15 =? hi4 b1).

Definition check1 (b1 : byte) : bool :=
  sextet_ok (enc2_last b1)
  && byte_is (N.lor (N.shiftl (hi4 b1) 4) (N.shiftr (enc2_last b1) 2)) b1.

Definition check12 (b1 b2 : byte) : bool :=
  sextet_ok (enc2 b1 b2)
  && byte_is (N.lor (N.shiftl (hi4 b1) 4) (N.shiftr (enc2 b1 b2) 2)) b1
  && (N.land (enc2 b1 b2) 3 =? hi2 b2).

Definition check2 (b2 : byte) : bool :=
  sextet_ok (enc3 b2)
  && byte_is (N.lor (N.shiftl (hi2 b2) 6) (enc3 b2)) b2.

Local Close Scope N_scope.

(** ** Values of the submission dictionary *)

(** A key of a dictionary: absent, bound to [None], or bound to a value. *)
Inductive field (A : Type) : Type :=
| Missing
| Null
| Val (a : A).
Arguments Missing {A}.
Arguments Null {A}.
Arguments Val {A} a.

(** A Python value that is [None] or a [str]; also a nullable text column. *)
Definition pystr : Type := option string.

(** [d.get(key)] *)
Definition dict_get (f : field string) : pystr :=
  match f with
  | Missing | Null => None
  | Val s => Some s
  end.

(** [d.get(key, default)] *)
Definition dict_get_default (f : field string) (default : string) : pystr :=
  match f with
  | Missing => Some default
  | Null => None
  | Val s => Some s
  end.

(** Truth value of [None] or a [str]. *)
Definition truthy (v : pystr) : bool :=
  match v with
  | None => false
  | Some s => negb (String.eqb s "")
  end.

(** Truth value of [None] or an [int]. *)
Definition truthy_int (v : option Z) : bool :=
  match v with
  | None => false
  | Some z => negb (Z.eqb z 0)
  end.

(** [all([...])] over such values. *)
Definition py_all (vs : list pystr) : bool := forallb truthy vs.

Record UserData : Type := mk_UserData {
  email : field string;
  phone : field string;
  fam : field string;
  name : field string;
  otc : field string
}.

Record CoordinatesData : Type := mk_CoordinatesData {
  latitude : field string;
  longitude : field string;
  height : field string
}.

Record DifficultyLevel : Type := mk_DifficultyLevel {
  winter : field string;
  spring : field string;
  summer : field string;
  autumn : field string
}.

Record ImageData : Type := mk_ImageData {
  img_data : field string;
  img_title : field string
}.

(** The dictionary [pass_data]; a sub-dictionary that is absent is [None]
    here and is read as [{}], an absent image list is [[]]. *)
Record SubmitPassData : Type := mk_SubmitPassData {
  beauty_title : field string;
  title : field string;
  other_titles : field string;
  connect_ : field string;
  add_time : field string;
  user : option UserData;
  coords : option CoordinatesData;
  level : option DifficultyLevel;
  images : list ImageData
}.

Definition empty_user : UserData := mk_UserData Missing Missing Missing Missing Missing.
Definition empty_coords : CoordinatesData := mk_CoordinatesData Missing Missing Missing.
Definition empty_level : DifficultyLevel := mk_DifficultyLevel Missing Missing Missing Missing.

(** [pass_data.get(key, {})] *)
Definition get_dict {A : Type} (d : option A) (empty : A) : A :=
  match d with
  | Some x => x
  | None => empty
  end.

Definition MAX_IMAGE_SIZE : Z := 5 * 1024 * 1024.

(** [len(image_bytes)] *)
Definition len (bs : list byte) : Z := Z.of_nat (List.length bs).

(** The outcome triple [(status_code, message, pass_id)]. *)
Definition outcome : Type := (Z * option string * option Z)%type.

(** [SubmitPassResponse] *)
Record SubmitPassResponse : Type := mk_SubmitPassResponse {
  status : Z;
  message : option string;
  id : option Z
}.

Definition MSG_CONNECT : string := "Ошибка подключения к базе данных".
Definition MSG_USER_FIELDS : string := "Не хватает полей в данных пользователя".
Definition MSG_CREATE_USER : string := "Ошибка при создании пользователя".
Definition MSG_REQUIRED_FIELDS : string := "Не хватает обязательных полей".
Definition MSG_CREATE_PASS : string := "Ошибка при создании перевала".
Definition MSG_PROCESSING : string := "Ошибка при обработке данных".
Definition MSG_INTERNAL : string := "Внутренняя ошибка сервера при обработке запроса".

(** The built-ins [float()] and [int()] on strings are not part of the
    repository; the pipeline is parametric in them. [None] is [ValueError]. *)
Class PyNumbers : Type := {
  pyfloat : Type;
  float_of_int : Z -> pyfloat;
  float_of_str : string -> option pyfloat;
  int_of_str : string -> option Z
}.

(** The end of a computation: a value, or an exception on its way up. *)
Inductive result (A : Type) : Type :=
| Ret (a : A)
| Raise (e : exn).
Arguments Ret {A} a.
Arguments Raise {A} e.

Section Pipeline.

Context {PN : PyNumbers}.

(** ** The store

    Modelled from the spec: the schema of the four tables is not among the
    sources. Users, passes, difficulty levels and images are rows with the
    columns of the [INSERT] statements; [users.id] and [passes.id] are
    sequence-assigned identities; [users.email] carries a uniqueness
    constraint. *)

Record user_row : Type := mk_user_row {
  u_id : Z;
  u_email : pystr;
  u_phone : pystr;
  u_fam : pystr;
  u_name : pystr;
  u_otc : pystr
}.

Record pass_row : Type := mk_pass_row {
  p_id : Z;
  p_beauty_title : pystr;
  p_title : pystr;
  p_other_titles : pystr;
  p_connect : pystr;
  p_add_time : pystr;
  p_user_id : Z;
  p_latitude : pyfloat;
  p_longitude : pyfloat;
  p_height : Z;
  p_status : string
}.

Record difficulty_row : Type := mk_difficulty_row {
  d_pass_id : Z;
  d_winter : pystr;
  d_spring : pystr;
  d_summer : pystr;
  d_autumn : pystr
}.

Record image_row : Type := mk_image_row {
  i_pass_id : Z;
  i_title : pystr;
  i_data : list byte
}.

Record tables : Type := mk_tables {
  users : list user_row;
  passes : list pass_row;
  difficulty_levels : list difficulty_row;
  images_ : list image_row
}.

(** [self.connection]: [None], an open connection, or a closed one. *)
Inductive conn_state : Set :=
| NoConnection
| ConnOpen
| ConnClosed.

(** The state the pipeline runs in: the committed tables, the tables as the
    open transaction sees them, the two identity sequences (last value
    handed out), the connection attribute, the number of [close()] calls
    made on a connection, and the outcome the environment has in store for
    each library call that can fail ([None]: it goes through). *)
Record world : Type := mk_world {
  committed : tables;
  session : tables;
  users_id_seq : Z;
  passes_id_seq : Z;
  connection : conn_state;
  close_calls : nat;
  faults : list (option exn)
}.

(** SQL [=] on nullable text: never true when a side is NULL. *)
Definition sql_eq (a b : pystr) : bool :=
  match a, b with
  | Some x, Some y => String.eqb x y
  | _, _ => false
  end.

(** ** Computations that change the world and may raise *)

Definition M (A : Type) : Type := world -> result A * world.

Definition ret {A : Type} (a : A) : M A := fun w => (Ret a, w).

Definition raise {A : Type} (e : exn) : M A := fun w => (Raise e, w).

Definition bind {A B : Type} (m : M A) (k : A -> M B) : M B :=
  fun w =>
    match m w with
    | (Ret a, w') => k a w'
    | (Raise e, w') => (Raise e, w')
    end.

(** [try: body except ...:]; the handler answers [None] for an exception
    that no clause matches. *)
Definition try_except {A : Type} (body : M A) (handler : exn -> option (M A)) : M A :=
  fun w =>
    match body w with
    | (Ret a, w') => (Ret a, w')
    | (Raise e, w') =>
        match handler e with
        | Some h => h w'
        | None => (Raise e, w')
        end
    end.

(** [try: body finally: final]; [final] runs however [body] ends. *)
Definition try_finally {A : Type} (body : M A) (final : M unit) : M A :=
  fun w =>
    match body w with
    | (r, w') =>
        match final w' with
        | (Ret _, w'') => (r, w'')
        | (Raise e, w'') => (Raise e, w'')
        end
    end.

Notation "x <- m ;; k" := (bind m (fun x => k))
  (at level 61, m at next level, right associativity).

Definition set_faults (w : world) (fs : list (option exn)) : world :=
  mk_world (committed w) (session w) (users_id_seq w) (passes_id_seq w)
    (connection w) (close_calls w) fs.

Definition set_session (w : world) (t : tables) : world :=
  mk_world (committed w) t (users_id_seq w) (passes_id_seq w)
    (connection w) (close_calls w) (faults w).

Definition set_committed (w : world) (t : tables) : world :=
  mk_world t (session w) (users_id_seq w) (passes_id_seq w)
    (connection w) (close_calls w) (faults w).

Definition set_connection (w : world) (c : conn_state) : world :=
  mk_world (committed w) (session w) (users_id_seq w) (passes_id_seq w)
    c (close_calls w) (faults w).

Definition add_user (t : tables) (r : user_row) : tables :=
  mk_tables (users t ++ [r]) (passes t) (difficulty_levels t) (images_ t).

Definition add_pass (t : tables) (r : pass_row) : tables :=
  mk_tables (users t) (passes t ++ [r]) (difficulty_levels t) (images_ t).

Definition add_difficulty_level (t : tables) (r : difficulty_row) : tables :=
  mk_tables (users t) (passes t) (difficulty_levels t ++ [r]) (images_ t).

Definition add_image (t : tables) (r : image_row) : tables :=
  mk_tables (users t) (passes t) (difficulty_levels t) (images_ t ++ [r]).

(** ** The calls into psycopg2 *)

(** A call that can fail takes the next outcome the environment has
    scheduled; with nothing scheduled it goes through. *)
Definition library_call : M unit :=
  fun w =>
    (match hd None (faults w) with
     | None => Ret tt
     | Some e => Raise e
     end,
     set_faults w (tl (faults w))).

(** [self.connection = psycopg2.connect(...)] *)
Definition psycopg2_connect : M unit :=
  _ <- library_call ;;
  fun w =>
    (Ret tt,
     mk_world (committed w) (committed w) (users_id_seq w) (passes_id_seq w)
       ConnOpen (close_calls w) (faults w)).

(** [self.connection.close()]: an open transaction is discarded. *)
Definition connection_close : M unit :=
  fun w =>
    (Ret tt,
     mk_world (committed w) (committed w) (users_id_seq w) (passes_id_seq w)
       ConnClosed (S (close_calls w)) (faults w)).

(** Reaching for a method of [self.connection]: [None] has none, and a
    closed connection refuses with [InterfaceError]. *)
Definition self_connection : M unit :=
  fun w =>
    match connection w with
    | NoConnection => (Raise AttributeError, w)
    | ConnClosed => (Raise Psycopg2Error, w)
    | ConnOpen => (Ret tt, w)
    end.

(** [self.connection.cursor()] *)
Definition connection_cursor : M unit := self_connection.

(** [self.connection.commit()]: the transaction becomes durable, or the
    call fails and the transaction is lost. *)
Definition connection_commit : M unit :=
  _ <- self_connection ;;
  fun w =>
    match library_call w with
    | (Ret _, w') => (Ret tt, set_committed w' (session w'))
    | (Raise e, w') => (Raise e, set_session w' (committed w'))
    end.

(** [self.connection.rollback()]: the transaction is dropped, also when the
    call itself fails (the connection is then broken). *)
Definition connection_rollback : M unit :=
  _ <- self_connection ;;
  fun w =>
    match library_call w with
    | (r, w') => (r, set_session w' (committed w'))
    end.

(** [nextval] of the two identity sequences; a value handed out is not
    taken back by a rollback. *)
Definition nextval_users : M Z :=
  fun w =>
    let v := (users_id_seq w + 1)%Z in
    (Ret v,
     mk_world (committed w) (session w) v (passes_id_seq w)
       (connection w) (close_calls w) (faults w)).

Definition nextval_passes : M Z :=
  fun w =>
    let v := (passes_id_seq w + 1)%Z in
    (Ret v,
     mk_world (committed w) (session w) (users_id_seq w) v
       (connection w) (close_calls w) (faults w)).

(** [cursor.execute("INSERT INTO users ... RETURNING id", ...)] followed by
    [cursor.fetchone()[0]]. *)
Definition execute_insert_user (email phone fam name otc : pystr) : M Z :=
  _ <- library_call ;;
  new_id <- nextval_users ;;
  fun w =>
    if existsb (fun r => sql_eq (u_email r) email) (users (session w))
    then (Raise IntegrityError, w)
    else (Ret new_id,
          set_session w
            (add_user (session w) (mk_user_row new_id email phone fam name otc))).

(** [cursor.execute("SELECT id FROM users WHERE email = %s", (email,))]
    followed by [cursor.fetchone()] and [result[0] if result else None]. *)
Definition execute_select_user_id (email : pystr) : M (option Z) :=
  _ <- library_call ;;
  fun w =>
    (Ret (option_map u_id
            (find (fun r => sql_eq (u_email r) email) (users (session w)))),
     w).

(** [cursor.execute("INSERT INTO passes ... 'new') RETURNING id", ...)]
    followed by [cursor.fetchone()[0]]. *)
Definition execute_insert_pass (beauty_title title other_titles connect add_time : pystr)
    (user_id : Z) (latitude longitude : pyfloat) (height : Z) : M Z :=
  _ <- library_call ;;
  new_id <- nextval_passes ;;
  fun w =>
    (Ret new_id,
     set_session w
       (add_pass (session w)
          (mk_pass_row new_id beauty_title title other_titles connect add_time
             user_id latitude longitude height "new"))).

(** The two statements that go through [execute_query]. *)
Inductive statement : Type :=
| InsertDifficultyLevel (row : difficulty_row)
| InsertImage (row : image_row).

(** [cursor.execute(query, params)] *)
Definition cursor_execute (q : statement) : M unit :=
  _ <- library_call ;;
  fun w =>
    (Ret tt,
     set_session w
       match q with
       | InsertDifficultyLevel row => add_difficulty_level (session w) row
       | InsertImage row => add_image (session w) row
       end).

(** ** The methods of [Database] *)

Definition connect : M bool :=
  try_except
    (_ <- psycopg2_connect ;;
     ret true)
    (fun e => if is_psycopg2_Error e then Some (ret false) else None).

Definition disconnect : M unit :=
  fun w =>
    match connection w with
    | NoConnection => (Ret tt, w)
    | _ => connection_close w
    end.

Definition execute_query (query : statement) : M bool :=
  try_except
    (_ <- connection_cursor ;;
     _ <- cursor_execute query ;;
     _ <- connection_commit ;;
     ret true)
    (fun e =>
       if is_psycopg2_Error e then
         Some (_ <- connection_rollback ;;
               ret false)
       else None).

Definition create_user (email phone fam name otc : pystr) : M (option Z) :=
  try_except
    (_ <- connection_cursor ;;
     user_id <- execute_insert_user email phone fam name otc ;;
     _ <- connection_commit ;;
     ret (Some user_id))
    (fun e =>
       if is_IntegrityError e then
         Some (_ <- connection_rollback ;;
               _ <- connection_cursor ;;
               result <- execute_select_user_id email ;;
               ret result)
       else if is_psycopg2_Error e then
         Some (_ <- connection_rollback ;;
               ret None)
       else None).

Definition create_pass (beauty_title title other_titles connect add_time : pystr)
    (user_id : Z) (latitude longitude : pyfloat) (height : Z) : M (option Z) :=
  try_except
    (_ <- connection_cursor ;;
     pass_id <- execute_insert_pass beauty_title title other_titles connect
                  add_time user_id latitude longitude height ;;
     _ <- connection_commit ;;
     ret (Some pass_id))
    (fun e =>
       if is_psycopg2_Error e then
         Some (_ <- connection_rollback ;;
               ret None)
       else None).

Definition create_difficulty_level (pass_id : Z) (winter spring summer autumn : pystr)
  : M bool :=
  execute_query
    (InsertDifficultyLevel (mk_difficulty_row pass_id winter spring summer autumn)).

Definition create_image (pass_id : Z) (title : pystr) (image_data : list byte) : M bool :=
  execute_query (InsertImage (mk_image_row pass_id title image_data)).

(** A call that touches nothing: its value, or the exception it raises. *)
Definition pure_call {A : Type} (r : exn + A) : M A :=
  match r with
  | inr a => ret a
  | inl e => raise e
  end.

(** [float(coords.get(key, 0))] *)
Definition py_float (v : field string) : exn + pyfloat :=
  match v with
  | Missing => inr (float_of_int 0)
  | Null => inl TypeError
  | Val s =>
      match float_of_str s with
      | Some x => inr x
      | None => inl ValueError
      end
  end.

(** [int(coords.get(key, 0))] *)
Definition py_int (v : field string) : exn + Z :=
  match v with
  | Missing => inr 0%Z
  | Null => inl TypeError
  | Val s =>
      match int_of_str s with
      | Some z => inr z
      | None => inl ValueError
      end
  end.

(** [base64.b64decode(image_data)] *)
Definition py_b64decode (image_data : pystr) : exn + list byte :=
  match image_data with
  | None => inl TypeError
  | Some s => b64decode s
  end.

(** The body of [for image in images]. *)
Definition process_image (pass_id : Z) (image : ImageData) : M unit :=
  let image_title := dict_get_default (img_title image) "" in
  let image_data := dict_get_default (img_data image) "" in
  try_except
    (image_bytes <- pure_call (py_b64decode image_data) ;;
     if (len image_bytes >? MAX_IMAGE_SIZE)%Z then ret tt
     else
       _ <- create_image pass_id image_title image_bytes ;;
       ret tt)
    (fun e => if is_Exception e then Some (ret tt) else None).

Fixpoint for_images (pass_id : Z) (images : list ImageData) : M unit :=
  match images with
  | [] => ret tt
  | image :: rest =>
      _ <- process_image pass_id image ;;
      for_images pass_id rest
  end.

(** From the creation of the difficulty levels to the final [return]. *)
Definition submit_levels_and_images (pass_data : SubmitPassData) (pass_id : Z) : M outcome :=
  let level := get_dict (level pass_data) empty_level in
  _ <- create_difficulty_level pass_id
         (dict_get_default (winter level) "")
         (dict_get_default (spring level) "")
         (dict_get_default (summer level) "")
         (dict_get_default (autumn level) "") ;;
  _ <- for_images pass_id (images pass_data) ;;
  ret (200%Z, None, Some pass_id).

(** From the extraction of the pass fields on, for a user id that passed
    [if not user_id]. *)
Definition submit_pass (pass_data : SubmitPassData) (user_id : Z) : M outcome :=
  let coords := get_dict (coords pass_data) empty_coords in
  let beauty_title := dict_get_default (beauty_title pass_data) "" in
  let title := dict_get (title pass_data) in
  let other_titles := dict_get_default (other_titles pass_data) "" in
  let connect := dict_get_default (connect_ pass_data) "" in
  let add_time := dict_get (add_time pass_data) in
  latitude <- pure_call (py_float (latitude coords)) ;;
  longitude <- pure_call (py_float (longitude coords)) ;;
  height <- pure_call (py_int (height coords)) ;;
  if negb (py_all [title; add_time]) then
    ret (400%Z, Some MSG_REQUIRED_FIELDS, None)
  else
    pass_id <- create_pass beauty_title title other_titles connect add_time
                 user_id latitude longitude height ;;
    match pass_id with
    | Some pid =>
        if (pid =? 0)%Z then ret (500%Z, Some MSG_CREATE_PASS, None)
        else submit_levels_and_images pass_data pid
    | None => ret (500%Z, Some MSG_CREATE_PASS, None)
    end.

(** The body of the [try] statement. *)
Definition submit_body (pass_data : SubmitPassData) : M outcome :=
  let user_data := get_dict (user pass_data) empty_user in
  let email := dict_get (email user_data) in
  let phone := dict_get (phone user_data) in
  let fam := dict_get (fam user_data) in
  let name := dict_get (name user_data) in
  let otc := dict_get (otc user_data) in
  if negb (py_all [email; phone; fam; name; otc]) then
    ret (400%Z, Some MSG_USER_FIELDS, None)
  else
    user_id <- create_user email phone fam name otc ;;
    match user_id with
    | Some uid =>
        if (uid =? 0)%Z then ret (500%Z, Some MSG_CREATE_USER, None)
        else submit_pass pass_data uid
    | None => ret (500%Z, Some MSG_CREATE_USER, None)
    end.

Definition submit_pass_data (pass_data : SubmitPassData) : M outcome :=
  connected <- connect ;;
  if negb connected then ret (500%Z, Some MSG_CONNECT, None)
  else
    try_finally
      (try_except (submit_body pass_data)
         (fun e =>
            if is_Exception e then Some (ret (500%Z, Some MSG_PROCESSING, None))
            else None))
      disconnect.

(** ** The endpoint [POST /submitData] of [app/main.py] *)

(** [db = Database()]: a fresh object, its [connection] is [None]. *)
Definition Database_init : M unit :=
  fun w => (Ret tt, set_connection w NoConnection).

Definition submit_data (data : SubmitPassData) : M SubmitPassResponse :=
  try_except
    (_ <- Database_init ;;
     r <- submit_pass_data data ;;
     let '(status_code, message, pass_id) := r in
     ret (mk_SubmitPassResponse status_code message pass_id))
    (fun e =>
       if is_Exception e then
         Some (ret (mk_SubmitPassResponse 500 (Some MSG_INTERNAL) None))
       else None).

End Pipeline.

(** ** Vocabulary of the statements *)

Section Properties.

Context {PN : PyNumbers}.

(** Between two calls of the methods: the connection is open and no
    transaction is pending. *)
Definition ready (w : world) : Prop :=
  connection w = ConnOpen /\ session w = committed w.

(** The world after a computation that keeps the connection: still ready,
    no [close()] call made, and every committed table extended at its end. *)
Definition grows (w w' : world) : Prop :=
  ready w' /\ close_calls w' = close_calls w /\
  (exists l, users (committed w') = users (committed w) ++ l)%list /\
  (exists l, passes (committed w') = passes (committed w) ++ l)%list /\
  (exists l, difficulty_levels (committed w') = difficulty_levels (committed w) ++ l)%list /\
  (exists l, images_ (committed w') = images_ (committed w) ++ l)%list.

Definition steady {A : Type} (m : M A) : Prop :=
  forall w r w', ready w -> m w = (r, w') -> grows w w'.

(** The outcome the environment has scheduled for the [k]-th library call
    from now. *)
Definition call_outcome (k : nat) (w : world) : option exn :=
  nth k (faults w) None.

(** The three shapes of an outcome triple. *)
Definition outcome_ok (o : outcome) : Prop :=
  let '(st, msg, pass_id) := o in
  (st = 200 \/ st = 400 \/ st = 500)%Z /\
  (st = 200%Z <-> pass_id <> None /\ msg = None) /\
  ((st = 400 \/ st = 500)%Z -> pass_id = None /\ msg <> None).

Definition response_ok (r : SubmitPassResponse) : Prop :=
  outcome_ok (status r, message r, id r).

(** The five user fields as [submit_pass_data] reads them. *)
Definition user_fields (pass_data : SubmitPassData) : list pystr :=
  let user_data := get_dict (user pass_data) empty_user in
  [dict_get (email user_data); dict_get (phone user_data);
   dict_get (fam user_data); dict_get (name user_data);
   dict_get (otc user_data)].

(** What a statement of [execute_query] does to the tables. *)
Definition run_statement (q : statement) (t : tables) : tables :=
  match q with
  | InsertDifficultyLevel row => add_difficulty_level t row
  | InsertImage row => add_image t row
  end.

(** The row an image contributes when it is decoded to [image_bytes]. *)
Definition image_row_of (pass_id : Z) (image : ImageData) (image_bytes : list byte)
  : image_row :=
  mk_image_row pass_id (dict_get_default (img_title image) "") image_bytes.

(** The bytes [b64decode] gives for the [data] of an image. *)
Definition image_bytes_of (image : ImageData) : exn + list byte :=
  py_b64decode (dict_get_default (img_data image) "").

(** The calls [submit_pass_data] makes for a submission, with the
    arguments it reads from the dictionary. *)
Definition submit_create_user (pass_data : SubmitPassData) : M (option Z) :=
  let user_data := get_dict (user pass_data) empty_user in
  create_user (dict_get (email user_data)) (dict_get (phone user_data))
    (dict_get (fam user_data)) (dict_get (name user_data))
    (dict_get (otc user_data)).

Definition submit_create_pass (pass_data : SubmitPassData) (user_id : Z)
    (latitude longitude : pyfloat) (height : Z) : M (option Z) :=
  create_pass (dict_get_default (beauty_title pass_data) "")
    (dict_get (title pass_data))
    (dict_get_default (other_titles pass_data) "")
    (dict_get_default (connect_ pass_data) "")
    (dict_get (add_time pass_data))
    user_id latitude longitude height.

Definition submit_create_difficulty_level (pass_data : SubmitPassData) (pass_id : Z)
  : M bool :=
  let level := get_dict (level pass_data) empty_level in
  create_difficulty_level pass_id
    (dict_get_default (winter level) "")
    (dict_get_default (spring level) "")
    (dict_get_default (summer level) "")
    (dict_get_default (autumn level) "").

(** The handler of the outer [except Exception]. *)
Definition unexpected_error (e : exn) : option (M outcome) :=
  if is_Exception e then Some (ret (500%Z, Some MSG_PROCESSING, None)) else None.

(** The submission gets as far as the difficulty levels: the connection is
    acquired, the user fields are all there, [create_user] gives a user id
    that is not zero, the coordinates are numeric, title and add_time are
    there, and [create_pass] gives the pass id [pass_id], not zero, leaving
    the world [w3]. *)
Definition reaches_levels (pass_data : SubmitPassData) (w : world)
    (pass_id : Z) (w3 : world) : Prop :=
  exists w1 user_id w2 la lo h,
    connect w = (Ret true, w1) /\
    py_all (user_fields pass_data) = true /\
    submit_create_user pass_data w1 = (Ret (Some user_id), w2) /\
    user_id <> 0%Z /\
    py_float (latitude (get_dict (coords pass_data) empty_coords)) = inr la /\
    py_float (longitude (get_dict (coords pass_data) empty_coords)) = inr lo /\
    py_int (height (get_dict (coords pass_data) empty_coords)) = inr h /\
    py_all [dict_get (title pass_data); dict_get (add_time pass_data)] = true /\
    submit_create_pass pass_data user_id la lo h w2 = (Ret (Some pass_id), w3) /\
    pass_id <> 0%Z.

(** The submission gets as far as the loop over the images: the call of
    [create_difficulty_level] has returned, with either answer. *)
Definition reaches_images (pass_data : SubmitPassData) (w : world)
    (pass_id : Z) (w4 : world) : Prop :=
  exists w3 created,
    reaches_levels pass_data w pass_id w3 /\
    submit_create_difficulty_level pass_data pass_id w3 = (Ret created, w4).

(** A field that is missing or empty. *)
Definition field_blank (f : field string) : Prop :=
  f = Missing \/ f = Null \/ f = Val "".

Definition some_user_field_blank (pass_data : SubmitPassData) : Prop :=
  let user_data := get_dict (user pass_data) empty_user in
  field_blank (email user_data) \/ field_blank (phone user_data) \/
  field_blank (fam user_data) \/ field_blank (name user_data) \/
  field_blank (otc user_data).

(** The three faults of one image, met in the world [w]. *)
Inductive image_fault (pass_id : Z) (image : ImageData) (w : world) : Prop :=
| DecodeFault (e : exn) (Hdecode : image_bytes_of image = inl e)
| TooLarge (bs : list byte) (Hdecode : image_bytes_of image = inr bs)
    (Hsize : (len bs > MAX_IMAGE_SIZE)%Z)
| InsertFault (bs : list byte) (Hdecode : image_bytes_of image = inr bs)
    (Hinsert : fst (create_image pass_id (dict_get_default (img_title image) "") bs w)
               <> Ret true).

End Properties.


(** ** A concrete setting for the examples *)

(** Numerals made of decimal digits only: a fragment of what [int()] and
    [float()] accept, enough to run the pipeline on sample data. *)
Fixpoint digits_value (s : string) (acc : Z) : option Z :=
  match s with
  | EmptyString => Some acc
  | String c rest =>
      let n := Z.of_N (N_of_ascii c) in
      if ((48 <=? n) && (n <=? 57))%Z then digits_value rest (10 * acc + (n - 48))%Z
      else None
  end.

Definition decimal_of_str (s : string) : option Z :=
  match s with
  | EmptyString => None
  | _ => digits_value s 0%Z
  end.

Definition decimal_numbers : PyNumbers :=
  {| pyfloat := Z;
     float_of_int := fun z => z;
     float_of_str := decimal_of_str;
     int_of_str := decimal_of_str |}.

Definition empty_tables : @tables decimal_numbers := mk_tables [] [] [] [].

(** A fresh [Database] object over an empty store, with the given schedule
    of library-call outcomes. *)
Definition fresh_world (fs : list (option exn)) : @world decimal_numbers :=
  mk_world empty_tables empty_tables 0 0 NoConnection 0 fs.

Definition sample_user : UserData :=
  mk_UserData (Val "qwerty@mail.ru") (Val "+7 555 55 55") (Val "Pupkin")
    (Val "Vasily") (Val "Ivanovich").

Definition sample_coords : CoordinatesData :=
  mk_CoordinatesData (Val "45") (Val "7") (Val "1200").

Definition sample_level : DifficultyLevel :=
  mk_DifficultyLevel (Val "") (Val "1A") (Val "1A") (Val "").

Definition sample_submission (imgs : list ImageData) : SubmitPassData :=
  mk_SubmitPassData (Val "per.") (Val "Pkhiya") (Val "Triev") (Val "")
    (Val "2021-09-22 13:18:13") (Some sample_user) (Some sample_coords)
    (Some sample_level) imgs.

(** The world of a [Database] object whose connection is open, over an
    empty store. *)
Definition open_world (fs : list (option exn)) : @world decimal_numbers :=
  mk_world empty_tables empty_tables 0 0 ConnOpen 0 fs.

(** The worlds a sample submission goes through: after [connect], after
    [create_user], after [create_pass] and after [create_difficulty_level]. *)
Definition sample_w1 (fs : list (option exn)) : @world decimal_numbers :=
  snd (connect (fresh_world fs)).

Definition sample_w2 (sub : SubmitPassData) (fs : list (option exn))
  : @world decimal_numbers :=
  snd (submit_create_user sub (sample_w1 fs)).

Definition sample_w3 (sub : SubmitPassData) (fs : list (option exn))
  : @world decimal_numbers :=
  snd (submit_create_pass (PN := decimal_numbers) sub 1 45%Z 7%Z 1200
         (sample_w2 sub fs)).

Definition sample_w4 (sub : SubmitPassData) (fs : list (option exn))
  : @world decimal_numbers :=
  snd (submit_create_difficulty_level sub 1 (sample_w3 sub fs)).

Definition submission_without_email : SubmitPassData :=
  mk_SubmitPassData (Val "per.") (Val "Pkhiya") (Val "Triev") (Val "")
    (Val "2021-09-22 13:18:13")
    (Some (mk_UserData Missing (Val "+7 555 55 55") (Val "Pupkin")
             (Val "Vasily") (Val "Ivanovich")))
    (Some sample_coords) (Some sample_level) [].

(** Three images: one that decodes, one with a padding that does not, one
    whose last character carries bits the decoder drops. *)
Definition image_ABC : ImageData := mk_ImageData (Val "QUJD") (Val "a").
Definition image_bad_padding : ImageData := mk_ImageData (Val "QUJ") (Val "b").
Definition image_loose_bits : ImageData := mk_ImageData (Val "QR==") (Val "c").

(** Every library call up to the insert of the difficulty levels goes
    through; that insert raises. *)
Definition faults_value_error_at_levels : list (option exn) :=
  [None; None; None; None; None; Some ValueError].

Definition faults_connection_lost_at_levels : list (option exn) :=
  [None; None; None; None; None; Some Psycopg2Error; Some Psycopg2Error].

(** An image of exactly [MAX_IMAGE_SIZE] bytes. *)
Definition boundary_bytes : list byte := repeat Byte.x00 (Z.to_nat MAX_IMAGE_SIZE).

Definition boundary_image : ImageData :=
  mk_ImageData (Val (b64encode boundary_bytes)) (Val "boundary").


(** ** The rest of [Database] and of the application *)

(** The answer of [GET /health]: the HTTP status and the two fields of the
    body. *)
Record HealthReport : Type := mk_HealthReport {
  http_status : Z;
  health_status : string;
  health_database : string
}.

(** Number of characters of a text held as UTF-8: the bytes that do not
    continue a character. This is [len(s)] of the Python [str]. *)
Fixpoint char_len (s : string) : nat :=
  match s with
  | EmptyString => 0
  | String c rest =>
      let n := N_of_ascii c in
      (if ((128 <=? n) && (n <? 192))%N then 0 else 1) + char_len rest
  end.

Section MoreCode.

Context {PN : PyNumbers}.

Notation "x <- m ;; k" := (bind m (fun x => k))
  (at level 61, m at next level, right associativity).

(** [cursor.execute(query, params)] for a query that only reads: the rows it
    selects from the tables as the session sees them. The SQL text is
    modelled by the function it denotes. *)
Definition cursor_execute_select {R : Type} (query : tables -> list R) : M (list R) :=
  _ <- library_call ;;
  fun w => (Ret (query (session w)), w).

(** [Database.fetch_one]; [cursor.fetchone()] is the first row or [None]. *)
Definition fetch_one {R : Type} (query : tables -> list R) : M (option R) :=
  try_except
    (_ <- connection_cursor ;;
     rows <- cursor_execute_select query ;;
     ret (hd_error rows))
    (fun e => if is_psycopg2_Error e then Some (ret None) else None).

(** [Database.fetch_all]; [result if result else []]. *)
Definition fetch_all {R : Type} (query : tables -> list R) : M (list R) :=
  try_except
    (_ <- connection_cursor ;;
     result <- cursor_execute_select query ;;
     ret (match result with [] => [] | _ => result end))
    (fun e => if is_psycopg2_Error e then Some (ret []) else None).

(** [health_check] of [app/main.py]. *)
Definition health_check : M HealthReport :=
  _ <- Database_init ;;
  connected <- connect ;;
  if connected then
    _ <- disconnect ;;
    ret (mk_HealthReport 200 "healthy" "connected")
  else ret (mk_HealthReport 500 "unhealthy" "disconnected").

(** ** The request models of [app/models.py]

    What pydantic accepts, read on the dictionary [model_dump()] gives: a
    required [str] field is there, an [Optional] one may be [None], and the
    [Field] bounds hold. [EmailStr] is checked by a library; its test is a
    parameter. *)

(** [str] with [Field(..., min_length=lo, max_length=hi)]. *)
Definition str_between (lo hi : nat) (f : field string) : bool :=
  match f with
  | Val s => (lo <=? char_len s)%nat && (char_len s <=? hi)%nat
  | _ => false
  end.

(** [str] without bounds. *)
Definition str_any (f : field string) : bool :=
  match f with
  | Val _ => true
  | _ => false
  end.

(** [Optional[str]] with [Field(default="", max_length=hi)]. *)
Definition optional_str_upto (hi : nat) (f : field string) : bool :=
  match f with
  | Val s => (char_len s <=? hi)%nat
  | Null => true
  | Missing => false
  end.

(** [Optional[str]] with [Field(default="")]. *)
Definition optional_str (f : field string) : bool :=
  match f with
  | Missing => false
  | _ => true
  end.

Definition valid_UserData (is_email : string -> bool) (u : UserData) : bool :=
  match email u with Val e => is_email e | _ => false end
  && str_between 5 20 (phone u)
  && str_between 1 100 (fam u)
  && str_between 1 100 (name u)
  && str_between 1 100 (otc u).

Definition valid_ImageData (i : ImageData) : bool :=
  str_any (img_data i) && str_between 1 255 (img_title i).

Definition valid_DifficultyLevel (l : DifficultyLevel) : bool :=
  optional_str_upto 5 (winter l) && optional_str_upto 5 (spring l)
  && optional_str_upto 5 (summer l) && optional_str_upto 5 (autumn l).

Definition valid_CoordinatesData (c : CoordinatesData) : bool :=
  str_any (latitude c) && str_any (longitude c) && str_any (height c).

Definition valid_SubmitPassData (is_email : string -> bool) (d : SubmitPassData) : bool :=
  match beauty_title d with Val s => (char_len s <=? 255)%nat | _ => false end
  && str_between 1 255 (title d)
  && optional_str_upto 255 (other_titles d)
  && optional_str (connect_ d)
  && str_any (add_time d)
  && match user d with Some u => valid_UserData is_email u | None => false end
  && match coords d with Some c => valid_CoordinatesData c | None => false end
  && match level d with Some l => valid_DifficultyLevel l | None => false end
  && forallb valid_ImageData (images d).

(** ** Vocabulary of the further statements *)

(** The text values of a column, NULLs left out. *)
Definition non_null (vs : list pystr) : list string :=
  flat_map (fun v => match v with Some s => [s] | None => [] end) vs.

(** Identities handed out by a sequence whose last value is [seq]: distinct,
    positive, not beyond [seq]. *)
Definition ids_from_sequence (ids : list Z) (seq : Z) : Prop :=
  NoDup ids /\ Forall (fun i => (0 < i <= seq)%Z) ids.

(** The committed store is consistent: the sequences are not negative, user
    and pass ids come from their sequences, no email occurs twice, every
    pass belongs to a user and every difficulty level and image to a
    pass. *)
Definition store_ok (w : world) : Prop :=
  (0 <= users_id_seq w)%Z /\ (0 <= passes_id_seq w)%Z /\
  ids_from_sequence (map u_id (users (committed w))) (users_id_seq w) /\
  ids_from_sequence (map p_id (passes (committed w))) (passes_id_seq w) /\
  NoDup (non_null (map u_email (users (committed w)))) /\
  Forall (fun p => In (p_user_id p) (map u_id (users (committed w))))
    (passes (committed w)) /\
  Forall (fun d => In (d_pass_id d) (map p_id (passes (committed w))))
    (difficulty_levels (committed w)) /\
  Forall (fun i => In (i_pass_id i) (map p_id (passes (committed w))))
    (images_ (committed w)).

(** The image rows a pass can get from a list of images: in the order of
    the list, each from an image whose data decode to at most
    [MAX_IMAGE_SIZE] bytes, any image possibly left out. *)
Inductive stored_from (pass_id : Z) : list ImageData -> list image_row -> Prop :=
| stored_nil : stored_from pass_id [] []
| stored_skip image rest rows :
    stored_from pass_id rest rows ->
    stored_from pass_id (image :: rest) rows
| stored_keep image bs rest rows :
    image_bytes_of image = inr bs ->
    (len bs <= MAX_IMAGE_SIZE)%Z ->
    stored_from pass_id rest rows ->
    stored_from pass_id (image :: rest) (image_row_of pass_id image bs :: rows).

(** The pass a statement of [execute_query] writes for. *)
Definition statement_pass_id (q : statement) : Z :=
  match q with
  | InsertDifficultyLevel row => d_pass_id row
  | InsertImage row => i_pass_id row
  end.

(** One table is the other with rows added at its end. *)
Definition extends {A : Type} (before after : list A) : Prop :=
  exists added, after = (before ++ added)%list.

(** The rows by which the tables [after] exceed the tables [before]. *)
Definition adds (before after : tables) (us : list user_row) (ps : list pass_row)
    (ds : list difficulty_row) (rows : list image_row) : Prop :=
  users after = (users before ++ us)%list /\
  passes after = (passes before ++ ps)%list /\
  difficulty_levels after = (difficulty_levels before ++ ds)%list /\
  images_ after = (images_ before ++ rows)%list.

(** The pass row of a submission, under the id [pass_id]. *)
Definition pass_row_of_submission (pass_data : SubmitPassData) (pass_id : Z)
    (p : pass_row) : Prop :=
  p_id p = pass_id /\ p_status p = "new" /\
  p_title p = dict_get (title pass_data) /\
  p_add_time p = dict_get (add_time pass_data) /\
  truthy (p_title p) = true /\ truthy (p_add_time p) = true.

(** All a submission can leave in the tables: at most one user row, with
    the submitted email; at most one pass row, that of the submission; and,
    only with the pass row, at most one row of difficulty levels and rows
    for some of its images, all for that pass. *)
Definition footprint (pass_data : SubmitPassData) (before after : tables)
    (pass_id : Z) : Prop :=
  exists us ps ds rows,
    adds before after us ps ds rows /\
    (List.length us <= 1)%nat /\ (List.length ps <= 1)%nat /\
    (List.length ds <= 1)%nat /\
    (ps = [] -> ds = [] /\ rows = []) /\
    Forall (fun u => u_email u
                     = dict_get (email (get_dict (user pass_data) empty_user))) us /\
    Forall (pass_row_of_submission pass_data pass_id) ps /\
    Forall (fun d => d_pass_id d = pass_id) ds /\
    stored_from pass_id (images pass_data) rows.

(** Title or add_time is missing or empty. *)
Definition some_pass_field_blank (pass_data : SubmitPassData) : Prop :=
  field_blank (title pass_data) \/ field_blank (add_time pass_data).

(** One of the three coordinates does not convert. *)
Definition some_coordinate_not_numeric (pass_data : SubmitPassData) : Prop :=
  let c := get_dict (coords pass_data) empty_coords in
  (exists e, py_float (latitude c) = inl e) \/
  (exists e, py_float (longitude c) = inl e) \/
  (exists e, py_int (height c) = inl e).

(** The submission gets as far as the pass fields: the connection is
    acquired, the user fields are all there and [create_user] gives the user
    id [user_id], not zero, leaving the world [w2]. *)
Definition reaches_pass_fields (pass_data : SubmitPassData) (w : world)
    (user_id : Z) (w2 : world) : Prop :=
  exists w1,
    connect w = (Ret true, w1) /\
    py_all (user_fields pass_data) = true /\
    submit_create_user pass_data w1 = (Ret (Some user_id), w2) /\
    user_id <> 0%Z.

End MoreCode.


(** ** Further sample data *)

(** The sample submission with an empty add_time: the request models let it
    through, the check of the required fields does not. *)
Definition submission_without_add_time : SubmitPassData :=
  mk_SubmitPassData (Val "per.") (Val "Pkhiya") (Val "Triev") (Val "")
    (Val "") (Some sample_user) (Some sample_coords) (Some sample_level) [].

(** The sample submission with a latitude that is no number. *)
Definition submission_bad_latitude : SubmitPassData :=
  mk_SubmitPassData (Val "per.") (Val "Pkhiya") (Val "Triev") (Val "")
    (Val "2021-09-22 13:18:13") (Some sample_user)
    (Some (mk_CoordinatesData (Val "north") (Val "7") (Val "1200")))
    (Some sample_level) [].

(** The connection and the user are obtained; the insert of the pass raises
    a [psycopg2.Error]. *)
Definition faults_at_create_pass : list (option exn) :=
  [None; None; None; Some Psycopg2Error].

Definition image_empty_data : ImageData := mk_ImageData (Val "") (Val "empty").

Definition sample_levels_statement : statement :=
  InsertDifficultyLevel (mk_difficulty_row 1 (Some "") (Some "1A") (Some "1A") (Some "")).

(** A check of email addresses that asks for an at sign only. *)
Fixpoint has_at_sign (s : string) : bool :=
  match s with
  | EmptyString => false
  | String c rest => Ascii.eqb c "@" || has_at_sign rest
  end.

Example b64decode_ABC : b64decode "QUJD" = inr (bytes_of_string "ABC").
Proof. reflexivity. Qed.

Example b64decode_pad2 : b64decode "QQ==" = inr (bytes_of_string "A").
Proof. reflexivity. Qed.

Example b64decode_pad1 : b64decode "QUI=" = inr (bytes_of_string "AB").
Proof. reflexivity. Qed.

Example b64decode_bad_padding : b64decode "QUI" = inl BinasciiError.
Proof. reflexivity. Qed.

Example b64decode_blank : b64decode "QU JD" = inr (bytes_of_string "ABC").
Proof. reflexivity. Qed.

Example b64encode_ABC : b64encode (bytes_of_string "ABC") = "QUJD".
Proof. reflexivity. Qed.

Example b64encode_A : b64encode (bytes_of_string "A") = "QQ==".
Proof. reflexivity. Qed.
(** ** The decoder inverts the encoder *)



Local Open Scope N_scope.

Lemma forall_below_spec (n : nat) (P : N -> bool) :
  forall_below n P = true -> forall v, v < N.of_nat n -> P v = true.
Proof.
  induction n as [|k IH]; intros H v Hv.
  - lia.
  - cbn [forall_below] in H. apply andb_prop in H. destruct H as [Hk Hrest].
    destruct (N.eq_dec v (N.of_nat k)) as [->|Hne]; [exact Hk|].
    apply IH; [exact Hrest | lia].
Qed.

Lemma forall_byte_spec (P : byte -> bool) :
  forall_byte P = true -> forall b, P b = true.
Proof.
  intros H b. unfold forall_byte in H.
  pose proof (forall_below_spec 256 _ H (Byte.to_N b)) as Hb.
  cbv beta in Hb. rewrite Byte.of_to_N in Hb. apply Hb.
  pose proof (Byte.to_N_bounded b). change (N.of_nat 256) with 256. lia.
Qed.

Lemma sextet_ok_spec v :
  sextet_ok v = true ->
  table_a2b (table_b2a v) = Some v /\ Ascii.eqb (table_b2a v) BASE64_PAD = false.
Proof.
  unfold sextet_ok. destruct (table_a2b (table_b2a v)) as [w|]; [|discriminate].
  intros H. apply andb_prop in H. destruct H as [Hw Hp].
  apply N.eqb_eq in Hw. subst w. split; [reflexivity|].
  now apply negb_true_iff in Hp.
Qed.

Lemma byte_is_spec n b : byte_is n b = true -> byte_of_N n = b.
Proof. apply Byte.byte_dec_bl. Qed.

Lemma check0_all b0 : check0 b0 = true.
Proof. revert b0. apply forall_byte_spec. vm_compute. reflexivity. Qed.

Lemma check1_all b1 : check1 b1 = true.
Proof. revert b1. apply forall_byte_spec. vm_compute. reflexivity. Qed.

Lemma check2_all b2 : check2 b2 = true.
Proof. revert b2. apply forall_byte_spec. vm_compute. reflexivity. Qed.

Lemma check01_all b0 b1 : check01 b0 b1 = true.
Proof.
  revert b1. apply forall_byte_spec. revert b0. apply forall_byte_spec.
  vm_compute. reflexivity.
Qed.

Lemma check12_all b1 b2 : check12 b1 b2 = true.
Proof.
  revert b2. apply forall_byte_spec. revert b1. apply forall_byte_spec.
  vm_compute. reflexivity.
Qed.

Ltac split_checks :=
  repeat match goal with
         | H : (_ && _)%bool = true |- _ => apply andb_prop in H; destruct H
         | H : byte_is _ _ = true |- _ => apply byte_is_spec in H
         | H : (_ =? _) = true |- _ => apply N.eqb_eq in H
         end.

Ltac use_checks :=
  repeat match goal with
         | H : byte_of_N _ = _ |- _ => rewrite H; clear H
         | H : N.land _ _ = _ |- _ => rewrite H; clear H
         end.

Ltac a2b_step :=
  cbn -[enc0 enc1 enc2 enc3 enc1_last enc2_last hi4 hi2 byte_of_N
        N.lor N.shiftl N.shiftr N.land].

(** One alphabet character moves the decoder by one [a2b_push]. *)
Lemma a2b_loop_sextet v rest st :
  sextet_ok v = true ->
  a2b_loop (String (table_b2a v) rest) st = a2b_loop rest (a2b_push st v).
Proof.
  intros H. apply sextet_ok_spec in H. destruct H as [Htab Hpad].
  cbn [a2b_loop]. rewrite Hpad, Htab. reflexivity.
Qed.

Lemma list_ind3 {A : Type} (P : list A -> Prop) :
  P [] -> (forall a, P [a]) -> (forall a b, P [a; b]) ->
  (forall a b c l, P l -> P (a :: b :: c :: l)) ->
  forall l, P l.
Proof.
  intros H0 H1 H2 H3.
  refine (fix go (l : list A) : P l :=
            match l with
            | [] => H0
            | [a] => H1 a
            | [a; b] => H2 a b
            | a :: b :: c :: l' => H3 a b c l' (go l')
            end).
Qed.

Lemma a2b_loop_b2a data :
  forall lc p out,
    a2b_loop (b2a_base64 data) (mk_a2b 0 lc p out) = Some (rev out ++ data)%list.
Proof.
  induction data as [|b0|b0 b1|b0 b1 b2 rest IH] using list_ind3; intros lc p out.
  - cbn. now rewrite app_nil_r.
  - pose proof (check0_all b0) as C0. unfold check0 in C0. split_checks.
    cbn [b2a_base64].
    change (N.shiftr (N_of_byte b0) 2) with (enc0 b0).
    change (N.shiftl (N.land (N_of_byte b0) 3) 4) with (enc1_last b0).
    rewrite !a2b_loop_sextet by assumption.
    a2b_step. use_checks. reflexivity.
  - pose proof (check0_all b0) as C0. unfold check0 in C0.
    pose proof (check01_all b0 b1) as C01. unfold check01 in C01.
    pose proof (check1_all b1) as C1. unfold check1 in C1. split_checks.
    cbn [b2a_base64].
    change (N.shiftr (N_of_byte b0) 2) with (enc0 b0).
    change (N.lor (N.shiftl (N.land (N_of_byte b0) 3) 4) (N.shiftr (N_of_byte b1) 4))
      with (enc1 b0 b1).
    change (N.shiftl (N.land (N_of_byte b1) 15) 2) with (enc2_last b1).
    rewrite !a2b_loop_sextet by assumption.
    a2b_step. use_checks. now rewrite <- !app_assoc.
  - pose proof (check0_all b0) as C0. unfold check0 in C0.
    pose proof (check01_all b0 b1) as C01. unfold check01 in C01.
    pose proof (check12_all b1 b2) as C12. unfold check12 in C12.
    pose proof (check2_all b2) as C2. unfold check2 in C2. split_checks.
    cbn [b2a_base64].
    change (N.shiftr (N_of_byte b0) 2) with (enc0 b0).
    change (N.lor (N.shiftl (N.land (N_of_byte b0) 3) 4) (N.shiftr (N_of_byte b1) 4))
      with (enc1 b0 b1).
    change (N.lor (N.shiftl (N.land (N_of_byte b1) 15) 2) (N.shiftr (N_of_byte b2) 6))
      with (enc2 b1 b2).
    change (N.land (N_of_byte b2) 63) with (enc3 b2).
    rewrite !a2b_loop_sextet by assumption.
    a2b_step. use_checks. rewrite IH. cbn [rev]. now rewrite <- !app_assoc.
Qed.

Lemma table_b2a_is_ascii v : (N_of_ascii (table_b2a v) <? 128) = true.
Proof.
  destruct (N.lt_ge_cases v 64) as [Hlt|Hge].
  - revert v Hlt. change 64 with (N.of_nat 64).
    apply (forall_below_spec 64 (fun v => N_of_ascii (table_b2a v) <? 128)).
    vm_compute. reflexivity.
  - unfold table_b2a. rewrite nth_overflow; [reflexivity|].
    change (List.length alphabet) with 64%nat. lia.
Qed.

Lemma b2a_base64_is_ascii data : is_ascii (b2a_base64 data) = true.
Proof.
  induction data as [|b0|b0 b1|b0 b1 b2 rest IH] using list_ind3;
    cbn [b2a_base64 is_ascii]; rewrite ?table_b2a_is_ascii, ?IH; reflexivity.
Qed.

(** Decoding the encoding of a byte string gives the byte string back. *)
Lemma b64decode_b64encode data : b64decode (b64encode data) = inr data.
Proof.
  unfold b64decode, b64encode, a2b_base64, a2b_init.
  rewrite b2a_base64_is_ascii, a2b_loop_b2a. reflexivity.
Qed.

Local Close Scope N_scope.

(** ** The pipeline: general facts *)

Section PipelineFacts.

Context {PN : PyNumbers}.

Lemma bind_Ret {A B : Type} (m : M A) (k : A -> M B) w a w1 :
  m w = (Ret a, w1) -> bind m k w = k a w1.
Proof. intros H. unfold bind. now rewrite H. Qed.

Lemma bind_Raise {A B : Type} (m : M A) (k : A -> M B) w e w1 :
  m w = (Raise e, w1) -> bind m k w = (Raise e, w1).
Proof. intros H. unfold bind. now rewrite H. Qed.

Lemma bind_inv {A B : Type} (m : M A) (k : A -> M B) w r w' :
  bind m k w = (r, w') ->
  (exists a w1, m w = (Ret a, w1) /\ k a w1 = (r, w')) \/
  (exists e, m w = (Raise e, w') /\ r = Raise e).
Proof.
  unfold bind. destruct (m w) as [[a|e] w1]; intros H.
  - left. now exists a, w1.
  - right. inversion H; subst. now exists e.
Qed.

Lemma try_except_inv {A : Type} (m : M A) (h : exn -> option (M A)) w r w' :
  try_except m h w = (r, w') ->
  (exists a, m w = (Ret a, w') /\ r = Ret a) \/
  (exists e w1 hd, m w = (Raise e, w1) /\ h e = Some hd /\ hd w1 = (r, w')) \/
  (exists e, m w = (Raise e, w') /\ h e = None /\ r = Raise e).
Proof.
  unfold try_except. destruct (m w) as [[a|e] w1]; intros H.
  - left. inversion H; subst. now exists a.
  - destruct (h e) as [hd|] eqn:He.
    + right; left. now exists e, w1, hd.
    + right; right. inversion H; subst. now exists e.
Qed.

Lemma grows_refl w : ready w -> grows w w.
Proof.
  intros Hr. unfold grows. repeat split; try exact (proj1 Hr); try exact (proj2 Hr);
    exists []; now rewrite app_nil_r.
Qed.

Lemma grows_trans w1 w2 w3 : grows w1 w2 -> grows w2 w3 -> grows w1 w3.
Proof.
  intros (_ & Hc1 & [lu1 Hu1] & [lp1 Hp1] & [ld1 Hd1] & [li1 Hi1])
         (Hr & Hc2 & [lu2 Hu2] & [lp2 Hp2] & [ld2 Hd2] & [li2 Hi2]).
  unfold grows. split; [exact Hr|]. split; [congruence|].
  repeat split.
  - exists (lu1 ++ lu2)%list. now rewrite Hu2, Hu1, app_assoc.
  - exists (lp1 ++ lp2)%list. now rewrite Hp2, Hp1, app_assoc.
  - exists (ld1 ++ ld2)%list. now rewrite Hd2, Hd1, app_assoc.
  - exists (li1 ++ li2)%list. now rewrite Hi2, Hi1, app_assoc.
Qed.

Lemma grows_ready w w' : grows w w' -> ready w'.
Proof. now intros [H _]. Qed.

Lemma steady_ret {A : Type} (a : A) : steady (ret a).
Proof. intros w r w' Hr H. inversion H; subst. now apply grows_refl. Qed.

Lemma steady_raise {A : Type} (e : exn) : steady (@raise PN A e).
Proof. intros w r w' Hr H. inversion H; subst. now apply grows_refl. Qed.

Lemma steady_pure_call {A : Type} (r : exn + A) : steady (pure_call r).
Proof. destruct r; [apply steady_raise | apply steady_ret]. Qed.

Lemma steady_bind {A B : Type} (m : M A) (k : A -> M B) :
  steady m -> (forall a, steady (k a)) -> steady (bind m k).
Proof.
  intros Hm Hk w r w' Hr H.
  apply bind_inv in H. destruct H as [(a & w1 & H1 & H2)|(e & H1 & _)].
  - pose proof (Hm _ _ _ Hr H1) as G1.
    eapply grows_trans; [exact G1|]. eapply Hk; [|exact H2]. now apply grows_ready in G1.
  - eapply Hm; eauto.
Qed.

Lemma steady_try_except {A : Type} (m : M A) (h : exn -> option (M A)) :
  steady m -> (forall e hd, h e = Some hd -> steady hd) -> steady (try_except m h).
Proof.
  intros Hm Hh w r w' Hr H.
  apply try_except_inv in H.
  destruct H as [(a & H1 & _)|[(e & w1 & hd & H1 & He & H2)|(e & H1 & _)]].
  - eapply Hm; eauto.
  - pose proof (Hm _ _ _ Hr H1) as G1.
    eapply grows_trans; [exact G1|]. eapply Hh; eauto. now apply grows_ready in G1.
  - eapply Hm; eauto.
Qed.

(** A run is known from its result: the world is the one the run leaves. *)
Lemma run_eq {A : Type} (m : M A) w r :
  fst (m w) = r -> m w = (r, snd (m w)).
Proof. intros <-. now destruct (m w). Qed.

(** ** The methods of [Database], one by one *)

Ltac break_world w :=
  let cm := fresh "cm" in
  let ss := fresh "ss" in
  let us := fresh "us" in
  let ps := fresh "ps" in
  let cn := fresh "cn" in
  let cc := fresh "cc" in
  let fs := fresh "fs" in
  destruct w as [cm ss us ps cn cc fs]; cbn in *; subst.

(** Follow a method through the outcomes scheduled for its library calls. *)
Ltac run_calls :=
  repeat (cbn;
    match goal with
    | |- context [hd None ?fs] => is_var fs; destruct fs as [|[?|] ?]
    | |- context [is_IntegrityError ?e] => is_var e; destruct e
    | |- context [is_psycopg2_Error ?e] => is_var e; destruct e
    | |- context [existsb ?f ?l] => destruct (existsb f l) eqn:?
    end).

Ltac unfold_methods H :=
  unfold execute_query, create_user, create_pass, try_except, bind,
    connection_cursor, self_connection, cursor_execute, execute_insert_user,
    execute_select_user_id, execute_insert_pass, nextval_users, nextval_passes,
    connection_commit, connection_rollback, library_call, ret in H.

Ltac close_cases :=
  unfold ready; cbn; repeat split; auto;
  try (left; repeat split; reflexivity);
  try (right; repeat split; solve [reflexivity | discriminate | eauto]).

Lemma execute_query_spec q w r w' :
  ready w -> execute_query q w = (r, w') ->
  ready w' /\ close_calls w' = close_calls w /\
  users_id_seq w' = users_id_seq w /\ passes_id_seq w' = passes_id_seq w /\
  ((r = Ret true /\ committed w' = run_statement q (committed w))
   \/ ((r = Ret false \/ exists e, r = Raise e) /\ committed w' = committed w)).
Proof.
  intros [Hc Hs] H. break_world w. unfold_methods H.
  revert H. run_calls; intros H; inversion H; subst; clear H; close_cases.
Qed.

Lemma create_pass_spec bt t ot cn at_ uid la lo h w r w' :
  ready w -> create_pass bt t ot cn at_ uid la lo h w = (r, w') ->
  ready w' /\ close_calls w' = close_calls w /\
  users_id_seq w' = users_id_seq w /\
  ((r = Ret (Some (passes_id_seq w + 1)%Z) /\
    passes_id_seq w' = (passes_id_seq w + 1)%Z /\
    committed w' =
      add_pass (committed w)
        (mk_pass_row (passes_id_seq w + 1) bt t ot cn at_ uid la lo h "new"))
   \/ ((r = Ret None \/ exists e, r = Raise e) /\ committed w' = committed w)).
Proof.
  intros [Hc Hs] H. break_world w. unfold_methods H.
  revert H. run_calls; intros H; inversion H; subst; clear H; close_cases.
Qed.

Lemma create_user_spec em ph fa na ot w r w' :
  ready w -> create_user em ph fa na ot w = (r, w') ->
  ready w' /\ close_calls w' = close_calls w /\
  passes_id_seq w' = passes_id_seq w /\
  ((r = Ret (Some (users_id_seq w + 1)%Z) /\
    committed w' =
      add_user (committed w) (mk_user_row (users_id_seq w + 1) em ph fa na ot))
   \/ (committed w' = committed w /\
       (r = Ret (option_map u_id
                   (find (fun u => sql_eq (u_email u) em) (users (committed w))))
        \/ r = Ret None \/ exists e, r = Raise e))).
Proof.
  intros [Hc Hs] H. break_world w. unfold_methods H.
  revert H. run_calls; intros H; inversion H; subst; clear H; close_cases.
Qed.

Lemma grows_of_committed w w' :
  ready w' -> close_calls w' = close_calls w ->
  (exists l, users (committed w') = users (committed w) ++ l)%list ->
  (exists l, passes (committed w') = passes (committed w) ++ l)%list ->
  (exists l, difficulty_levels (committed w') = difficulty_levels (committed w) ++ l)%list ->
  (exists l, images_ (committed w') = images_ (committed w) ++ l)%list ->
  grows w w'.
Proof. unfold grows. tauto. Qed.

Ltac same_or_one :=
  match goal with
  | |- exists l, ?x = (?x ++ l)%list => exists []; now rewrite app_nil_r
  | |- exists l, (?x ++ [?r])%list = (?x ++ l)%list => exists [r]; reflexivity
  end.

Lemma steady_execute_query q : steady (execute_query q).
Proof.
  intros w r w' Hr H.
  destruct (execute_query_spec _ _ _ _ Hr H) as (Hr' & Hc & _ & _ & [[_ Hcm]|[_ Hcm]]);
    apply grows_of_committed; auto; rewrite Hcm; try same_or_one;
    destruct q; cbn; same_or_one.
Qed.

Lemma steady_create_pass bt t ot cn at_ uid la lo h :
  steady (create_pass bt t ot cn at_ uid la lo h).
Proof.
  intros w r w' Hr H.
  destruct (create_pass_spec _ _ _ _ _ _ _ _ _ _ _ _ Hr H)
    as (Hr' & Hc & _ & [(_ & _ & Hcm)|[_ Hcm]]);
    apply grows_of_committed; auto; rewrite Hcm; cbn; same_or_one.
Qed.

Lemma steady_create_user em ph fa na ot : steady (create_user em ph fa na ot).
Proof.
  intros w r w' Hr H.
  destruct (create_user_spec _ _ _ _ _ _ _ _ Hr H)
    as (Hr' & Hc & _ & [[_ Hcm]|[Hcm _]]);
    apply grows_of_committed; auto; rewrite Hcm; cbn; same_or_one.
Qed.

Lemma steady_create_difficulty_level pid wi sp su au :
  steady (create_difficulty_level pid wi sp su au).
Proof. apply steady_execute_query. Qed.

Lemma steady_create_image pid t bs : steady (create_image pid t bs).
Proof. apply steady_execute_query. Qed.

Lemma steady_process_image pid image : steady (process_image pid image).
Proof.
  unfold process_image. apply steady_try_except.
  - apply steady_bind; [apply steady_pure_call|]. intros bs.
    destruct (len bs >? MAX_IMAGE_SIZE)%Z; [apply steady_ret|].
    apply steady_bind; [apply steady_create_image | intros; apply steady_ret].
  - intros e hd He. cbn in He. inversion He; subst. apply steady_ret.
Qed.

Lemma steady_for_images pid images : steady (for_images pid images).
Proof.
  induction images as [|image rest IH]; cbn [for_images].
  - apply steady_ret.
  - apply steady_bind; [apply steady_process_image | intros; exact IH].
Qed.

Lemma steady_submit_levels_and_images sub pid :
  steady (submit_levels_and_images sub pid).
Proof.
  unfold submit_levels_and_images.
  apply steady_bind; [apply steady_create_difficulty_level | intros _].
  apply steady_bind; [apply steady_for_images | intros; apply steady_ret].
Qed.

Lemma steady_submit_pass sub uid : steady (submit_pass sub uid).
Proof.
  unfold submit_pass.
  apply steady_bind; [apply steady_pure_call | intros la].
  apply steady_bind; [apply steady_pure_call | intros lo].
  apply steady_bind; [apply steady_pure_call | intros h].
  destruct (negb _); [apply steady_ret|].
  apply steady_bind; [apply steady_create_pass | intros [pid|]]; [|apply steady_ret].
  destruct (pid =? 0)%Z; [apply steady_ret | apply steady_submit_levels_and_images].
Qed.

Lemma steady_submit_body sub : steady (submit_body sub).
Proof.
  unfold submit_body.
  destruct (negb _); [apply steady_ret|].
  apply steady_bind; [apply steady_create_user | intros [uid|]]; [|apply steady_ret].
  destruct (uid =? 0)%Z; [apply steady_ret | apply steady_submit_pass].
Qed.

(** The loop over the images never raises. *)
Lemma process_image_returns pid image w :
  exists w', process_image pid image w = (Ret tt, w').
Proof.
  unfold process_image, try_except.
  destruct (bind _ _ w) as [[[]|e] w1]; cbn; unfold ret; eauto.
Qed.

Lemma for_images_returns pid images w :
  exists w', for_images pid images w = (Ret tt, w').
Proof.
  revert w. induction images as [|image rest IH]; intros w; cbn [for_images].
  - now exists w.
  - destruct (process_image_returns pid image w) as [w1 H1].
    rewrite (bind_Ret _ _ _ _ _ H1). apply IH.
Qed.

Lemma for_images_app pid pre post w w1 :
  for_images pid pre w = (Ret tt, w1) ->
  for_images pid (pre ++ post) w = for_images pid post w1.
Proof.
  revert w. induction pre as [|image rest IH]; intros w H; cbn [for_images app] in *.
  - unfold ret in H. now inversion H.
  - destruct (process_image_returns pid image w) as [w2 H2].
    rewrite (bind_Ret _ _ _ _ _ H2) in H. rewrite (bind_Ret _ _ _ _ _ H2).
    now apply IH.
Qed.

(** ** [submit_pass_data], step by step *)

Lemma connect_true w w1 :
  connect w = (Ret true, w1) ->
  ready w1 /\ close_calls w1 = close_calls w /\ committed w1 = committed w /\
  users_id_seq w1 = users_id_seq w /\ passes_id_seq w1 = passes_id_seq w /\
  faults w1 = tl (faults w) /\ call_outcome 0 w = None.
Proof.
  unfold connect, try_except, bind, psycopg2_connect, library_call, ret, call_outcome.
  break_world w. destruct fs as [|[e|] fs]; cbn.
  - intros H. inversion H; subst. unfold ready. cbn. tauto.
  - destruct (is_psycopg2_Error e); intros H; inversion H.
  - intros H. inversion H; subst. unfold ready. cbn. tauto.
Qed.

Lemma connect_call_ok w :
  call_outcome 0 w = None -> exists w1, connect w = (Ret true, w1).
Proof.
  unfold connect, try_except, bind, psycopg2_connect, library_call, ret, call_outcome.
  break_world w. destruct fs as [|[e|] fs]; cbn; intros H; try discriminate; eauto.
Qed.

(** When [connect] does not answer [True], nothing but the schedule moves. *)
Lemma connect_not_true w r w1 :
  connect w = (r, w1) -> r <> Ret true ->
  w1 = set_faults w (tl (faults w)) /\
  exists e, call_outcome 0 w = Some e /\
            r = if is_psycopg2_Error e then Ret false else Raise e.
Proof.
  unfold connect, try_except, bind, psycopg2_connect, library_call, ret, call_outcome.
  break_world w. destruct fs as [|[e|] fs]; cbn.
  - intros H. inversion H; subst. congruence.
  - destruct (is_psycopg2_Error e) eqn:He; intros H; inversion H; subst; intros _;
      (split; [reflexivity|]); exists e; rewrite He; auto.
  - intros H. inversion H; subst. congruence.
Qed.

Lemma disconnect_ready w :
  ready w ->
  disconnect w = (Ret tt, mk_world (committed w) (committed w) (users_id_seq w)
                            (passes_id_seq w) ConnClosed (S (close_calls w)) (faults w)).
Proof. intros [Hc _]. unfold disconnect. now rewrite Hc. Qed.

(** The [try] statement with its handlers, run from the world [w1]. *)
Lemma guarded_body_returns sub w1 :
  exists o w2, try_except (submit_body sub) unexpected_error w1 = (Ret o, w2).
Proof.
  unfold try_except. destruct (submit_body sub w1) as [[o|e] w2]; cbn; eauto.
  unfold ret. eauto.
Qed.

Lemma submit_pass_data_connected sub w w1 :
  connect w = (Ret true, w1) ->
  submit_pass_data sub w =
    try_finally (try_except (submit_body sub) unexpected_error) disconnect w1.
Proof.
  intros H. unfold submit_pass_data. rewrite (bind_Ret _ _ _ _ _ H). reflexivity.
Qed.

Lemma submit_pass_data_after_body sub w w1 o w2 :
  connect w = (Ret true, w1) ->
  try_except (submit_body sub) unexpected_error w1 = (Ret o, w2) ->
  grows w1 w2 /\
  submit_pass_data sub w =
    (Ret o, mk_world (committed w2) (committed w2) (users_id_seq w2)
              (passes_id_seq w2) ConnClosed (S (close_calls w2)) (faults w2)).
Proof.
  intros Hc Hb.
  assert (G : grows w1 w2).
  { apply connect_true in Hc. destruct Hc as [Hr _].
    revert Hb. apply steady_try_except; [apply steady_submit_body| |exact Hr].
    intros e hd He. unfold unexpected_error in He. cbn in He. inversion He.
    apply steady_ret. }
  split; [exact G|].
  rewrite (submit_pass_data_connected _ _ _ Hc). unfold try_finally. rewrite Hb.
  rewrite (disconnect_ready w2 (grows_ready _ _ G)). reflexivity.
Qed.

Lemma submit_body_reaches_levels sub w pid w3 :
  reaches_levels sub w pid w3 ->
  exists w1, connect w = (Ret true, w1) /\ grows w1 w3 /\
             submit_body sub w1 = submit_levels_and_images sub pid w3.
Proof.
  intros (w1 & uid & w2 & la & lo & h & Hc & Hu & Hcu & Huid & Hla & Hlo & Hh & Ht & Hcp & Hpid).
  exists w1. split; [exact Hc|].
  pose proof (connect_true _ _ Hc) as (Hr1 & _).
  pose proof (steady_create_user _ _ _ _ _ _ _ _ Hr1 Hcu) as G12.
  pose proof (steady_create_pass _ _ _ _ _ _ _ _ _ _ _ _ (grows_ready _ _ G12) Hcp) as G23.
  split; [eapply grows_trans; eauto|].
  unfold submit_body. unfold user_fields in Hu. rewrite Hu. cbn [negb].
  unfold submit_create_user in Hcu. rewrite (bind_Ret _ _ _ _ _ Hcu).
  apply Z.eqb_neq in Huid. rewrite Huid.
  unfold submit_pass. rewrite Hla, Hlo, Hh. cbn [pure_call].
  unfold bind at 1. unfold ret at 1. unfold bind at 1. unfold ret at 1.
  unfold bind at 1. unfold ret at 1.
  rewrite Ht. cbn [negb].
  unfold submit_create_pass in Hcp. rewrite (bind_Ret _ _ _ _ _ Hcp).
  apply Z.eqb_neq in Hpid. rewrite Hpid. reflexivity.
Qed.

Lemma submit_levels_and_images_returns sub pid w3 created w4 :
  submit_create_difficulty_level sub pid w3 = (Ret created, w4) ->
  exists w5, for_images pid (images sub) w4 = (Ret tt, w5) /\
             submit_levels_and_images sub pid w3 = (Ret (200%Z, None, Some pid), w5).
Proof.
  intros Hd. destruct (for_images_returns pid (images sub) w4) as [w5 Hf].
  exists w5. split; [exact Hf|].
  unfold submit_levels_and_images. unfold submit_create_difficulty_level in Hd.
  rewrite (bind_Ret _ _ _ _ _ Hd). rewrite (bind_Ret _ _ _ _ _ Hf). reflexivity.
Qed.

(** A submission that reaches the loop over the images ends with 200 and the
    pass id, in the world the loop leaves, the connection closed. *)
Lemma submit_reaches_images sub w pid w4 :
  reaches_images sub w pid w4 ->
  exists w5,
    ready w4 /\ grows w4 w5 /\
    for_images pid (images sub) w4 = (Ret tt, w5) /\
    submit_pass_data sub w =
      (Ret (200%Z, None, Some pid),
       mk_world (committed w5) (committed w5) (users_id_seq w5)
         (passes_id_seq w5) ConnClosed (S (close_calls w5)) (faults w5)).
Proof.
  intros (w3 & created & Hreach & Hd).
  destruct (submit_body_reaches_levels _ _ _ _ Hreach) as (w1 & Hc & G13 & Hbody).
  destruct (submit_levels_and_images_returns _ _ _ _ _ Hd) as (w5 & Hf & Hl).
  pose proof (steady_create_difficulty_level _ _ _ _ _ _ _ _ (grows_ready _ _ G13) Hd) as G34.
  pose proof (steady_for_images _ _ _ _ _ (grows_ready _ _ G34) Hf) as G45.
  exists w5. split; [exact (grows_ready _ _ G34)|]. split; [exact G45|].
  split; [exact Hf|].
  assert (Hb : try_except (submit_body sub) unexpected_error w1
               = (Ret (200%Z, None, Some pid), w5)).
  { unfold try_except. rewrite Hbody, Hl. reflexivity. }
  exact (proj2 (submit_pass_data_after_body _ _ _ _ _ Hc Hb)).
Qed.

(** ** The shape of every outcome *)

Lemma outcome_ok_200 pid : outcome_ok (200%Z, None, Some pid).
Proof.
  unfold outcome_ok. split; [now left|]. split.
  - split; [intros _; split; [discriminate | reflexivity] | reflexivity].
  - intros [H|H]; discriminate H.
Qed.

Lemma outcome_ok_400 msg : outcome_ok (400%Z, Some msg, None).
Proof.
  unfold outcome_ok. split; [now right; left|]. split.
  - split; [discriminate | intros [H _]; now elim H].
  - intros _. split; [reflexivity | discriminate].
Qed.

Lemma outcome_ok_500 msg : outcome_ok (500%Z, Some msg, None).
Proof.
  unfold outcome_ok. split; [now right; right|]. split.
  - split; [discriminate | intros [H _]; now elim H].
  - intros _. split; [reflexivity | discriminate].
Qed.

Create HintDb outcomes.

#[local] Hint Resolve outcome_ok_200 outcome_ok_400 outcome_ok_500 : outcomes.

Ltac invert_ret H := unfold ret in H; inversion H; subst; clear H.

Lemma submit_levels_and_images_outcome sub pid w o w' :
  submit_levels_and_images sub pid w = (Ret o, w') -> o = (200%Z, None, Some pid).
Proof.
  unfold submit_levels_and_images. intros H.
  apply bind_inv in H. destruct H as [(b & w1 & _ & H)|(e & _ & H)]; [|discriminate].
  apply bind_inv in H. destruct H as [(u & w2 & _ & H)|(e & _ & H)]; [|discriminate].
  now invert_ret H.
Qed.

Lemma submit_pass_outcome sub uid w o w' :
  submit_pass sub uid w = (Ret o, w') -> outcome_ok o.
Proof.
  unfold submit_pass. intros H.
  apply bind_inv in H. destruct H as [(la & w1 & _ & H)|(e & _ & H)]; [|discriminate].
  apply bind_inv in H. destruct H as [(lo & w2 & _ & H)|(e & _ & H)]; [|discriminate].
  apply bind_inv in H. destruct H as [(h & w3 & _ & H)|(e & _ & H)]; [|discriminate].
  destruct (negb _).
  - invert_ret H. auto with outcomes.
  - apply bind_inv in H. destruct H as [(p & w4 & _ & H)|(e & _ & H)]; [|discriminate].
    destruct p as [pid|]; [destruct (pid =? 0)%Z|].
    + invert_ret H. auto with outcomes.
    + apply submit_levels_and_images_outcome in H. subst. auto with outcomes.
    + invert_ret H. auto with outcomes.
Qed.

Lemma submit_body_outcome sub w o w' :
  submit_body sub w = (Ret o, w') -> outcome_ok o.
Proof.
  unfold submit_body. intros H. destruct (negb _).
  - invert_ret H. auto with outcomes.
  - apply bind_inv in H. destruct H as [(u & w1 & _ & H)|(e & _ & H)]; [|discriminate].
    destruct u as [uid|]; [destruct (uid =? 0)%Z|].
    + invert_ret H. auto with outcomes.
    + now apply submit_pass_outcome in H.
    + invert_ret H. auto with outcomes.
Qed.

Lemma guarded_body_outcome sub w o w' :
  try_except (submit_body sub) unexpected_error w = (Ret o, w') -> outcome_ok o.
Proof.
  intros H. apply try_except_inv in H.
  destruct H as [(a & Hb & E)|[(e & w1 & hd & _ & He & Hb)|(e & _ & _ & E)]];
    [| |discriminate].
  - inversion E; subst. now apply submit_body_outcome in Hb.
  - unfold unexpected_error in He. cbn in He. inversion He; subst.
    invert_ret Hb. auto with outcomes.
Qed.

Lemma submit_pass_data_outcome sub w :
  match submit_pass_data sub w with
  | (Ret o, _) => outcome_ok o
  | (Raise e, _) => call_outcome 0 w = Some e /\ is_psycopg2_Error e = false
  end.
Proof.
  destruct (connect w) as [r w1] eqn:Hc.
  assert (Hcases : r = Ret true \/ r <> Ret true).
  { destruct r as [[|]|e]; auto; right; discriminate. }
  destruct Hcases as [->|Hne].
  - destruct (guarded_body_returns sub w1) as (o & w2 & Hb).
    destruct (submit_pass_data_after_body _ _ _ _ _ Hc Hb) as [_ ->].
    now apply guarded_body_outcome in Hb.
  - destruct (connect_not_true _ _ _ Hc Hne) as (_ & e & He & Hr).
    unfold submit_pass_data, bind. rewrite Hc.
    destruct (is_psycopg2_Error e) eqn:Hp; subst r; cbn [negb ret].
    + apply outcome_ok_500.
    + auto.
Qed.

(** C2: every outcome triple of [submit_pass_data], and every envelope the
    endpoint returns, has status 200, 400 or 500; the status is 200 exactly
    when the id is set and the message is none, and with 400 or 500 the id is
    none and the message is set. [submit_pass_data] gives a triple unless
    [connect] lets through an exception that is no [psycopg2.Error]; the
    endpoint gives an envelope always. *)
Theorem outcome_triple_and_envelope_shape sub w :
  match submit_pass_data sub w with
  | (Ret o, _) => outcome_ok o
  | (Raise e, _) => call_outcome 0 w = Some e /\ is_psycopg2_Error e = false
  end /\
  match submit_data sub w with
  | (Ret resp, _) => response_ok resp
  | (Raise _, _) => False
  end.
Proof.
  split; [apply submit_pass_data_outcome|].
  unfold submit_data, try_except, bind, Database_init.
  pose proof (submit_pass_data_outcome sub (set_connection w NoConnection)) as H.
  destruct (submit_pass_data sub (set_connection w NoConnection)) as [[[[st msg] pid]|e] w'].
  - cbn. exact H.
  - cbn. unfold response_ok. cbn [status message id]. apply outcome_ok_500.
Qed.

(** ** The connection *)

(** [finally: self.disconnect()] runs whether the body returns or raises. *)
Lemma try_finally_disconnect {A : Type} (body : M A) w :
  try_finally body disconnect w
  = (fst (body w), snd (disconnect (snd (body w)))).
Proof.
  unfold try_finally. destruct (body w) as [r wb]. cbn [fst snd].
  unfold disconnect. destruct (connection wb); reflexivity.
Qed.

(** C7 (amended): once [connect] has acquired the connection, every path
    through [submit_pass_data] ends with one [disconnect], run last on the
    world the [try] statement leaves, whether it returned or raised: one
    [close()] call is made and the connection is closed. When [connect] does
    not acquire a connection, [submit_pass_data] returns before the [try]
    statement: no [close()] call is made and the connection attribute is
    left as it was. *)
Theorem connection_released_once_when_acquired sub w :
  match connect w with
  | (Ret true, w1) =>
      exists r wb,
        try_except (submit_body sub) unexpected_error w1 = (r, wb) /\
        connection wb = ConnOpen /\ close_calls wb = close_calls w /\
        submit_pass_data sub w = (r, snd (disconnect wb)) /\
        connection (snd (submit_pass_data sub w)) = ConnClosed /\
        close_calls (snd (submit_pass_data sub w)) = S (close_calls w)
  | (_, _) =>
      connection (snd (submit_pass_data sub w)) = connection w /\
      close_calls (snd (submit_pass_data sub w)) = close_calls w
  end.
Proof.
  destruct (connect w) as [r w1] eqn:Hc.
  assert (Hcases : r = Ret true \/ r <> Ret true).
  { destruct r as [[|]|e]; auto; right; discriminate. }
  destruct Hcases as [->|Hne].
  - destruct (guarded_body_returns sub w1) as (o & w2 & Hb).
    destruct (submit_pass_data_after_body _ _ _ _ _ Hc Hb) as [G Hs].
    destruct (connect_true _ _ Hc) as (_ & Hcc & _).
    destruct G as ([Hopen Hsync] & Hcc2 & _).
    exists (Ret o), w2. split; [exact Hb|]. split; [exact Hopen|].
    split; [congruence|].
    rewrite Hs. rewrite (disconnect_ready w2 (conj Hopen Hsync)). cbn.
    repeat split; congruence.
  - destruct (connect_not_true _ _ _ Hc Hne) as (Hw1 & e & _ & Hr).
    assert (Hs : snd (submit_pass_data sub w) = w1).
    { unfold submit_pass_data, bind. rewrite Hc.
      destruct r as [[|]|e']; [congruence| |]; reflexivity. }
    rewrite Hs, Hw1.
    destruct r as [[|]|e']; [congruence| |]; split; reflexivity.
Qed.

(** ** The check of the user fields *)

Lemma truthy_blank f : field_blank f -> truthy (dict_get f) = false.
Proof. intros [->|[->| ->]]; reflexivity. Qed.

Lemma some_user_field_blank_py_all sub :
  some_user_field_blank sub -> py_all (user_fields sub) = false.
Proof.
  unfold some_user_field_blank, user_fields, py_all. cbn [forallb].
  intros [H|[H|[H|[H|H]]]]; apply truthy_blank in H; rewrite H;
    rewrite ?andb_false_r; reflexivity.
Qed.

Lemma submit_body_user_fields_missing sub w1 :
  py_all (user_fields sub) = false ->
  submit_body sub w1 = (Ret (400%Z, Some MSG_USER_FIELDS, None), w1).
Proof.
  intros H. unfold submit_body. unfold user_fields in H. rewrite H. reflexivity.
Qed.

(** Whatever [connect] answers, a submission with a blank user field leaves
    the committed tables and the sequences as they were. *)
Lemma missing_user_field_writes_nothing sub w :
  some_user_field_blank sub ->
  committed (snd (submit_pass_data sub w)) = committed w /\
  users_id_seq (snd (submit_pass_data sub w)) = users_id_seq w /\
  passes_id_seq (snd (submit_pass_data sub w)) = passes_id_seq w.
Proof.
  intros Hb. apply some_user_field_blank_py_all in Hb.
  destruct (connect w) as [r w1] eqn:Hc.
  assert (Hcases : r = Ret true \/ r <> Ret true).
  { destruct r as [[|]|e]; auto; right; discriminate. }
  destruct Hcases as [->|Hne].
  - assert (Hbody : try_except (submit_body sub) unexpected_error w1
                    = (Ret (400%Z, Some MSG_USER_FIELDS, None), w1)).
    { unfold try_except. now rewrite submit_body_user_fields_missing. }
    destruct (submit_pass_data_after_body _ _ _ _ _ Hc Hbody) as [_ ->].
    destruct (connect_true _ _ Hc) as (_ & _ & H1 & H2 & H3 & _). cbn. auto.
  - destruct (connect_not_true _ _ _ Hc Hne) as (Hw1 & _).
    assert (Hs : snd (submit_pass_data sub w) = w1).
    { unfold submit_pass_data, bind. rewrite Hc.
      destruct r as [[|]|e']; [congruence| |]; reflexivity. }
    rewrite Hs, Hw1. cbn. auto.
Qed.

(** C5 (amended): when the connection is acquired and one of the five user
    fields is missing or empty, [submit_pass_data] returns 400 with the
    message on the user fields and no id; no row is written, no sequence
    value is taken, and no library call after [connect] is made, so that
    [create_user] is not invoked. *)
Theorem missing_user_field_gives_400 sub w w1 :
  some_user_field_blank sub ->
  connect w = (Ret true, w1) ->
  exists w',
    submit_pass_data sub w = (Ret (400%Z, Some MSG_USER_FIELDS, None), w') /\
    committed w' = committed w /\
    users_id_seq w' = users_id_seq w /\ passes_id_seq w' = passes_id_seq w /\
    faults w' = faults w1.
Proof.
  intros Hb Hc. apply some_user_field_blank_py_all in Hb.
  assert (Hbody : try_except (submit_body sub) unexpected_error w1
                  = (Ret (400%Z, Some MSG_USER_FIELDS, None), w1)).
  { unfold try_except. now rewrite submit_body_user_fields_missing. }
  destruct (submit_pass_data_after_body _ _ _ _ _ Hc Hbody) as [_ Hs].
  destruct (connect_true _ _ Hc) as (_ & _ & H1 & H2 & H3 & _).
  eexists. split; [exact Hs|]. cbn. auto.
Qed.

(** ** The pass, the difficulty levels and the images *)

Lemma create_user_keeps_passes em ph fa na ot w r w' :
  ready w -> create_user em ph fa na ot w = (r, w') ->
  passes (committed w') = passes (committed w) /\
  passes_id_seq w' = passes_id_seq w.
Proof.
  intros Hr H.
  destruct (create_user_spec _ _ _ _ _ _ _ _ Hr H) as (_ & _ & Hseq & [[_ Hcm]|[Hcm _]]);
    rewrite Hcm; auto.
Qed.

Lemma create_pass_some bt t ot cn at_ uid la lo h w pid w' :
  ready w -> create_pass bt t ot cn at_ uid la lo h w = (Ret (Some pid), w') ->
  pid = (passes_id_seq w + 1)%Z /\
  committed w' =
    add_pass (committed w) (mk_pass_row pid bt t ot cn at_ uid la lo h "new").
Proof.
  intros Hr H.
  destruct (create_pass_spec _ _ _ _ _ _ _ _ _ _ _ _ Hr H)
    as (_ & _ & _ & [(E & _ & Hcm)|[[E|[e E]] _]]); try discriminate.
  inversion E; subst. auto.
Qed.

Lemma create_difficulty_level_committed pid wi sp su au w created w' :
  ready w -> create_difficulty_level pid wi sp su au w = (Ret created, w') ->
  committed w' =
    if created
    then add_difficulty_level (committed w) (mk_difficulty_row pid wi sp su au)
    else committed w.
Proof.
  intros Hr H. unfold create_difficulty_level in H.
  destruct (execute_query_spec _ _ _ _ Hr H)
    as (_ & _ & _ & _ & [[E Hcm]|[[E|[e E]] Hcm]]); inversion E; subst; exact Hcm.
Qed.

(** C6 (amended): for a submission that has reached the difficulty levels,
    the answer of [create_difficulty_level], [True] or [False], changes
    nothing in the outcome: with [False] no difficulty row is committed, and
    [submit_pass_data] still returns 200, no message and the pass id. *)
Theorem difficulty_answer_not_surfaced sub w pid w3 created w4 :
  reaches_levels sub w pid w3 ->
  submit_create_difficulty_level sub pid w3 = (Ret created, w4) ->
  (exists w', submit_pass_data sub w = (Ret (200%Z, None, Some pid), w')) /\
  (exists row,
      difficulty_levels (committed w4) =
        if created then (difficulty_levels (committed w3) ++ [row])%list
        else difficulty_levels (committed w3)).
Proof.
  intros Hreach Hd. split.
  - destruct (submit_reaches_images sub w pid w4) as (w5 & _ & _ & _ & Hs).
    { now exists w3, created. }
    eauto.
  - destruct (submit_body_reaches_levels _ _ _ _ Hreach) as (w1 & _ & G & _).
    unfold submit_create_difficulty_level in Hd.
    rewrite (create_difficulty_level_committed _ _ _ _ _ _ _ _ (grows_ready _ _ G) Hd).
    eexists. destruct created; reflexivity.
Qed.

(** C1 (amended): a complete, valid submission without images, whose
    connection, user and pass are obtained and whose call of
    [create_difficulty_level] returns, gets 200, no message and the pass id;
    the id is positive, and the passes table has one new row, with this id,
    the status "new" and the submitted title and add_time. *)
Theorem valid_submission_returns_200 sub w pid w3 created w4 :
  reaches_levels sub w pid w3 ->
  images sub = [] ->
  (0 <= passes_id_seq w)%Z ->
  submit_create_difficulty_level sub pid w3 = (Ret created, w4) ->
  exists w' row,
    submit_pass_data sub w = (Ret (200%Z, None, Some pid), w') /\
    (0 < pid)%Z /\
    passes (committed w') = (passes (committed w) ++ [row])%list /\
    p_id row = pid /\ p_status row = "new" /\
    p_title row = dict_get (title sub) /\
    p_add_time row = dict_get (add_time sub).
Proof.
  intros Hreach Himgs Hseq Hd.
  destruct (submit_reaches_images sub w pid w4) as (w5 & Hr4 & _ & Hf & Hs).
  { now exists w3, created. }
  rewrite Himgs in Hf. cbn in Hf. unfold ret in Hf. inversion Hf; subst w5.
  destruct Hreach as (w1 & uid & w2 & la & lo & h & Hc & _ & Hcu & _ & _ & _ & _ & _ & Hcp & _).
  destruct (connect_true _ _ Hc) as (Hr1 & _ & Hcm1 & _ & Hps1 & _).
  pose proof (steady_create_user _ _ _ _ _ _ _ _ Hr1 Hcu) as G12.
  destruct (create_user_keeps_passes _ _ _ _ _ _ _ _ Hr1 Hcu) as [Hp2 Hps2].
  destruct (create_pass_some _ _ _ _ _ _ _ _ _ _ _ _ (grows_ready _ _ G12) Hcp)
    as [Hpid Hcm3].
  pose proof (steady_create_pass _ _ _ _ _ _ _ _ _ _ _ _ (grows_ready _ _ G12) Hcp) as G23.
  unfold submit_create_difficulty_level in Hd.
  pose proof (create_difficulty_level_committed _ _ _ _ _ _ _ _ (grows_ready _ _ G23) Hd)
    as Hcm4.
  eexists. eexists. split; [exact Hs|]. split; [lia|].
  cbn [committed]. split.
  - rewrite Hcm4.
    assert (E : passes (if created
                        then add_difficulty_level (committed w3)
                               (mk_difficulty_row pid
                                  (dict_get_default (winter (get_dict (level sub) empty_level)) "")
                                  (dict_get_default (spring (get_dict (level sub) empty_level)) "")
                                  (dict_get_default (summer (get_dict (level sub) empty_level)) "")
                                  (dict_get_default (autumn (get_dict (level sub) empty_level)) ""))
                        else committed w3) = passes (committed w3))
      by (destruct created; reflexivity).
    rewrite E, Hcm3. cbn [passes add_pass]. rewrite Hp2, Hcm1. reflexivity.
  - cbn. auto.
Qed.

(** ** One image *)

Lemma process_image_decode_fault pid image e w :
  image_bytes_of image = inl e -> process_image pid image w = (Ret tt, w).
Proof.
  unfold image_bytes_of, process_image, try_except, bind. intros ->. reflexivity.
Qed.

Lemma process_image_too_large pid image bs w :
  image_bytes_of image = inr bs -> (len bs > MAX_IMAGE_SIZE)%Z ->
  process_image pid image w = (Ret tt, w).
Proof.
  unfold image_bytes_of, process_image, try_except, bind. intros -> Hl.
  apply Z.gtb_gt in Hl. cbn [pure_call ret]. rewrite Hl. reflexivity.
Qed.

Lemma process_image_insert pid image bs w :
  image_bytes_of image = inr bs -> (len bs <= MAX_IMAGE_SIZE)%Z ->
  process_image pid image w
  = (Ret tt, snd (create_image pid (dict_get_default (img_title image) "") bs w)).
Proof.
  unfold image_bytes_of, process_image, try_except, bind. intros -> Hl.
  assert (Hgt : (len bs >? MAX_IMAGE_SIZE)%Z = false).
  { destruct (len bs >? MAX_IMAGE_SIZE)%Z eqn:E; [apply Z.gtb_gt in E; lia | reflexivity]. }
  cbn [pure_call ret]. rewrite Hgt.
  destruct (create_image pid _ bs w) as [[b|e] w']; reflexivity.
Qed.

Lemma create_image_committed pid t bs w :
  ready w ->
  committed (snd (create_image pid t bs w)) =
    match fst (create_image pid t bs w) with
    | Ret true => add_image (committed w) (mk_image_row pid t bs)
    | _ => committed w
    end.
Proof.
  intros Hr. destruct (create_image pid t bs w) as [r w'] eqn:H.
  unfold create_image in H.
  destruct (execute_query_spec _ _ _ _ Hr H)
    as (_ & _ & _ & _ & [[E Hcm]|[[E|[e E]] Hcm]]); subst r; exact Hcm.
Qed.

(** [create_image] answers [True] exactly when its two library calls, the
    statement and the commit, go through. *)
Lemma create_image_true_iff pid t bs w :
  ready w ->
  (fst (create_image pid t bs w) = Ret true
   <-> call_outcome 0 w = None /\ call_outcome 1 w = None).
Proof.
  intros [Hc Hs]. unfold call_outcome, create_image. break_world w.
  unfold execute_query, try_except, bind, connection_cursor, self_connection,
    cursor_execute, connection_commit, connection_rollback, library_call, ret.
  assert (Hiff : forall (r : result bool) (a b : option exn),
             (r = Ret true -> a = None /\ b = None) ->
             (a = None -> b = None -> r = Ret true) ->
             r = Ret true <-> a = None /\ b = None).
  { intros r a b H1 H2. split; [exact H1 | intros [Ha Hb]; now apply H2]. }
  destruct fs as [|[e0|] fs]; cbn.
  - apply Hiff; auto.
  - destruct (is_psycopg2_Error e0); cbn.
    + destruct fs as [|[e1|] fs]; cbn; apply Hiff; intros; discriminate.
    + apply Hiff; intros; discriminate.
  - destruct fs as [|[e1|] fs]; cbn.
    + apply Hiff; auto.
    + destruct (is_psycopg2_Error e1); cbn.
      * destruct fs as [|[e2|] fs]; cbn; apply Hiff; intros; discriminate.
      * apply Hiff; intros; discriminate.
    + apply Hiff; auto.
Qed.

Lemma process_image_fault pid image w wb :
  ready w -> process_image pid image w = (Ret tt, wb) ->
  image_fault pid image w -> committed wb = committed w.
Proof.
  intros Hr H [e Hd|bs Hd Hl|bs Hd Hi].
  - rewrite (process_image_decode_fault _ _ _ _ Hd) in H. now inversion H.
  - rewrite (process_image_too_large _ _ _ _ Hd Hl) in H. now inversion H.
  - destruct (Z_le_gt_dec (len bs) MAX_IMAGE_SIZE) as [Hle|Hgt].
    + rewrite (process_image_insert _ _ _ _ Hd Hle) in H. inversion H; subst wb.
      rewrite (create_image_committed _ _ _ _ Hr).
      destruct (fst (create_image pid _ bs w)) as [[|]|e]; congruence.
    + rewrite (process_image_too_large _ _ _ _ Hd Hgt) in H. now inversion H.
Qed.

Lemma process_image_stored pid image bs w wb :
  ready w -> process_image pid image w = (Ret tt, wb) ->
  image_bytes_of image = inr bs -> (len bs <= MAX_IMAGE_SIZE)%Z ->
  fst (create_image pid (dict_get_default (img_title image) "") bs w) = Ret true ->
  images_ (committed wb) = (images_ (committed w) ++ [image_row_of pid image bs])%list.
Proof.
  intros Hr H Hd Hle Hi.
  rewrite (process_image_insert _ _ _ _ Hd Hle) in H. inversion H; subst wb.
  rewrite (create_image_committed _ _ _ _ Hr), Hi. reflexivity.
Qed.

(** C4: in a submission that has reached the loop over the images, a fault
    of one image (its data do not decode, the decoded bytes exceed
    [MAX_IMAGE_SIZE], or the insert of its row fails) skips that image only:
    the loop goes through the images before it, through the image itself and
    through the images after it without raising, the faulty image adds no
    row, rows stored earlier stay, and [submit_pass_data] returns 200, no
    message and the pass id. An image whose data decode to at most
    [MAX_IMAGE_SIZE] bytes adds its row whenever the statement and the
    commit of its insert go through, which is exactly when [create_image]
    answers [True]; this holds at every place of the list, so for the
    images beside a faulty one. *)
Theorem image_fault_skips_only_that_image sub w pid w4 pre image post :
  reaches_images sub w pid w4 ->
  images sub = (pre ++ image :: post)%list ->
  exists wa wb wc w',
    for_images pid pre w4 = (Ret tt, wa) /\
    process_image pid image wa = (Ret tt, wb) /\
    for_images pid post wb = (Ret tt, wc) /\
    submit_pass_data sub w = (Ret (200%Z, None, Some pid), w') /\
    committed w' = committed wc /\
    (image_fault pid image wa -> committed wb = committed wa) /\
    (forall bs,
        image_bytes_of image = inr bs -> (len bs <= MAX_IMAGE_SIZE)%Z ->
        (fst (create_image pid (dict_get_default (img_title image) "") bs wa) = Ret true
         <-> call_outcome 0 wa = None /\ call_outcome 1 wa = None) /\
        (call_outcome 0 wa = None -> call_outcome 1 wa = None ->
         images_ (committed wb)
         = (images_ (committed wa) ++ [image_row_of pid image bs])%list)) /\
    (exists l, images_ (committed wc) = (images_ (committed wb) ++ l)%list).
Proof.
  intros Hreach Himgs.
  destruct (submit_reaches_images _ _ _ _ Hreach) as (w5 & Hr4 & _ & Hf & Hs).
  destruct (for_images_returns pid pre w4) as [wa Ha].
  destruct (process_image_returns pid image wa) as [wb Hb].
  destruct (for_images_returns pid post wb) as [wc Hc].
  assert (Hall : for_images pid (images sub) w4 = (Ret tt, wc)).
  { rewrite Himgs, (for_images_app _ _ _ _ _ Ha). cbn [for_images].
    now rewrite (bind_Ret _ _ _ _ _ Hb). }
  rewrite Hall in Hf. inversion Hf; subst w5.
  pose proof (steady_for_images _ _ _ _ _ Hr4 Ha) as Ga.
  pose proof (steady_process_image _ _ _ _ _ (grows_ready _ _ Ga) Hb) as Gb.
  pose proof (steady_for_images _ _ _ _ _ (grows_ready _ _ Gb) Hc) as Gc.
  exists wa, wb, wc. eexists.
  split; [exact Ha|]. split; [exact Hb|]. split; [exact Hc|].
  split; [exact Hs|]. split; [reflexivity|].
  split; [apply process_image_fault; auto; exact (grows_ready _ _ Ga)|].
  split.
  { intros bs Hd Hle.
    pose proof (create_image_true_iff pid (dict_get_default (img_title image) "") bs wa
                  (grows_ready _ _ Ga)) as Hiff.
    split; [exact Hiff|]. intros H0 H1.
    apply (process_image_stored pid image bs wa wb (grows_ready _ _ Ga) Hb Hd Hle).
    apply Hiff. now split. }
  destruct Gc as (_ & _ & _ & _ & _ & Hi). exact Hi.
Qed.

(** C9: an image whose decoded bytes number exactly [MAX_IMAGE_SIZE] is not
    skipped: [process_image] calls [create_image] for it, which answers
    [True] exactly when the statement and the commit of the insert go
    through, and then the row of the image is committed, with all its
    bytes. *)
Theorem boundary_size_image_is_inserted pid image bs w :
  ready w ->
  image_bytes_of image = inr bs ->
  len bs = MAX_IMAGE_SIZE ->
  process_image pid image w
  = (Ret tt, snd (create_image pid (dict_get_default (img_title image) "") bs w)) /\
  (fst (create_image pid (dict_get_default (img_title image) "") bs w) = Ret true
   <-> call_outcome 0 w = None /\ call_outcome 1 w = None) /\
  (call_outcome 0 w = None -> call_outcome 1 w = None ->
   images_ (committed (snd (process_image pid image w)))
   = (images_ (committed w) ++ [image_row_of pid image bs])%list).
Proof.
  intros Hr Hd Hl.
  assert (Hle : (len bs <= MAX_IMAGE_SIZE)%Z) by lia.
  pose proof (create_image_true_iff pid (dict_get_default (img_title image) "") bs w Hr)
    as Hiff.
  split; [now apply process_image_insert|].
  split; [exact Hiff|].
  intros H0 H1.
  apply (process_image_stored pid image bs w _ Hr); auto.
  - rewrite (process_image_insert _ _ _ _ Hd Hle). reflexivity.
  - apply Hiff. now split.
Qed.

(** C8 (amended): a stored image holds the bytes [b64decode] gives for the
    submitted string; when that string is the standard encoding of some
    bytes, these are the bytes stored, and encoding the stored bytes again
    gives the submitted string. *)
Theorem stored_image_reencodes_canonical_string pid image data w row :
  ready w ->
  img_data image = Val (b64encode data) ->
  images_ (committed (snd (process_image pid image w)))
  = (images_ (committed w) ++ [row])%list ->
  i_data row = data /\ img_data image = Val (b64encode (i_data row)).
Proof.
  intros Hr Hdata Hstored.
  assert (Hd : image_bytes_of image = inr data).
  { unfold image_bytes_of. rewrite Hdata. cbn. apply b64decode_b64encode. }
  assert (Hrow : row = image_row_of pid image data).
  { destruct (Z_le_gt_dec (len data) MAX_IMAGE_SIZE) as [Hle|Hgt].
    - rewrite (process_image_insert _ _ _ _ Hd Hle) in Hstored. cbn [snd] in Hstored.
      rewrite (create_image_committed _ _ _ _ Hr) in Hstored.
      destruct (fst (create_image pid _ data w)) as [[|]|e]; cbn in Hstored.
      + apply app_inv_head in Hstored. now inversion Hstored.
      + rewrite <- (app_nil_r (images_ (committed w))) in Hstored at 1.
        apply app_inv_head in Hstored. discriminate.
      + rewrite <- (app_nil_r (images_ (committed w))) in Hstored at 1.
        apply app_inv_head in Hstored. discriminate.
    - rewrite (process_image_too_large _ _ _ _ Hd Hgt) in Hstored. cbn [snd] in Hstored.
      rewrite <- (app_nil_r (images_ (committed w))) in Hstored at 1.
      apply app_inv_head in Hstored. discriminate. }
  subst row. cbn. auto.
Qed.


(** ** The user *)

Lemma call_outcome_tl k w w1 :
  faults w1 = tl (faults w) -> call_outcome k w1 = call_outcome (S k) w.
Proof.
  unfold call_outcome. intros ->. destruct (faults w) as [|f fs]; [|reflexivity].
  now destruct k.
Qed.

Lemma find_existsb {A : Type} (f : A -> bool) (l : list A) :
  existsb f l = match find f l with Some _ => true | None => false end.
Proof.
  induction l as [|a l IH]; [reflexivity|]. cbn. destruct (f a); [reflexivity | exact IH].
Qed.

(** The insert goes through and is committed. *)
Lemma create_user_fresh em ph fa na ot w :
  ready w -> call_outcome 0 w = None -> call_outcome 1 w = None ->
  find (fun u => sql_eq (u_email u) em) (users (committed w)) = None ->
  exists w',
    create_user em ph fa na ot w = (Ret (Some (users_id_seq w + 1)%Z), w') /\
    faults w' = tl (tl (faults w)) /\
    committed w' =
      add_user (committed w) (mk_user_row (users_id_seq w + 1) em ph fa na ot).
Proof.
  intros [Hc Hs] H0 H1 Hfind. break_world w.
  unfold create_user, try_except, bind, connection_cursor, self_connection,
    execute_insert_user, nextval_users, connection_commit, library_call, ret.
  cbn. rewrite find_existsb, Hfind.
  unfold call_outcome in H0, H1. cbn in H0, H1.
  destruct fs as [|[e0|] fs]; cbn in H0, H1; try discriminate;
    [cbn; eauto|].
  destruct fs as [|[e1|] fs]; cbn in H1; try discriminate; cbn; eauto.
Qed.

(** The insert meets a row with the same email: the recovery reads its id. *)
Lemma create_user_existing em ph fa na ot w row :
  ready w ->
  call_outcome 0 w = None -> call_outcome 1 w = None -> call_outcome 2 w = None ->
  find (fun u => sql_eq (u_email u) em) (users (committed w)) = Some row ->
  exists w',
    create_user em ph fa na ot w = (Ret (Some (u_id row)), w') /\
    faults w' = tl (tl (tl (faults w))) /\
    committed w' = committed w.
Proof.
  intros [Hc Hs] H0 H1 H2 Hfind. break_world w.
  unfold create_user, try_except, bind, connection_cursor, self_connection,
    execute_insert_user, execute_select_user_id, nextval_users, connection_commit,
    connection_rollback, library_call, ret.
  cbn. rewrite find_existsb, Hfind.
  unfold call_outcome in H0, H1, H2. cbn in H0, H1, H2.
  destruct fs as [|[e0|] fs]; cbn in H0, H1, H2; try discriminate;
    [cbn; rewrite Hfind; cbn; eauto|].
  destruct fs as [|[e1|] fs]; cbn in H1, H2; try discriminate;
    [cbn; rewrite Hfind; cbn; eauto|].
  destruct fs as [|[e2|] fs]; cbn in H2; try discriminate;
    cbn; rewrite Hfind; cbn; eauto.
Qed.

(** The insert raises [IntegrityError] and the lookup finds no row. *)
Lemma create_user_integrity_no_row em ph fa na ot w :
  ready w ->
  call_outcome 0 w = Some IntegrityError ->
  call_outcome 1 w = None -> call_outcome 2 w = None ->
  find (fun u => sql_eq (u_email u) em) (users (committed w)) = None ->
  exists w',
    create_user em ph fa na ot w = (Ret None, w') /\ committed w' = committed w.
Proof.
  intros [Hc Hs] H0 H1 H2 Hfind. break_world w.
  unfold create_user, try_except, bind, connection_cursor, self_connection,
    execute_insert_user, execute_select_user_id, nextval_users, connection_commit,
    connection_rollback, library_call, ret.
  unfold call_outcome in H0, H1, H2. cbn in H0, H1, H2.
  destruct fs as [|[e0|] fs]; cbn in H0, H1, H2; try discriminate.
  inversion H0; subst e0.
  destruct fs as [|[e1|] fs]; cbn in H1, H2; try discriminate;
    [cbn; rewrite Hfind; cbn; eauto|].
  destruct fs as [|[e2|] fs]; cbn in H2; try discriminate;
    cbn; rewrite Hfind; cbn; eauto.
Qed.

Lemma find_app_none {A : Type} (f : A -> bool) (l l' : list A) :
  find f l = None -> find f (l ++ l') = find f l'.
Proof.
  induction l as [|a l IH]; [reflexivity|]. cbn. destruct (f a); [discriminate | exact IH].
Qed.

Lemma call_outcome_no_faults k w : faults w = [] -> call_outcome k w = None.
Proof. unfold call_outcome. intros ->. now destruct k. Qed.

Lemma submit_body_create_user_fails sub w1 w2 :
  py_all (user_fields sub) = true ->
  submit_create_user sub w1 = (Ret None, w2) ->
  submit_body sub w1 = (Ret (500%Z, Some MSG_CREATE_USER, None), w2).
Proof.
  intros Hu Hcu. unfold submit_body. unfold user_fields in Hu. rewrite Hu. cbn [negb].
  unfold submit_create_user in Hcu. rewrite (bind_Ret _ _ _ _ _ Hcu). reflexivity.
Qed.

(** C10: when the insert of the user raises [IntegrityError] and the lookup
    by email that follows finds no row, [create_user] returns [None] and
    [submit_pass_data] returns 500 with the message on the creation of the
    user and no id. *)
Theorem integrity_error_without_row_gives_500 sub w :
  py_all (user_fields sub) = true ->
  call_outcome 0 w = None ->
  call_outcome 1 w = Some IntegrityError ->
  call_outcome 2 w = None ->
  call_outcome 3 w = None ->
  find (fun u => sql_eq (u_email u) (dict_get (email (get_dict (user sub) empty_user))))
    (users (committed w)) = None ->
  exists w1 w2 w',
    connect w = (Ret true, w1) /\
    submit_create_user sub w1 = (Ret None, w2) /\
    submit_pass_data sub w = (Ret (500%Z, Some MSG_CREATE_USER, None), w') /\
    committed w' = committed w.
Proof.
  intros Hu H0 H1 H2 H3 Hfind.
  destruct (connect_call_ok _ H0) as [w1 Hc].
  destruct (connect_true _ _ Hc) as (Hr1 & _ & Hcm1 & _ & _ & Hfs & _).
  rewrite <- (call_outcome_tl 0 _ _ Hfs) in H1.
  rewrite <- (call_outcome_tl 1 _ _ Hfs) in H2.
  rewrite <- (call_outcome_tl 2 _ _ Hfs) in H3.
  rewrite <- Hcm1 in Hfind.
  destruct (create_user_integrity_no_row _
              (dict_get (phone (get_dict (user sub) empty_user)))
              (dict_get (fam (get_dict (user sub) empty_user)))
              (dict_get (name (get_dict (user sub) empty_user)))
              (dict_get (otc (get_dict (user sub) empty_user)))
              _ Hr1 H1 H2 H3 Hfind) as (w2 & Hcu & Hcm2).
  assert (Hb : try_except (submit_body sub) unexpected_error w1
               = (Ret (500%Z, Some MSG_CREATE_USER, None), w2)).
  { unfold try_except. now rewrite (submit_body_create_user_fails _ _ _ Hu Hcu). }
  destruct (submit_pass_data_after_body _ _ _ _ _ Hc Hb) as [_ Hs].
  exists w1, w2. eexists. split; [exact Hc|]. split; [exact Hcu|].
  split; [exact Hs|]. cbn. congruence.
Qed.

(** C3: [create_user] is idempotent on the email. With no failure scheduled,
    the first call for an email gives a user id, not zero; in any later
    world with the same users, where the insert therefore violates the
    uniqueness of the email, the call gives the id of the existing row with
    that email, the same id, and commits nothing: no second row is
    created. *)
Theorem create_user_idempotent_on_email e ph fa na ot ph' fa' na' ot' w v :
  ready w -> faults w = [] ->
  (0 <= users_id_seq w)%Z ->
  Forall (fun r => u_id r <> 0%Z) (users (committed w)) ->
  ready v -> faults v = [] ->
  users (committed v) = users (committed (snd (create_user (Some e) ph fa na ot w))) ->
  exists u row,
    fst (create_user (Some e) ph fa na ot w) = Ret (Some u) /\
    u <> 0%Z /\
    find (fun r => sql_eq (u_email r) (Some e)) (users (committed v)) = Some row /\
    u_id row = u /\
    fst (create_user (Some e) ph' fa' na' ot' v) = Ret (Some u) /\
    committed (snd (create_user (Some e) ph' fa' na' ot' v)) = committed v.
Proof.
  intros Hr Hf Hseq Hids Hrv Hfv Husers.
  pose proof (call_outcome_no_faults 0 _ Hf) as F0.
  pose proof (call_outcome_no_faults 1 _ Hf) as F1.
  pose proof (call_outcome_no_faults 2 _ Hf) as F2.
  pose proof (call_outcome_no_faults 0 _ Hfv) as V0.
  pose proof (call_outcome_no_faults 1 _ Hfv) as V1.
  pose proof (call_outcome_no_faults 2 _ Hfv) as V2.
  destruct (find (fun r => sql_eq (u_email r) (Some e)) (users (committed w)))
    as [row0|] eqn:Hfind.
  - destruct (create_user_existing _ ph fa na ot _ _ Hr F0 F1 F2 Hfind)
      as (w1 & H1 & _ & Hcm1).
    rewrite H1 in Husers. cbn [snd] in Husers. rewrite Hcm1 in Husers.
    assert (Hfindv : find (fun r => sql_eq (u_email r) (Some e)) (users (committed v))
                     = Some row0) by now rewrite Husers.
    destruct (create_user_existing _ ph' fa' na' ot' _ _ Hrv V0 V1 V2 Hfindv)
      as (v1 & H2 & _ & Hcm2).
    exists (u_id row0), row0. rewrite H1, H2. cbn [fst snd].
    repeat split; auto.
    apply find_some in Hfind. destruct Hfind as [Hin _].
    rewrite Forall_forall in Hids. now apply Hids.
  - destruct (create_user_fresh _ ph fa na ot _ Hr F0 F1 Hfind) as (w1 & H1 & _ & Hcm1).
    rewrite H1 in Husers. cbn [snd] in Husers. rewrite Hcm1 in Husers.
    cbn [users add_user] in Husers.
    assert (Hfindv : find (fun r => sql_eq (u_email r) (Some e)) (users (committed v))
                     = Some (mk_user_row (users_id_seq w + 1) (Some e) ph fa na ot)).
    { rewrite Husers, (find_app_none _ _ _ Hfind). cbn. now rewrite String.eqb_refl. }
    destruct (create_user_existing _ ph' fa' na' ot' _ _ Hrv V0 V1 V2 Hfindv)
      as (v1 & H2 & _ & Hcm2).
    eexists. eexists. rewrite H1, H2. cbn [fst snd].
    split; [reflexivity|]. split; [lia|]. split; [exact Hfindv|].
    cbn. auto.
Qed.

(** ** Further paths through [submit_pass_data] *)

Lemma submit_body_reaches_pass_fields sub w uid w2 :
  reaches_pass_fields sub w uid w2 ->
  exists w1, connect w = (Ret true, w1) /\ committed w1 = committed w /\
             grows w1 w2 /\
             submit_body sub w1 = submit_pass sub uid w2.
Proof.
  intros (w1 & Hc & Hu & Hcu & Huid).
  exists w1. split; [exact Hc|].
  pose proof (connect_true _ _ Hc) as (Hr1 & _ & Hcm & _).
  split; [exact Hcm|].
  split; [exact (steady_create_user _ _ _ _ _ _ _ _ Hr1 Hcu)|].
  unfold submit_body. unfold user_fields in Hu. rewrite Hu. cbn [negb].
  unfold submit_create_user in Hcu. rewrite (bind_Ret _ _ _ _ _ Hcu).
  apply Z.eqb_neq in Huid. now rewrite Huid.
Qed.

(** What [submit_pass_data] returns once the rest of the body, run from the
    world after [create_user], is known. *)
Lemma submit_pass_data_after_pass_fields sub w uid w2 r w3 :
  reaches_pass_fields sub w uid w2 ->
  submit_pass sub uid w2 = (r, w3) ->
  exists o,
    o = match r with
        | Ret o => o
        | Raise _ => (500%Z, Some MSG_PROCESSING, None)
        end /\
    submit_pass_data sub w =
      (Ret o, mk_world (committed w3) (committed w3) (users_id_seq w3)
                (passes_id_seq w3) ConnClosed (S (close_calls w3)) (faults w3)).
Proof.
  intros Hreach Hp.
  destruct (submit_body_reaches_pass_fields _ _ _ _ Hreach) as (w1 & Hc & _ & _ & Hbody).
  eexists. split; [reflexivity|].
  apply (submit_pass_data_after_body _ _ _ _ _ Hc).
  unfold try_except. rewrite Hbody, Hp. destruct r; reflexivity.
Qed.

Lemma py_all_pass_fields_blank sub :
  some_pass_field_blank sub ->
  py_all [dict_get (title sub); dict_get (add_time sub)] = false.
Proof.
  unfold py_all. cbn [forallb].
  intros [H|H]; apply truthy_blank in H; rewrite H; rewrite ?andb_false_r; reflexivity.
Qed.

(** X1: with the connection and the user obtained and numeric coordinates, a
    missing or empty title or add_time gives 400 with the message on the
    required fields; the connection is closed, and the tables are as
    [create_user] left them: the user row stays, no pass row is written. *)
Theorem missing_pass_field_gives_400 sub w uid w2 la lo h :
  reaches_pass_fields sub w uid w2 ->
  py_float (latitude (get_dict (coords sub) empty_coords)) = inr la ->
  py_float (longitude (get_dict (coords sub) empty_coords)) = inr lo ->
  py_int (height (get_dict (coords sub) empty_coords)) = inr h ->
  some_pass_field_blank sub ->
  exists w',
    submit_pass_data sub w = (Ret (400%Z, Some MSG_REQUIRED_FIELDS, None), w') /\
    committed w' = committed w2 /\
    passes (committed w') = passes (committed w) /\
    connection w' = ConnClosed.
Proof.
  intros Hreach Hla Hlo Hh Hblank.
  assert (Hp : submit_pass sub uid w2
               = (Ret (400%Z, Some MSG_REQUIRED_FIELDS, None), w2)).
  { unfold submit_pass. rewrite Hla, Hlo, Hh. cbn [pure_call].
    unfold bind at 1. unfold ret at 1. unfold bind at 1. unfold ret at 1.
    unfold bind at 1. unfold ret at 1.
    now rewrite (py_all_pass_fields_blank _ Hblank). }
  destruct (submit_pass_data_after_pass_fields _ _ _ _ _ _ Hreach Hp) as (o & -> & Hs).
  eexists. split; [exact Hs|]. cbn [committed connection].
  split; [reflexivity|]. split; [|reflexivity].
  destruct Hreach as (w1 & Hc & _ & Hcu & _).
  destruct (connect_true _ _ Hc) as (Hr1 & _ & Hcm & _).
  unfold submit_create_user in Hcu.
  destruct (create_user_keeps_passes _ _ _ _ _ _ _ _ Hr1 Hcu) as [Hp2 _].
  congruence.
Qed.

Lemma submit_pass_coordinate_fault sub uid w2 :
  some_coordinate_not_numeric sub ->
  exists e, submit_pass sub uid w2 = (Raise e, w2).
Proof.
  unfold some_coordinate_not_numeric, submit_pass. cbv zeta.
  destruct (py_float (latitude (get_dict (coords sub) empty_coords))) as [e1|la].
  { intros _. exists e1. reflexivity. }
  destruct (py_float (longitude (get_dict (coords sub) empty_coords))) as [e2|lo].
  { intros _. exists e2. reflexivity. }
  destruct (py_int (height (get_dict (coords sub) empty_coords))) as [e3|h].
  { intros _. exists e3. reflexivity. }
  intros [[e H]|[[e H]|[e H]]]; discriminate.
Qed.

(** X2: with the connection and the user obtained, a coordinate that does
    not convert to a number gives 500 with the message on the processing of
    the data, whatever title and add_time are; the user row stays and no
    pass row is written. *)
Theorem non_numeric_coordinate_gives_500 sub w uid w2 :
  reaches_pass_fields sub w uid w2 ->
  some_coordinate_not_numeric sub ->
  exists w',
    submit_pass_data sub w = (Ret (500%Z, Some MSG_PROCESSING, None), w') /\
    committed w' = committed w2 /\
    passes (committed w') = passes (committed w) /\
    connection w' = ConnClosed.
Proof.
  intros Hreach Hbad.
  destruct (submit_pass_coordinate_fault sub uid w2 Hbad) as [e Hp].
  destruct (submit_pass_data_after_pass_fields _ _ _ _ _ _ Hreach Hp) as (o & -> & Hs).
  eexists. split; [exact Hs|]. cbn [committed connection].
  split; [reflexivity|]. split; [|reflexivity].
  destruct Hreach as (w1 & Hc & _ & Hcu & _).
  destruct (connect_true _ _ Hc) as (Hr1 & _ & Hcm & _).
  unfold submit_create_user in Hcu.
  destruct (create_user_keeps_passes _ _ _ _ _ _ _ _ Hr1 Hcu) as [Hp2 _].
  congruence.
Qed.

(** X3: when [psycopg2.connect] raises a [psycopg2.Error],
    [submit_pass_data] returns 500 with the message on the connection and
    leaves everything as it was but the schedule of the library calls: no
    row, no sequence value, no change of the connection attribute. *)
Theorem connect_failure_gives_500 sub w e :
  call_outcome 0 w = Some e ->
  is_psycopg2_Error e = true ->
  submit_pass_data sub w
  = (Ret (500%Z, Some MSG_CONNECT, None), set_faults w (tl (faults w))).
Proof.
  intros H0 He. unfold call_outcome in H0. break_world w.
  destruct fs as [|[e'|] fs]; cbn in H0; try discriminate.
  inversion H0; subst e'.
  unfold submit_pass_data, bind, connect, try_except, psycopg2_connect, library_call, ret.
  destruct e; try discriminate He; reflexivity.
Qed.

(** X4: with the connection and the user obtained, numeric coordinates and
    title and add_time there, a [create_pass] that answers [None] gives 500
    with the message on the creation of the pass; the user row stays, and no
    pass, difficulty-level or image row is written. *)
Theorem create_pass_failure_gives_500 sub w uid w2 la lo h w3 :
  reaches_pass_fields sub w uid w2 ->
  py_float (latitude (get_dict (coords sub) empty_coords)) = inr la ->
  py_float (longitude (get_dict (coords sub) empty_coords)) = inr lo ->
  py_int (height (get_dict (coords sub) empty_coords)) = inr h ->
  py_all [dict_get (title sub); dict_get (add_time sub)] = true ->
  submit_create_pass sub uid la lo h w2 = (Ret None, w3) ->
  exists w',
    submit_pass_data sub w = (Ret (500%Z, Some MSG_CREATE_PASS, None), w') /\
    committed w' = committed w2 /\
    connection w' = ConnClosed.
Proof.
  intros Hreach Hla Hlo Hh Ht Hcp.
  assert (Hp : submit_pass sub uid w2
               = (Ret (500%Z, Some MSG_CREATE_PASS, None), w3)).
  { unfold submit_pass. rewrite Hla, Hlo, Hh. cbn [pure_call].
    unfold bind at 1. unfold ret at 1. unfold bind at 1. unfold ret at 1.
    unfold bind at 1. unfold ret at 1.
    rewrite Ht. cbn [negb].
    unfold submit_create_pass in Hcp. now rewrite (bind_Ret _ _ _ _ _ Hcp). }
  destruct (submit_pass_data_after_pass_fields _ _ _ _ _ _ Hreach Hp) as (o & -> & Hs).
  eexists. split; [exact Hs|]. cbn [committed connection].
  split; [|reflexivity].
  destruct (submit_body_reaches_pass_fields _ _ _ _ Hreach) as (w1 & _ & _ & G & _).
  unfold submit_create_pass in Hcp.
  destruct (create_pass_spec _ _ _ _ _ _ _ _ _ _ _ _ (grows_ready _ _ G) Hcp)
    as (_ & _ & _ & [(E & _)|[_ Hcm]]); [discriminate | exact Hcm].
Qed.

(** ** The consistency of the store *)

Lemma create_user_full em ph fa na ot w r w' :
  ready w -> create_user em ph fa na ot w = (r, w') ->
  passes_id_seq w' = passes_id_seq w /\
  (users_id_seq w <= users_id_seq w' <= users_id_seq w + 1)%Z /\
  ((r = Ret (Some (users_id_seq w + 1)%Z) /\
    users_id_seq w' = (users_id_seq w + 1)%Z /\
    find (fun u => sql_eq (u_email u) em) (users (committed w)) = None /\
    committed w' =
      add_user (committed w) (mk_user_row (users_id_seq w + 1) em ph fa na ot))
   \/ (committed w' = committed w /\
       (r = Ret (option_map u_id
                   (find (fun u => sql_eq (u_email u) em) (users (committed w))))
        \/ r = Ret None \/ exists e, r = Raise e))).
Proof.
  intros [Hc Hs] H. break_world w. unfold_methods H.
  revert H. run_calls; intros H; inversion H; subst; clear H; cbn;
    (split; [reflexivity|]); (split; [lia|]);
    try match goal with
        | Hb : existsb _ _ = _ |- _ =>
            rewrite find_existsb in Hb;
            destruct (find (fun u => sql_eq (u_email u) em) (users cm)) as [row|];
            try discriminate Hb
        end;
    try (left; repeat split; reflexivity);
    try (right; repeat split; solve [reflexivity | eauto]).
Qed.

Lemma create_pass_full bt t ot cn at_ uid la lo h w r w' :
  ready w -> create_pass bt t ot cn at_ uid la lo h w = (r, w') ->
  users_id_seq w' = users_id_seq w /\
  (passes_id_seq w <= passes_id_seq w' <= passes_id_seq w + 1)%Z /\
  ((r = Ret (Some (passes_id_seq w + 1)%Z) /\
    passes_id_seq w' = (passes_id_seq w + 1)%Z /\
    committed w' =
      add_pass (committed w)
        (mk_pass_row (passes_id_seq w + 1) bt t ot cn at_ uid la lo h "new"))
   \/ ((r = Ret None \/ exists e, r = Raise e) /\ committed w' = committed w)).
Proof.
  intros [Hc Hs] H. break_world w. unfold_methods H.
  revert H. run_calls; intros H; inversion H; subst; clear H; cbn;
    (split; [reflexivity|]); (split; [lia|]);
    try (left; repeat split; reflexivity);
    try (right; repeat split; solve [reflexivity | eauto]).
Qed.

Lemma NoDup_snoc {A : Type} (l : list A) (x : A) :
  NoDup l -> ~ In x l -> NoDup (l ++ [x]).
Proof.
  induction l as [|a l IH]; intros Hnd Hx; cbn.
  - constructor; [intros []|constructor].
  - inversion Hnd as [|? ? Ha Hl]; subst. constructor.
    + rewrite in_app_iff. intros [H|[H|[]]]; [now apply Ha|].
      subst. apply Hx. now left.
    + apply IH; [exact Hl|]. intros H. apply Hx. now right.
Qed.

Lemma ids_from_sequence_up ids seq seq' :
  ids_from_sequence ids seq -> (seq <= seq')%Z -> ids_from_sequence ids seq'.
Proof.
  intros [Hnd Hb] Hle. split; [exact Hnd|].
  eapply Forall_impl; [|exact Hb]. cbn. intros i Hi. lia.
Qed.

Lemma ids_from_sequence_next ids seq :
  ids_from_sequence ids seq -> (0 <= seq)%Z ->
  ids_from_sequence (ids ++ [(seq + 1)%Z])%list (seq + 1)%Z.
Proof.
  intros [Hnd Hb] Hle. split.
  - apply NoDup_snoc; [exact Hnd|]. intros Hin.
    rewrite Forall_forall in Hb. specialize (Hb _ Hin). lia.
  - apply Forall_app. split.
    + eapply Forall_impl; [|exact Hb]. cbn. intros i Hi. lia.
    + constructor; [lia|constructor].
Qed.

Lemma non_null_app (l l' : list pystr) :
  non_null (l ++ l') = (non_null l ++ non_null l')%list.
Proof. unfold non_null. apply flat_map_app. Qed.

Lemma find_email_none e us :
  find (fun u => sql_eq (u_email u) (Some e)) us = None ->
  ~ In e (non_null (map u_email us)).
Proof.
  intros Hfind Hin. unfold non_null in Hin. rewrite in_flat_map in Hin.
  destruct Hin as (v & Hv & He). rewrite in_map_iff in Hv.
  destruct Hv as (u & Hu & Hin).
  pose proof (find_none _ _ Hfind _ Hin) as Hf. cbn in Hf.
  rewrite Hu in Hf. destruct v as [s|]; [|contradiction].
  destruct He as [->|[]]. cbn in Hf. now rewrite String.eqb_refl in Hf.
Qed.

Lemma store_ok_same_tables w w' :
  store_ok w -> committed w' = committed w ->
  (users_id_seq w <= users_id_seq w')%Z ->
  (passes_id_seq w <= passes_id_seq w')%Z ->
  store_ok w'.
Proof.
  intros (Hus & Hps & Hu & Hp & He & F1 & F2 & F3) Hcm Hule Hple.
  unfold store_ok. rewrite Hcm.
  repeat split; try assumption; try lia;
    try (eapply ids_from_sequence_up; eassumption);
    try (destruct Hu as [H _]; exact H); try (destruct Hp as [H _]; exact H).
Qed.

Lemma store_ok_add_user w w' em ph fa na ot :
  store_ok w ->
  committed w' =
    add_user (committed w) (mk_user_row (users_id_seq w + 1) em ph fa na ot) ->
  users_id_seq w' = (users_id_seq w + 1)%Z ->
  passes_id_seq w' = passes_id_seq w ->
  find (fun u => sql_eq (u_email u) em) (users (committed w)) = None ->
  store_ok w'.
Proof.
  intros (Hus & Hps & Hu & Hp & He & F1 & F2 & F3) Hcm Hseq Hpseq Hfind.
  unfold store_ok. rewrite Hcm, Hseq, Hpseq. cbn [users passes difficulty_levels images_ add_user].
  rewrite !map_app. cbn [map u_id u_email].
  split; [lia|]. split; [exact Hps|].
  split; [now apply ids_from_sequence_next|]. split; [exact Hp|].
  split.
  - rewrite non_null_app. destruct em as [e|]; cbn.
    + apply NoDup_snoc; [exact He|]. now apply find_email_none.
    + now rewrite app_nil_r.
  - split; [|split; assumption].
    eapply Forall_impl; [|exact F1]. cbn. intros p Hin. apply in_or_app. now left.
Qed.

Lemma store_ok_add_pass w w' bt t ot cn at_ uid la lo h :
  store_ok w ->
  In uid (map u_id (users (committed w))) ->
  committed w' =
    add_pass (committed w)
      (mk_pass_row (passes_id_seq w + 1) bt t ot cn at_ uid la lo h "new") ->
  passes_id_seq w' = (passes_id_seq w + 1)%Z ->
  users_id_seq w' = users_id_seq w ->
  store_ok w'.
Proof.
  intros (Hus & Hps & Hu & Hp & He & F1 & F2 & F3) Huid Hcm Hpseq Hseq.
  unfold store_ok. rewrite Hcm, Hseq, Hpseq. cbn [users passes difficulty_levels images_ add_pass].
  rewrite !map_app. cbn [map p_id].
  split; [exact Hus|]. split; [lia|]. split; [exact Hu|].
  split; [now apply ids_from_sequence_next|]. split; [exact He|].
  split; [|split].
  - apply Forall_app. split; [exact F1|]. constructor; [exact Huid|constructor].
  - eapply Forall_impl; [|exact F2]. cbn. intros d Hin. apply in_or_app. now left.
  - eapply Forall_impl; [|exact F3]. cbn. intros i Hin. apply in_or_app. now left.
Qed.

Lemma store_ok_ext w w' :
  store_ok w -> committed w' = committed w ->
  users_id_seq w' = users_id_seq w -> passes_id_seq w' = passes_id_seq w ->
  store_ok w'.
Proof. intros H Hcm Hu Hp. apply (store_ok_same_tables w); auto; lia. Qed.

Lemma store_ok_execute_query q w r w' :
  ready w -> store_ok w ->
  In (statement_pass_id q) (map p_id (passes (committed w))) ->
  execute_query q w = (r, w') -> store_ok w'.
Proof.
  intros Hr Hok Hin H.
  destruct (execute_query_spec _ _ _ _ Hr H) as (_ & _ & Hu & Hp & [[_ Hcm]|[_ Hcm]]).
  - destruct Hok as (Hus & Hps & Hui & Hpi & He & F1 & F2 & F3).
    unfold store_ok. rewrite Hcm, Hu, Hp.
    destruct q as [row|row];
      cbn [run_statement users passes difficulty_levels images_
           add_difficulty_level add_image statement_pass_id] in Hin |- *;
      (split; [exact Hus|]); (split; [exact Hps|]); (split; [exact Hui|]);
      (split; [exact Hpi|]); (split; [exact He|]); (split; [exact F1|]); split;
      try assumption.
    + apply Forall_app. split; [exact F2|]. apply Forall_cons; [exact Hin|apply Forall_nil].
    + apply Forall_app. split; [exact F3|]. apply Forall_cons; [exact Hin|apply Forall_nil].
  - now apply (store_ok_ext w).
Qed.

Lemma store_ok_create_user em ph fa na ot w r w' :
  ready w -> store_ok w -> create_user em ph fa na ot w = (r, w') ->
  store_ok w' /\
  forall u, r = Ret (Some u) -> In u (map u_id (users (committed w'))).
Proof.
  intros Hr Hok H.
  destruct (create_user_full _ _ _ _ _ _ _ _ Hr H)
    as (Hp & Hule & [(E & Hu & Hfind & Hcm)|(Hcm & E)]).
  - split; [eapply store_ok_add_user; eauto|].
    intros u Eu. rewrite E in Eu. inversion Eu; subst u.
    rewrite Hcm. cbn. rewrite map_app. apply in_or_app. right. now left.
  - split; [apply (store_ok_same_tables w); auto; lia|].
    intros u Eu. rewrite Hcm.
    destruct E as [E|[E|[e E]]]; rewrite E in Eu; try discriminate.
    inversion Eu as [Hf].
    destruct (find (fun u0 => sql_eq (u_email u0) em) (users (committed w)))
      as [row|] eqn:Hfind; [|discriminate].
    cbn in Hf. inversion Hf; subst u.
    apply find_some in Hfind. apply in_map. tauto.
Qed.

Lemma store_ok_create_pass bt t ot cn at_ uid la lo h w r w' :
  ready w -> store_ok w ->
  In uid (map u_id (users (committed w))) ->
  create_pass bt t ot cn at_ uid la lo h w = (r, w') ->
  store_ok w' /\
  forall pid, r = Ret (Some pid) -> In pid (map p_id (passes (committed w'))).
Proof.
  intros Hr Hok Huid H.
  destruct (create_pass_full _ _ _ _ _ _ _ _ _ _ _ _ Hr H)
    as (Hu & Hple & [(E & Hp & Hcm)|(E & Hcm)]).
  - split; [eapply store_ok_add_pass; eauto|].
    intros pid Ep. rewrite E in Ep. inversion Ep; subst pid.
    rewrite Hcm. cbn. rewrite map_app. apply in_or_app. right. now left.
  - split; [apply (store_ok_same_tables w); auto; lia|].
    intros pid Ep. destruct E as [E|[e E]]; rewrite E in Ep; discriminate.
Qed.

Lemma grows_keeps_pass w w' pid :
  grows w w' ->
  In pid (map p_id (passes (committed w))) ->
  In pid (map p_id (passes (committed w'))).
Proof.
  intros (_ & _ & _ & [l Hp] & _) Hin. rewrite Hp, map_app. apply in_or_app. now left.
Qed.

Lemma grows_keeps_user w w' uid :
  grows w w' ->
  In uid (map u_id (users (committed w))) ->
  In uid (map u_id (users (committed w'))).
Proof.
  intros (_ & _ & [l Hu] & _) Hin. rewrite Hu, map_app. apply in_or_app. now left.
Qed.

Lemma store_ok_process_image pid image w r w' :
  ready w -> store_ok w ->
  In pid (map p_id (passes (committed w))) ->
  process_image pid image w = (r, w') -> store_ok w'.
Proof.
  intros Hr Hok Hin H.
  destruct (image_bytes_of image) as [e|bs] eqn:Hd.
  - rewrite (process_image_decode_fault _ _ _ _ Hd) in H. now inversion H; subst.
  - destruct (Z_le_gt_dec (len bs) MAX_IMAGE_SIZE) as [Hle|Hgt].
    + rewrite (process_image_insert _ _ _ _ Hd Hle) in H. inversion H; subst w'.
      destruct (create_image pid (dict_get_default (img_title image) "") bs w)
        as [r1 w1] eqn:Hci.
      cbn [snd]. unfold create_image in Hci.
      eapply store_ok_execute_query; [exact Hr|exact Hok| |exact Hci]. exact Hin.
    + rewrite (process_image_too_large _ _ _ _ Hd Hgt) in H. now inversion H; subst.
Qed.

Lemma store_ok_for_images pid images w r w' :
  ready w -> store_ok w ->
  In pid (map p_id (passes (committed w))) ->
  for_images pid images w = (r, w') -> store_ok w'.
Proof.
  revert w. induction images as [|image rest IH]; intros w Hr Hok Hin H;
    cbn [for_images] in H.
  - unfold ret in H. now inversion H; subst.
  - destruct (process_image_returns pid image w) as [w1 H1].
    rewrite (bind_Ret _ _ _ _ _ H1) in H.
    pose proof (steady_process_image _ _ _ _ _ Hr H1) as G.
    eapply IH; [exact (grows_ready _ _ G)| | |exact H].
    + eapply store_ok_process_image; eauto.
    + eapply grows_keeps_pass; eauto.
Qed.

Lemma store_ok_submit_levels_and_images sub pid w r w' :
  ready w -> store_ok w ->
  In pid (map p_id (passes (committed w))) ->
  submit_levels_and_images sub pid w = (r, w') -> store_ok w'.
Proof.
  intros Hr Hok Hin H. unfold submit_levels_and_images in H.
  apply bind_inv in H. destruct H as [(b & w1 & Hd & H)|(e & Hd & _)].
  - pose proof (steady_create_difficulty_level _ _ _ _ _ _ _ _ Hr Hd) as G.
    assert (Hok1 : store_ok w1).
    { unfold create_difficulty_level in Hd.
      eapply store_ok_execute_query; [exact Hr|exact Hok| |exact Hd]. exact Hin. }
    apply bind_inv in H. destruct H as [(u & w2 & Hf & H)|(e & Hf & _)].
    + unfold ret in H. inversion H; subst.
      eapply store_ok_for_images; [exact (grows_ready _ _ G)|exact Hok1| |exact Hf].
      eapply grows_keeps_pass; eauto.
    + eapply store_ok_for_images; [exact (grows_ready _ _ G)|exact Hok1| |exact Hf].
      eapply grows_keeps_pass; eauto.
  - unfold create_difficulty_level in Hd.
    eapply store_ok_execute_query; [exact Hr|exact Hok| |exact Hd]. exact Hin.
Qed.

Lemma pure_call_inv {A : Type} (x : exn + A) w r w' :
  pure_call x w = (r, w') -> w' = w.
Proof. destruct x; cbn; unfold raise, ret; intros H; now inversion H. Qed.

Lemma store_ok_submit_pass sub uid w r w' :
  ready w -> store_ok w ->
  In uid (map u_id (users (committed w))) ->
  submit_pass sub uid w = (r, w') -> store_ok w'.
Proof.
  intros Hr Hok Hin H. unfold submit_pass in H.
  apply bind_inv in H. destruct H as [(la & w1 & H1 & H)|(e & H1 & _)];
    apply pure_call_inv in H1; subst; [|exact Hok].
  apply bind_inv in H. destruct H as [(lo & w1 & H1 & H)|(e & H1 & _)];
    apply pure_call_inv in H1; subst; [|exact Hok].
  apply bind_inv in H. destruct H as [(h & w1 & H1 & H)|(e & H1 & _)];
    apply pure_call_inv in H1; subst; [|exact Hok].
  destruct (negb _).
  { unfold ret in H. now inversion H; subst. }
  apply bind_inv in H. destruct H as [(p & w3 & Hcp & H)|(e & Hcp & _)].
  - destruct (store_ok_create_pass _ _ _ _ _ _ _ _ _ _ _ _ Hr Hok Hin Hcp) as [Hok3 Hpid].
    pose proof (steady_create_pass _ _ _ _ _ _ _ _ _ _ _ _ Hr Hcp) as G.
    destruct p as [pid|]; [destruct (pid =? 0)%Z|].
    + unfold ret in H. now inversion H; subst.
    + eapply store_ok_submit_levels_and_images;
        [exact (grows_ready _ _ G)|exact Hok3| |exact H]. now apply Hpid.
    + unfold ret in H. now inversion H; subst.
  - now destruct (store_ok_create_pass _ _ _ _ _ _ _ _ _ _ _ _ Hr Hok Hin Hcp).
Qed.

Lemma store_ok_submit_body sub w r w' :
  ready w -> store_ok w -> submit_body sub w = (r, w') -> store_ok w'.
Proof.
  intros Hr Hok H. unfold submit_body in H. destruct (negb _).
  { unfold ret in H. now inversion H; subst. }
  apply bind_inv in H. destruct H as [(u & w2 & Hcu & H)|(e & Hcu & _)].
  - destruct (store_ok_create_user _ _ _ _ _ _ _ _ Hr Hok Hcu) as [Hok2 Huid].
    pose proof (steady_create_user _ _ _ _ _ _ _ _ Hr Hcu) as G.
    destruct u as [uid|]; [destruct (uid =? 0)%Z|].
    + unfold ret in H. now inversion H; subst.
    + eapply store_ok_submit_pass; [exact (grows_ready _ _ G)|exact Hok2| |exact H].
      now apply Huid.
    + unfold ret in H. now inversion H; subst.
  - now destruct (store_ok_create_user _ _ _ _ _ _ _ _ Hr Hok Hcu).
Qed.

(** The world [submit_pass_data] leaves: that of a failed [connect], or the
    world after the guarded body with the connection closed. *)
Lemma submit_pass_data_world sub w :
  (exists w1 o w2,
      connect w = (Ret true, w1) /\
      try_except (submit_body sub) unexpected_error w1 = (Ret o, w2) /\
      grows w1 w2 /\
      submit_pass_data sub w =
        (Ret o, mk_world (committed w2) (committed w2) (users_id_seq w2)
                  (passes_id_seq w2) ConnClosed (S (close_calls w2)) (faults w2)))
  \/ (exists r, r <> Ret true /\
        connect w = (r, set_faults w (tl (faults w))) /\
        snd (submit_pass_data sub w) = set_faults w (tl (faults w))).
Proof.
  destruct (connect w) as [r w1] eqn:Hc.
  assert (Hcases : r = Ret true \/ r <> Ret true).
  { destruct r as [[|]|e]; auto; right; discriminate. }
  destruct Hcases as [->|Hne].
  - left. destruct (guarded_body_returns sub w1) as (o & w2 & Hb).
    destruct (submit_pass_data_after_body _ _ _ _ _ Hc Hb) as [G Hs].
    now exists w1, o, w2.
  - right. destruct (connect_not_true _ _ _ Hc Hne) as (Hw1 & _). subst w1.
    exists r. split; [exact Hne|]. split; [reflexivity|].
    unfold submit_pass_data, bind. rewrite Hc.
    destruct r as [[|]|e']; [congruence| |]; reflexivity.
Qed.

Lemma store_ok_guarded_body sub w r w' :
  ready w -> store_ok w ->
  try_except (submit_body sub) unexpected_error w = (r, w') -> store_ok w'.
Proof.
  intros Hr Hok H. apply try_except_inv in H.
  destruct H as [(a & Hb & _)|[(e & w1 & hd & Hb & He & Hh)|(e & Hb & _)]].
  - eapply store_ok_submit_body; eauto.
  - unfold unexpected_error in He. cbn in He. inversion He; subst hd.
    unfold ret in Hh. inversion Hh; subst. eapply store_ok_submit_body; eauto.
  - eapply store_ok_submit_body; eauto.
Qed.

(** X6: [submit_pass_data] keeps the committed store consistent, whatever
    the submission and whichever library calls fail: ids stay distinct,
    positive and within their sequences, no email occurs twice, every pass
    has its user, every difficulty level and image its pass. *)
Theorem submit_pass_data_keeps_store_consistent sub w :
  store_ok w -> store_ok (snd (submit_pass_data sub w)).
Proof.
  intros Hok.
  destruct (submit_pass_data_world sub w)
    as [(w1 & o & w2 & Hc & Hb & G & Hs)|(r & _ & _ & Hs)]; rewrite Hs.
  - destruct (connect_true _ _ Hc) as (Hr1 & _ & Hcm & Hu & Hp & _).
    assert (Hok1 : store_ok w1) by now apply (store_ok_ext w).
    pose proof (store_ok_guarded_body _ _ _ _ Hr1 Hok1 Hb) as Hok2.
    cbn [snd]. now apply (store_ok_ext w2).
  - now apply (store_ok_ext w).
Qed.

(** ** What a submission leaves in the tables *)

Lemma adds_refl t : adds t t [] [] [] [].
Proof. unfold adds. now rewrite !app_nil_r. Qed.

Lemma adds_trans a b c us ps ds rows us' ps' ds' rows' :
  adds a b us ps ds rows -> adds b c us' ps' ds' rows' ->
  adds a c (us ++ us') (ps ++ ps') (ds ++ ds') (rows ++ rows').
Proof.
  intros (H1 & H2 & H3 & H4) (K1 & K2 & K3 & K4). unfold adds.
  rewrite K1, K2, K3, K4, H1, H2, H3, H4, <- !app_assoc. auto.
Qed.

Lemma adds_eq a b b' us ps ds rows :
  b' = b -> adds a b us ps ds rows -> adds a b' us ps ds rows.
Proof. now intros ->. Qed.

Lemma process_image_adds pid image w r w' :
  ready w -> process_image pid image w = (r, w') ->
  adds (committed w) (committed w') [] [] [] []
  \/ exists bs,
       image_bytes_of image = inr bs /\ (len bs <= MAX_IMAGE_SIZE)%Z /\
       adds (committed w) (committed w') [] [] [] [image_row_of pid image bs].
Proof.
  intros Hr H.
  destruct (image_bytes_of image) as [e|bs] eqn:Hd.
  - rewrite (process_image_decode_fault _ _ _ _ Hd) in H. inversion H; subst.
    left. apply adds_refl.
  - destruct (Z_le_gt_dec (len bs) MAX_IMAGE_SIZE) as [Hle|Hgt].
    + rewrite (process_image_insert _ _ _ _ Hd Hle) in H. inversion H; subst w'.
      pose proof (create_image_committed pid (dict_get_default (img_title image) "")
                    bs w Hr) as Hcm.
      destruct (fst (create_image pid (dict_get_default (img_title image) "") bs w))
        as [[|]|e]; rewrite Hcm.
      * right. exists bs. split; [reflexivity|]. split; [exact Hle|].
        unfold adds. cbn. now rewrite !app_nil_r.
      * left. apply adds_refl.
      * left. apply adds_refl.
    + rewrite (process_image_too_large _ _ _ _ Hd Hgt) in H. inversion H; subst.
      left. apply adds_refl.
Qed.

Lemma for_images_adds pid images w r w' :
  ready w -> for_images pid images w = (r, w') ->
  exists rows,
    adds (committed w) (committed w') [] [] [] rows /\ stored_from pid images rows.
Proof.
  revert w. induction images as [|image rest IH]; intros w Hr H; cbn [for_images] in H.
  - unfold ret in H. inversion H; subst. exists []. split; [apply adds_refl|constructor].
  - destruct (process_image_returns pid image w) as [w1 H1].
    rewrite (bind_Ret _ _ _ _ _ H1) in H.
    pose proof (steady_process_image _ _ _ _ _ Hr H1) as G.
    destruct (IH _ (grows_ready _ _ G) H) as (rows & Hadds & Hst).
    destruct (process_image_adds _ _ _ _ _ Hr H1) as [H0|(bs & Hd & Hle & H0)].
    + exists rows. split; [exact (adds_trans _ _ _ _ _ _ _ _ _ _ _ H0 Hadds)|].
      now constructor.
    + exists (image_row_of pid image bs :: rows).
      split; [exact (adds_trans _ _ _ _ _ _ _ _ _ _ _ H0 Hadds)|].
      now constructor.
Qed.

Lemma stored_from_rows pid images rows :
  stored_from pid images rows ->
  Forall (fun r => i_pass_id r = pid /\ (len (i_data r) <= MAX_IMAGE_SIZE)%Z) rows /\
  (List.length rows <= List.length images)%nat.
Proof.
  induction 1 as [|image rest rows _ [IH1 IH2]|image bs rest rows Hd Hle _ [IH1 IH2]].
  - split; [constructor | apply Nat.le_refl].
  - split; [exact IH1 | cbn; apply Nat.le_le_succ_r; exact IH2].
  - split; [constructor; [split; [reflexivity | exact Hle] | exact IH1]|].
    cbn. now apply le_n_S.
Qed.

(** X7: the loop over the images returns without raising, touches only the
    images table, and what it adds there are rows of this pass, in the order
    of the submitted list, each holding the decoded bytes of an image, never
    more than [MAX_IMAGE_SIZE] of them, and never more rows than images. *)
Theorem for_images_stores_in_order_within_size pid images w :
  ready w ->
  exists w' rows,
    for_images pid images w = (Ret tt, w') /\
    adds (committed w) (committed w') [] [] [] rows /\
    stored_from pid images rows /\
    Forall (fun r => i_pass_id r = pid /\ (len (i_data r) <= MAX_IMAGE_SIZE)%Z) rows /\
    (List.length rows <= List.length images)%nat.
Proof.
  intros Hr. destruct (for_images_returns pid images w) as [w' H].
  destruct (for_images_adds _ _ _ _ _ Hr H) as (rows & Hadds & Hst).
  exists w', rows. split; [exact H|]. split; [exact Hadds|]. split; [exact Hst|].
  now apply stored_from_rows.
Qed.

Lemma stored_from_none pid images : stored_from pid images [].
Proof. induction images; now constructor. Qed.

Lemma submit_levels_and_images_adds sub pid w r w' :
  ready w -> submit_levels_and_images sub pid w = (r, w') ->
  exists ds rows,
    adds (committed w) (committed w') [] [] ds rows /\
    (List.length ds <= 1)%nat /\
    Forall (fun d => d_pass_id d = pid) ds /\
    stored_from pid (images sub) rows.
Proof.
  intros Hr H. unfold submit_levels_and_images in H.
  assert (Hlev : forall r1 w1,
             create_difficulty_level pid
               (dict_get_default (winter (get_dict (level sub) empty_level)) "")
               (dict_get_default (spring (get_dict (level sub) empty_level)) "")
               (dict_get_default (summer (get_dict (level sub) empty_level)) "")
               (dict_get_default (autumn (get_dict (level sub) empty_level)) "") w
             = (r1, w1) ->
             exists ds, adds (committed w) (committed w1) [] [] ds [] /\
                        (List.length ds <= 1)%nat /\
                        Forall (fun d => d_pass_id d = pid) ds).
  { intros r1 w1 Hd. unfold create_difficulty_level in Hd.
    destruct (execute_query_spec _ _ _ _ Hr Hd) as (_ & _ & _ & _ & [[_ Hcm]|[_ Hcm]]).
    - eexists [_]. split; [|split; [apply Nat.le_refl|]].
      + rewrite Hcm. unfold adds. cbn. now rewrite !app_nil_r.
      + constructor; [reflexivity|constructor].
    - exists []. split; [rewrite Hcm; apply adds_refl|].
      split; [apply Nat.le_0_l|constructor]. }
  apply bind_inv in H. destruct H as [(b & w1 & Hd & H)|(e & Hd & _)].
  - destruct (Hlev _ _ Hd) as (ds & Hadds & Hlen & Hds).
    pose proof (steady_create_difficulty_level _ _ _ _ _ _ _ _ Hr Hd) as G.
    assert (Himgs : exists rows,
               adds (committed w1) (committed w') [] [] [] rows /\
               stored_from pid (images sub) rows).
    { apply bind_inv in H. destruct H as [(u & w2 & Hf & H)|(e & Hf & _)].
      - unfold ret in H. inversion H; subst.
        exact (for_images_adds _ _ _ _ _ (grows_ready _ _ G) Hf).
      - exact (for_images_adds _ _ _ _ _ (grows_ready _ _ G) Hf). }
    destruct Himgs as (rows & Hadds2 & Hst).
    exists ds, rows. split; [|auto].
    pose proof (adds_trans _ _ _ _ _ _ _ _ _ _ _ Hadds Hadds2) as Ht.
    cbn [app] in Ht. now rewrite app_nil_r in Ht.
  - destruct (Hlev _ _ Hd) as (ds & Hadds & Hlen & Hds).
    exists ds, []. split; [exact Hadds|]. split; [exact Hlen|].
    split; [exact Hds | apply stored_from_none].
Qed.

Lemma py_all_pass_fields sub :
  py_all [dict_get (title sub); dict_get (add_time sub)] = true ->
  truthy (dict_get (title sub)) = true /\ truthy (dict_get (add_time sub)) = true.
Proof.
  unfold py_all. cbn [forallb]. rewrite andb_true_r. apply andb_prop.
Qed.

Lemma submit_pass_adds sub uid w r w' :
  ready w -> submit_pass sub uid w = (r, w') ->
  (adds (committed w) (committed w') [] [] [] [] /\
   forall pid', r <> Ret (200%Z, None, Some pid'))
  \/ exists row ds rows,
       adds (committed w) (committed w') [] [row] ds rows /\
       pass_row_of_submission sub (passes_id_seq w + 1) row /\
       p_user_id row = uid /\
       (List.length ds <= 1)%nat /\
       Forall (fun d => d_pass_id d = (passes_id_seq w + 1)%Z) ds /\
       stored_from (passes_id_seq w + 1) (images sub) rows /\
       forall pid', r = Ret (200%Z, None, Some pid') ->
                    pid' = (passes_id_seq w + 1)%Z /\ pid' <> 0%Z.
Proof.
  intros Hr H. unfold submit_pass in H.
  apply bind_inv in H. destruct H as [(la & w1 & H1 & H)|(e & H1 & E)];
    apply pure_call_inv in H1; subst;
    [|left; split; [apply adds_refl | discriminate]].
  apply bind_inv in H. destruct H as [(lo & w1 & H1 & H)|(e & H1 & E)];
    apply pure_call_inv in H1; subst;
    [|left; split; [apply adds_refl | discriminate]].
  apply bind_inv in H. destruct H as [(h & w1 & H1 & H)|(e & H1 & E)];
    apply pure_call_inv in H1; subst;
    [|left; split; [apply adds_refl | discriminate]].
  destruct (py_all [dict_get (title sub); dict_get (add_time sub)]) eqn:Ht; cbn [negb] in H.
  2:{ unfold ret in H. inversion H; subst.
      left; split; [apply adds_refl | discriminate]. }
  apply py_all_pass_fields in Ht. destruct Ht as [Ht1 Ht2].
  apply bind_inv in H. destruct H as [(p & w3 & Hcp & H)|(e & Hcp & E)].
  - destruct (create_pass_full _ _ _ _ _ _ _ _ _ _ _ _ Hr Hcp)
      as (_ & _ & [(Ep & Hseq & Hcm)|([Ep|[e Ep]] & Hcm)]); try discriminate.
    + inversion Ep; subst p.
      pose proof (steady_create_pass _ _ _ _ _ _ _ _ _ _ _ _ Hr Hcp) as G.
      assert (Hrow : adds (committed w) (committed w3) []
                       [mk_pass_row (passes_id_seq w + 1)
                          (dict_get_default (beauty_title sub) "")
                          (dict_get (title sub))
                          (dict_get_default (other_titles sub) "")
                          (dict_get_default (connect_ sub) "")
                          (dict_get (add_time sub)) uid la lo h "new"] [] []).
      { rewrite Hcm. unfold adds. cbn. now rewrite !app_nil_r. }
      right. eexists.
      destruct (passes_id_seq w + 1 =? 0)%Z eqn:Hz.
      * unfold ret in H. inversion H; subst.
        exists [], []. split; [exact Hrow|].
        split; [repeat split; assumption|]. split; [reflexivity|].
        split; [apply Nat.le_0_l|]. split; [constructor|].
        split; [apply stored_from_none | discriminate].
      * destruct (submit_levels_and_images_adds _ _ _ _ _ (grows_ready _ _ G) H)
          as (ds & rows & Hadds & Hlen & Hds & Hst).
        exists ds, rows.
        split; [exact (adds_trans _ _ _ _ _ _ _ _ _ _ _ Hrow Hadds)|].
        split; [repeat split; assumption|]. split; [reflexivity|].
        split; [exact Hlen|]. split; [exact Hds|]. split; [exact Hst|].
        intros pid' E. rewrite E in H.
        apply submit_levels_and_images_outcome in H.
        inversion H; subst pid'. split; [reflexivity|].
        now apply Z.eqb_neq.
    + inversion Ep; subst p. unfold ret in H. inversion H; subst.
      left. split; [rewrite Hcm; apply adds_refl | discriminate].
  - subst r.
    destruct (create_pass_full _ _ _ _ _ _ _ _ _ _ _ _ Hr Hcp)
      as (_ & _ & [(Ep & _)|(_ & Hcm)]); [discriminate|].
    left. split; [rewrite Hcm; apply adds_refl | discriminate].
Qed.

Lemma submit_body_footprint sub w r w' :
  ready w -> submit_body sub w = (r, w') ->
  exists pid,
    footprint sub (committed w) (committed w') pid /\
    forall pid',
      r = Ret (200%Z, None, Some pid') ->
      pid' = pid /\ pid' <> 0%Z /\ py_all (user_fields sub) = true /\
      exists row,
        passes (committed w') = (passes (committed w) ++ [row])%list /\
        pass_row_of_submission sub pid row.
Proof.
  intros Hr H. unfold submit_body in H.
  assert (Hnone : forall t, footprint sub t t 0).
  { intros t. exists [], [], [], []. split; [apply adds_refl|].
    repeat split; auto; try constructor; apply stored_from_none. }
  destruct (py_all (user_fields sub)) eqn:Hu; unfold user_fields in Hu;
    rewrite Hu in H; cbn [negb] in H.
  2:{ unfold ret in H. inversion H; subst. exists 0%Z. split; [apply Hnone|discriminate]. }
  apply bind_inv in H. destruct H as [(u & w2 & Hcu & H)|(e & Hcu & E)].
  - pose proof (steady_create_user _ _ _ _ _ _ _ _ Hr Hcu) as G.
    assert (Huser : exists us,
               adds (committed w) (committed w2) us [] [] [] /\
               (List.length us <= 1)%nat /\
               Forall (fun x => u_email x
                                = dict_get (email (get_dict (user sub) empty_user))) us).
    { destruct (create_user_full _ _ _ _ _ _ _ _ Hr Hcu)
        as (_ & _ & [(_ & _ & _ & Hcm)|(Hcm & _)]).
      - eexists [_]. split; [|split; [apply Nat.le_refl|]].
        + rewrite Hcm. unfold adds. cbn. now rewrite !app_nil_r.
        + constructor; [reflexivity|constructor].
      - exists []. split; [rewrite Hcm; apply adds_refl|].
        split; [apply Nat.le_0_l|constructor]. }
    destruct Huser as (us & Hadds & Hlen & Hus).
    assert (Hstop : r = Ret (500%Z, Some MSG_CREATE_USER, None) -> w' = w2 ->
                    exists pid,
                      footprint sub (committed w) (committed w') pid /\
                      forall pid',
                        r = Ret (200%Z, None, Some pid') ->
                        pid' = pid /\ pid' <> 0%Z /\ true = true /\
                        exists row,
                          passes (committed w') = (passes (committed w) ++ [row])%list /\
                          pass_row_of_submission sub pid row).
    { intros -> ->. exists 0%Z. split; [|discriminate].
      exists us, [], [], []. split; [exact Hadds|].
      repeat split; auto; try constructor; apply stored_from_none. }
    destruct u as [uid|]; [destruct (uid =? 0)%Z|].
    + unfold ret in H. inversion H; subst. now apply Hstop.
    + destruct (submit_pass_adds _ _ _ _ _ (grows_ready _ _ G) H)
        as [[Hadds2 Hno]|(row & ds & rows & Hadds2 & Hrow & _ & Hlen2 & Hds & Hst & H200)].
      * exists 0%Z. split.
        -- exists us, [], [], [].
           pose proof (adds_trans _ _ _ _ _ _ _ _ _ _ _ Hadds Hadds2) as Ht.
           rewrite app_nil_r in Ht. cbn [app] in Ht. split; [exact Ht|].
           repeat split; auto; try constructor; apply stored_from_none.
        -- intros pid' E. now elim (Hno pid').
      * exists (passes_id_seq w2 + 1)%Z. split.
        -- exists us, [row], ds, rows.
           pose proof (adds_trans _ _ _ _ _ _ _ _ _ _ _ Hadds Hadds2) as Ht.
           rewrite app_nil_r in Ht. cbn [app] in Ht. split; [exact Ht|].
           split; [exact Hlen|]. split; [apply Nat.le_refl|]. split; [exact Hlen2|].
           split; [discriminate|]. split; [exact Hus|].
           split; [constructor; [exact Hrow|constructor]|]. split; [exact Hds|exact Hst].
        -- intros pid' E. destruct (H200 _ E) as [-> Hnz].
           split; [reflexivity|]. split; [exact Hnz|]. split; [reflexivity|].
           exists row. split; [|exact Hrow].
           destruct Hadds as (_ & Hp1 & _). destruct Hadds2 as (_ & Hp2 & _).
           rewrite Hp2, Hp1. now rewrite app_nil_r.
    + unfold ret in H. inversion H; subst. now apply Hstop.
  - subst r. exists 0%Z. split; [|discriminate].
    destruct (create_user_full _ _ _ _ _ _ _ _ Hr Hcu)
      as (_ & _ & [(E & _)|(Hcm & _)]); [discriminate|].
    rewrite Hcm. apply Hnone.
Qed.

Lemma guarded_body_footprint sub w o w' :
  ready w -> try_except (submit_body sub) unexpected_error w = (Ret o, w') ->
  exists pid,
    footprint sub (committed w) (committed w') pid /\
    forall pid',
      o = (200%Z, None, Some pid') ->
      pid' = pid /\ pid' <> 0%Z /\ py_all (user_fields sub) = true /\
      exists row,
        passes (committed w') = (passes (committed w) ++ [row])%list /\
        pass_row_of_submission sub pid row.
Proof.
  intros Hr H. apply try_except_inv in H.
  destruct H as [(a & Hb & E)|[(e & w1 & hd & Hb & He & Hh)|(e & _ & _ & E)]];
    [| |discriminate].
  - inversion E; subst a.
    destruct (submit_body_footprint _ _ _ _ Hr Hb) as (pid & Hfp & H200).
    exists pid. split; [exact Hfp|]. intros pid' Eo. apply H200. now rewrite Eo.
  - unfold unexpected_error in He. cbn in He. inversion He; subst hd.
    unfold ret in Hh. inversion Hh; subst.
    destruct (submit_body_footprint _ _ _ _ Hr Hb) as (pid & Hfp & _).
    exists pid. split; [exact Hfp | discriminate].
Qed.

(** X5: whatever the submission and whichever library calls fail,
    [submit_pass_data] only adds rows at the end of the tables: at most one
    user row, with the submitted email; at most one pass row, with the
    status "new" and the submitted, non-empty title and add_time; and, only
    together with the pass row, at most one row of difficulty levels and
    rows for some of the submitted images, in their order, all for that
    pass. No row is removed or altered. *)
Theorem submit_pass_data_footprint sub w :
  exists pid,
    footprint sub (committed w) (committed (snd (submit_pass_data sub w))) pid.
Proof.
  destruct (submit_pass_data_world sub w)
    as [(w1 & o & w2 & Hc & Hb & G & Hs)|(r & _ & _ & Hs)]; rewrite Hs.
  - destruct (connect_true _ _ Hc) as (Hr1 & _ & Hcm & _).
    destruct (guarded_body_footprint _ _ _ _ Hr1 Hb) as (pid & Hfp & _).
    exists pid. cbn [snd committed]. now rewrite <- Hcm.
  - exists 0%Z. cbn [committed set_faults]. exists [], [], [], [].
    split; [apply adds_refl|].
    repeat split; auto; try constructor; apply stored_from_none.
Qed.

(** X8: an outcome with status 200 is never returned without its pass: if
    [submit_pass_data] returns (200, none, pass_id), then pass_id is not
    zero, the five user fields were all there, the connection is closed, and
    the passes table has exactly one more row, with this id, the status
    "new" and the submitted, non-empty title and add_time. *)
Theorem outcome_200_has_its_pass_row sub w pid w' :
  submit_pass_data sub w = (Ret (200%Z, None, Some pid), w') ->
  pid <> 0%Z /\ py_all (user_fields sub) = true /\ connection w' = ConnClosed /\
  exists row,
    passes (committed w') = (passes (committed w) ++ [row])%list /\
    pass_row_of_submission sub pid row.
Proof.
  intros H.
  destruct (submit_pass_data_world sub w)
    as [(w1 & o & w2 & Hc & Hb & G & Hs)|(r & Hne & Hc & Hs)].
  - rewrite Hs in H. inversion H; subst o w'. clear H.
    destruct (connect_true _ _ Hc) as (Hr1 & _ & Hcm & _).
    destruct (guarded_body_footprint _ _ _ _ Hr1 Hb) as (pid0 & _ & H200).
    destruct (H200 pid eq_refl) as (-> & Hnz & Hu & row & Hp & Hrow).
    split; [exact Hnz|]. split; [exact Hu|]. split; [reflexivity|].
    exists row. cbn [committed]. split; [now rewrite Hp, Hcm | exact Hrow].
  - exfalso. unfold submit_pass_data, bind in H. rewrite Hc in H.
    destruct r as [[|]|e]; [congruence| |]; cbn in H; unfold ret in H;
      discriminate.
Qed.

(** ** Which outcome for which cause *)

Lemma truthy_false_blank f : truthy (dict_get f) = false -> field_blank f.
Proof.
  destruct f as [| |s]; cbn; intros H.
  - now left.
  - now right; left.
  - right; right. apply negb_false_iff, String.eqb_eq in H. now subst.
Qed.

Lemma py_all_user_fields_blank sub :
  py_all (user_fields sub) = false -> some_user_field_blank sub.
Proof.
  unfold py_all, user_fields, some_user_field_blank. cbn [forallb]. intros H.
  destruct (truthy (dict_get (email (get_dict (user sub) empty_user)))) eqn:H1;
    [|left; now apply truthy_false_blank].
  destruct (truthy (dict_get (phone (get_dict (user sub) empty_user)))) eqn:H2;
    [|right; left; now apply truthy_false_blank].
  destruct (truthy (dict_get (fam (get_dict (user sub) empty_user)))) eqn:H3;
    [|right; right; left; now apply truthy_false_blank].
  destruct (truthy (dict_get (name (get_dict (user sub) empty_user)))) eqn:H4;
    [|right; right; right; left; now apply truthy_false_blank].
  destruct (truthy (dict_get (otc (get_dict (user sub) empty_user)))) eqn:H5;
    [discriminate|right; right; right; right; now apply truthy_false_blank].
Qed.

Lemma submit_pass_outcome_cases sub uid w o w' :
  submit_pass sub uid w = (Ret o, w') ->
  o = (400%Z, Some MSG_REQUIRED_FIELDS, None) \/
  o = (500%Z, Some MSG_CREATE_PASS, None) \/
  exists pid, o = (200%Z, None, Some pid).
Proof.
  unfold submit_pass. intros H.
  apply bind_inv in H. destruct H as [(la & w1 & _ & H)|(e & _ & H)]; [|discriminate].
  apply bind_inv in H. destruct H as [(lo & w2 & _ & H)|(e & _ & H)]; [|discriminate].
  apply bind_inv in H. destruct H as [(h & w3 & _ & H)|(e & _ & H)]; [|discriminate].
  destruct (negb _).
  - invert_ret H. now left.
  - apply bind_inv in H. destruct H as [(p & w4 & _ & H)|(e & _ & H)]; [|discriminate].
    destruct p as [pid|]; [destruct (pid =? 0)%Z|].
    + invert_ret H. now right; left.
    + apply submit_levels_and_images_outcome in H. subst. right; right. now exists pid.
    + invert_ret H. now right; left.
Qed.

Lemma submit_body_user_fields_message sub w w' :
  submit_body sub w = (Ret (400%Z, Some MSG_USER_FIELDS, None), w') ->
  py_all (user_fields sub) = false.
Proof.
  unfold submit_body. intros H.
  destruct (py_all (user_fields sub)) eqn:Hu; [|reflexivity].
  exfalso. unfold user_fields in Hu. rewrite Hu in H. cbn [negb] in H.
  apply bind_inv in H. destruct H as [(u & w1 & _ & H)|(e & _ & H)]; [|discriminate].
  destruct u as [uid|]; [destruct (uid =? 0)%Z|].
  - invert_ret H.
  - apply submit_pass_outcome_cases in H.
    destruct H as [H|[H|[pid H]]]; inversion H.
  - invert_ret H.
Qed.

(** X9: the outcome (400, message on the user fields, none) is returned
    exactly when the connection is acquired and one of the five user fields
    is missing or empty: no other step gives this outcome, and a blank field
    gives no other one once the connection is there. *)
Theorem user_fields_message_iff_blank_field sub w :
  fst (submit_pass_data sub w) = Ret (400%Z, Some MSG_USER_FIELDS, None)
  <-> call_outcome 0 w = None /\ some_user_field_blank sub.
Proof.
  split.
  - intros H.
    destruct (submit_pass_data_world sub w)
      as [(w1 & o & w2 & Hc & Hb & G & Hs)|(r & Hne & Hc & Hs)].
    + rewrite Hs in H. cbn [fst] in H. inversion H; subst o. clear H.
      destruct (connect_true _ _ Hc) as (_ & _ & _ & _ & _ & _ & H0).
      split; [exact H0|]. apply py_all_user_fields_blank.
      apply try_except_inv in Hb.
      destruct Hb as [(a & Hb & E)|[(e & w3 & hd & _ & He & Hh)|(e & _ & _ & E)]];
        [| |discriminate].
      * inversion E; subst a. eapply submit_body_user_fields_message; eauto.
      * unfold unexpected_error in He. cbn in He. inversion He; subst hd.
        unfold ret in Hh. inversion Hh.
    + exfalso. unfold submit_pass_data, bind in H. rewrite Hc in H.
      destruct r as [[|]|e]; [congruence| |]; cbn in H; discriminate.
  - intros [H0 Hblank].
    destruct (connect_call_ok _ H0) as [w1 Hc].
    apply some_user_field_blank_py_all in Hblank.
    assert (Hbody : try_except (submit_body sub) unexpected_error w1
                    = (Ret (400%Z, Some MSG_USER_FIELDS, None), w1)).
    { unfold try_except. now rewrite submit_body_user_fields_missing. }
    destruct (submit_pass_data_after_body _ _ _ _ _ Hc Hbody) as [_ ->].
    reflexivity.
Qed.

(** ** [execute_query] *)

(** X10: on an open connection, [execute_query] answers [True] exactly when
    the statement and the commit both go through, and then the row is
    committed; at every other end, [False] or an exception, the committed
    tables are as before; either way no transaction is left open. *)
Theorem execute_query_all_or_nothing q w :
  ready w ->
  (fst (execute_query q w) = Ret true
   <-> call_outcome 0 w = None /\ call_outcome 1 w = None) /\
  (fst (execute_query q w) = Ret true ->
   committed (snd (execute_query q w)) = run_statement q (committed w)) /\
  (fst (execute_query q w) <> Ret true ->
   committed (snd (execute_query q w)) = committed w) /\
  ready (snd (execute_query q w)).
Proof.
  intros [Hc Hs]. unfold call_outcome. break_world w.
  unfold execute_query, try_except, bind, connection_cursor, self_connection,
    cursor_execute, connection_commit, connection_rollback, library_call, ret.
  destruct fs as [|[e0|] fs]; cbn.
  - unfold ready; cbn. repeat split; auto; congruence.
  - destruct (is_psycopg2_Error e0); cbn.
    + destruct fs as [|[e1|] fs]; cbn; unfold ready; cbn;
        repeat split; auto; try congruence; intros [? ?]; discriminate.
    + unfold ready; cbn. repeat split; auto; try congruence; intros [? ?]; discriminate.
  - destruct fs as [|[e1|] fs]; cbn.
    + unfold ready; cbn. repeat split; auto; congruence.
    + destruct (is_psycopg2_Error e1); cbn.
      * destruct fs as [|[e2|] fs]; cbn; unfold ready; cbn;
          repeat split; auto; try congruence; intros [? ?]; discriminate.
      * unfold ready; cbn. repeat split; auto; try congruence; intros [? ?]; discriminate.
    + unfold ready; cbn. repeat split; auto; congruence.
Qed.

(** ** An image without data *)

(** X11: an image whose [data] is missing or the empty string is not
    skipped: it decodes to no bytes, [create_image] is called, and when that
    answers [True] a row with an empty payload is committed. An image whose
    [data] is [None] is skipped: the world stays as it is. *)
Theorem image_without_data_is_stored_empty pid image w :
  ready w ->
  img_data image = Missing \/ img_data image = Val "" ->
  process_image pid image w
  = (Ret tt, snd (create_image pid (dict_get_default (img_title image) "") [] w)) /\
  (fst (create_image pid (dict_get_default (img_title image) "") [] w) = Ret true ->
   images_ (committed (snd (process_image pid image w)))
   = (images_ (committed w)
      ++ [mk_image_row pid (dict_get_default (img_title image) "") []])%list) /\
  process_image pid (mk_ImageData Null (img_title image)) w = (Ret tt, w).
Proof.
  intros Hr Hdata.
  assert (Hd : image_bytes_of image = inr []).
  { unfold image_bytes_of. destruct Hdata as [-> | ->]; reflexivity. }
  assert (Hle : (len [] <= MAX_IMAGE_SIZE)%Z) by (unfold len, MAX_IMAGE_SIZE; cbn; lia).
  split; [now apply process_image_insert|]. split.
  - intros Hi.
    change (mk_image_row pid (dict_get_default (img_title image) "") [])
      with (image_row_of pid image []).
    eapply process_image_stored; eauto.
    rewrite (process_image_insert _ _ _ _ Hd Hle). reflexivity.
  - apply (process_image_decode_fault _ _ TypeError). reflexivity.
Qed.

(** ** [GET /health] *)

(** X12: the health check leaves the tables and the sequences as they are.
    When [psycopg2.connect] goes through it reports "healthy" with status
    200, after one [close()] call, the connection closed; when it raises a
    [psycopg2.Error] it reports "unhealthy" with status 500 and no [close()]
    call is made; any other exception of [psycopg2.connect] leaves the
    function. *)
Theorem health_check_report w :
  committed (snd (health_check w)) = committed w /\
  users_id_seq (snd (health_check w)) = users_id_seq w /\
  passes_id_seq (snd (health_check w)) = passes_id_seq w /\
  match call_outcome 0 w with
  | None =>
      fst (health_check w) = Ret (mk_HealthReport 200 "healthy" "connected") /\
      connection (snd (health_check w)) = ConnClosed /\
      close_calls (snd (health_check w)) = S (close_calls w)
  | Some e =>
      fst (health_check w)
      = (if is_psycopg2_Error e
         then Ret (mk_HealthReport 500 "unhealthy" "disconnected")
         else Raise e) /\
      connection (snd (health_check w)) = NoConnection /\
      close_calls (snd (health_check w)) = close_calls w
  end.
Proof.
  unfold call_outcome. break_world w.
  unfold health_check, bind, Database_init, connect, try_except, psycopg2_connect,
    library_call, disconnect, connection_close, ret, set_connection.
  destruct fs as [|[e|] fs]; cbn; [tauto| |tauto].
  destruct (is_psycopg2_Error e); cbn; tauto.
Qed.

(** ** [fetch_one] and [fetch_all] *)

Lemma fetch_all_result {R : Type} (rows : list R) :
  match rows with [] => [] | _ => rows end = rows.
Proof. now destruct rows. Qed.

(** X13: [fetch_one] gives the first row of what [fetch_all] gives for the
    same query in the same world, or [None] when that is empty; both leave
    the same world, the tables as they were. *)
Theorem fetch_one_is_first_of_fetch_all {R : Type} (query : tables -> list R) w :
  fst (fetch_one query w)
  = match fst (fetch_all query w) with
    | Ret rows => Ret (hd_error rows)
    | Raise e => Raise e
    end /\
  snd (fetch_one query w) = snd (fetch_all query w) /\
  committed (snd (fetch_all query w)) = committed w /\
  session (snd (fetch_all query w)) = session w.
Proof.
  break_world w.
  unfold fetch_one, fetch_all, try_except, bind, connection_cursor, self_connection,
    cursor_execute_select, library_call, ret.
  destruct cn; cbn; [tauto| |tauto].
  destruct fs as [|[e|] fs]; cbn; rewrite ?fetch_all_result; [tauto| |tauto].
  destruct (is_psycopg2_Error e); cbn; tauto.
Qed.

(** X14: what the two functions answer when the query cannot run. On a
    [Database] that never connected both raise [AttributeError]; on a closed
    connection, and when the statement raises a [psycopg2.Error], [fetch_one]
    answers [None] and [fetch_all] the empty list; another exception of the
    statement leaves them; otherwise they answer from the selected rows. *)
Theorem fetch_answers {R : Type} (query : tables -> list R) w :
  match connection w with
  | NoConnection =>
      fetch_one query w = (Raise AttributeError, w) /\
      fetch_all query w = (Raise AttributeError, w)
  | ConnClosed =>
      fetch_one query w = (Ret None, w) /\ fetch_all query w = (Ret [], w)
  | ConnOpen =>
      match call_outcome 0 w with
      | None =>
          fst (fetch_one query w) = Ret (hd_error (query (session w))) /\
          fst (fetch_all query w) = Ret (query (session w))
      | Some e =>
          fst (fetch_one query w) = (if is_psycopg2_Error e then Ret None else Raise e) /\
          fst (fetch_all query w) = (if is_psycopg2_Error e then Ret [] else Raise e)
      end
  end.
Proof.
  unfold call_outcome. break_world w.
  unfold fetch_one, fetch_all, try_except, bind, connection_cursor, self_connection,
    cursor_execute_select, library_call, ret.
  destruct cn; cbn; [tauto| |tauto].
  destruct fs as [|[e|] fs]; cbn; rewrite ?fetch_all_result; [tauto| |tauto].
  destruct (is_psycopg2_Error e); cbn; tauto.
Qed.

(** ** Submissions that passed the request models *)

Lemma submit_pass_required_fields_message sub uid w w' :
  submit_pass sub uid w = (Ret (400%Z, Some MSG_REQUIRED_FIELDS, None), w') ->
  py_all [dict_get (title sub); dict_get (add_time sub)] = false.
Proof.
  unfold submit_pass. intros H.
  apply bind_inv in H. destruct H as [(la & w1 & _ & H)|(e & _ & H)]; [|discriminate].
  apply bind_inv in H. destruct H as [(lo & w2 & _ & H)|(e & _ & H)]; [|discriminate].
  apply bind_inv in H. destruct H as [(h & w3 & _ & H)|(e & _ & H)]; [|discriminate].
  destruct (py_all [dict_get (title sub); dict_get (add_time sub)]); [|reflexivity].
  exfalso. cbn [negb] in H.
  apply bind_inv in H. destruct H as [(p & w4 & _ & H)|(e & _ & H)]; [|discriminate].
  destruct p as [pid|]; [destruct (pid =? 0)%Z|].
  - invert_ret H.
  - apply submit_levels_and_images_outcome in H. discriminate.
  - invert_ret H.
Qed.

Lemma submit_body_required_fields_message sub w w' :
  submit_body sub w = (Ret (400%Z, Some MSG_REQUIRED_FIELDS, None), w') ->
  py_all [dict_get (title sub); dict_get (add_time sub)] = false.
Proof.
  unfold submit_body. intros H. destruct (negb _).
  - invert_ret H.
  - apply bind_inv in H. destruct H as [(u & w1 & _ & H)|(e & _ & H)]; [|discriminate].
    destruct u as [uid|]; [destruct (uid =? 0)%Z|].
    + invert_ret H.
    + eapply submit_pass_required_fields_message; eauto.
    + invert_ret H.
Qed.

Lemma str_between_truthy lo hi f :
  (1 <= lo)%nat -> str_between lo hi f = true -> truthy (dict_get f) = true.
Proof.
  destruct f as [| |s]; cbn; try discriminate. intros Hlo H.
  apply andb_prop in H. destruct H as [H _]. apply Nat.leb_le in H.
  destruct s; [cbn in H; lia | reflexivity].
Qed.

Section Validated.

Variable is_email : string -> bool.
Hypothesis is_email_not_empty : is_email "" = false.

Lemma valid_UserData_truthy u :
  valid_UserData is_email u = true ->
  py_all [dict_get (email u); dict_get (phone u); dict_get (fam u);
          dict_get (name u); dict_get (otc u)] = true.
Proof.
  unfold valid_UserData, py_all. cbn [forallb]. intros H.
  repeat (apply andb_prop in H; destruct H as [H ?]).
  repeat match goal with
         | Hb : str_between ?lo _ ?f = true |- _ =>
             apply (str_between_truthy lo) in Hb; [rewrite Hb; clear Hb | lia]
         end.
  destruct (email u) as [| |e]; try discriminate. cbn.
  destruct e; [congruence | reflexivity].
Qed.

(** X15: a submission that passed the request models never gets the outcome
    (400, message on the user fields, none), whatever fails; and it gets the
    outcome (400, message on the required fields, none) only when its
    add_time is the empty string, which the models let through. *)
Theorem validated_submission_400_only_for_empty_add_time d w :
  valid_SubmitPassData is_email d = true ->
  fst (submit_pass_data d w) <> Ret (400%Z, Some MSG_USER_FIELDS, None) /\
  (fst (submit_pass_data d w) = Ret (400%Z, Some MSG_REQUIRED_FIELDS, None) ->
   add_time d = Val "").
Proof.
  intros Hv. unfold valid_SubmitPassData in Hv.
  repeat match type of Hv with
         | (_ && _)%bool = true =>
             let Hr := fresh "Hr" in
             apply andb_prop in Hv; destruct Hv as [Hv Hr]
         end.
  assert (Hu : py_all (user_fields d) = true).
  { unfold user_fields. destruct (user d) as [u|]; [|discriminate].
    now apply valid_UserData_truthy. }
  assert (Ht : truthy (dict_get (title d)) = true).
  { eapply str_between_truthy; [|eassumption]. lia. }
  split.
  - intros H.
    destruct (submit_pass_data_world d w)
      as [(w1 & o & w2 & Hc & Hb & G & Hs)|(r & Hne & Hc & Hs)].
    + rewrite Hs in H. cbn [fst] in H. inversion H; subst o.
      apply try_except_inv in Hb.
      destruct Hb as [(a & Hb & E)|[(e & w3 & hd & _ & He & Hh)|(e & _ & _ & E)]];
        [| |discriminate].
      * inversion E; subst a. apply submit_body_user_fields_message in Hb. congruence.
      * unfold unexpected_error in He. cbn in He. inversion He; subst hd.
        unfold ret in Hh. inversion Hh.
    + unfold submit_pass_data, bind in H. rewrite Hc in H.
      destruct r as [[|]|e]; [congruence| |]; cbn in H; discriminate.
  - intros H.
    assert (Hf : py_all [dict_get (title d); dict_get (add_time d)] = false).
    { destruct (submit_pass_data_world d w)
        as [(w1 & o & w2 & Hc & Hb & G & Hs)|(r & Hne & Hc & Hs)].
      - rewrite Hs in H. cbn [fst] in H. inversion H; subst o.
        apply try_except_inv in Hb.
        destruct Hb as [(a & Hb & E)|[(e & w3 & hd & _ & He & Hh)|(e & _ & _ & E)]];
          [| |discriminate].
        + inversion E; subst a. eapply submit_body_required_fields_message; eauto.
        + unfold unexpected_error in He. cbn in He. inversion He; subst hd.
          unfold ret in Hh. inversion Hh.
      - exfalso. unfold submit_pass_data, bind in H. rewrite Hc in H.
        destruct r as [[|]|e]; [congruence| |]; cbn in H; discriminate. }
    unfold py_all in Hf. cbn [forallb] in Hf. rewrite Ht in Hf. cbn in Hf.
    rewrite andb_true_r in Hf.
    destruct (add_time d) as [| |s]; try discriminate.
    cbn in Hf. apply negb_false_iff, String.eqb_eq in Hf. now subst.
Qed.

End Validated.

(** ** Two requests in a row *)

Lemma store_ok_submit_pass_data sub w :
  store_ok w -> store_ok (snd (submit_pass_data sub w)).
Proof.
  intros Hok.
  destruct (submit_pass_data_world sub w)
    as [(w1 & o & w2 & Hc & Hb & G & Hs)|(r & _ & _ & Hs)]; rewrite Hs.
  - destruct (connect_true _ _ Hc) as (Hr1 & _ & Hcm & Hu & Hp & _).
    assert (Hok1 : store_ok w1) by now apply (store_ok_ext w).
    pose proof (store_ok_guarded_body _ _ _ _ Hr1 Hok1 Hb) as Hok2.
    cbn [snd]. now apply (store_ok_ext w2).
  - now apply (store_ok_ext w).
Qed.

Lemma submit_pass_data_200_pass_row sub w pid w' :
  submit_pass_data sub w = (Ret (200%Z, None, Some pid), w') ->
  exists row,
    passes (committed w') = (passes (committed w) ++ [row])%list /\ p_id row = pid.
Proof.
  intros H.
  destruct (submit_pass_data_world sub w)
    as [(w1 & o & w2 & Hc & Hb & G & Hs)|(r & Hne & Hc & Hs)].
  - rewrite Hs in H. inversion H; subst o w'. clear H.
    destruct (connect_true _ _ Hc) as (Hr1 & _ & Hcm & _).
    destruct (guarded_body_footprint _ _ _ _ Hr1 Hb) as (pid0 & _ & H200).
    destruct (H200 pid eq_refl) as (-> & Hnz & Hu & row & Hp & Hrow).
    exists row. cbn [committed]. split; [now rewrite Hp, Hcm | apply Hrow].
  - exfalso. unfold submit_pass_data, bind in H. rewrite Hc in H.
    destruct r as [[|]|e]; [congruence| |]; cbn in H; unfold ret in H;
      discriminate.
Qed.

(** An envelope with status 200 is the triple of [submit_pass_data], run on
    a new [Database] object. *)
Lemma submit_data_200 d w r w' :
  submit_data d w = (Ret r, w') -> status r = 200%Z ->
  exists pid,
    r = mk_SubmitPassResponse 200 None (Some pid) /\
    submit_pass_data d (set_connection w NoConnection)
    = (Ret (200%Z, None, Some pid), w').
Proof.
  unfold submit_data, try_except, bind, Database_init. intros H Hst.
  pose proof (submit_pass_data_outcome d (set_connection w NoConnection)) as Ho.
  destruct (submit_pass_data d (set_connection w NoConnection))
    as [[[[st msg] pid]|e] w1].
  - cbn in H. unfold ret in H. inversion H; subst r w'. cbn in Hst. subst st.
    destruct Ho as (_ & [Hid _] & _). destruct (Hid eq_refl) as [Hp Hm]. subst msg.
    destruct pid as [pid|]; [|congruence]. now exists pid.
  - cbn in H. unfold ret in H. inversion H; subst r. cbn in Hst. discriminate.
Qed.

(** X16: two requests answered with status 200, one after the other, get
    different ids, and the passes table has grown by exactly their two pass
    rows, in the order of the requests. *)
Theorem two_answers_200_have_distinct_ids d1 d2 w r1 w1 r2 w2 :
  store_ok w ->
  submit_data d1 w = (Ret r1, w1) -> status r1 = 200%Z ->
  submit_data d2 w1 = (Ret r2, w2) -> status r2 = 200%Z ->
  exists p1 p2 row1 row2,
    id r1 = Some p1 /\ id r2 = Some p2 /\ p1 <> p2 /\
    passes (committed w2) = (passes (committed w) ++ [row1; row2])%list /\
    p_id row1 = p1 /\ p_id row2 = p2.
Proof.
  intros Hok H1 S1 H2 S2.
  destruct (submit_data_200 _ _ _ _ H1 S1) as (p1 & -> & E1).
  destruct (submit_data_200 _ _ _ _ H2 S2) as (p2 & -> & E2).
  destruct (submit_pass_data_200_pass_row _ _ _ _ E1) as (row1 & P1 & I1).
  destruct (submit_pass_data_200_pass_row _ _ _ _ E2) as (row2 & P2 & I2).
  cbn [committed set_connection] in P1, P2.
  assert (Hok1 : store_ok w1).
  { replace w1 with (snd (submit_pass_data d1 (set_connection w NoConnection)))
      by now rewrite E1.
    apply store_ok_submit_pass_data. now apply (store_ok_ext w). }
  assert (Hok2 : store_ok w2).
  { replace w2 with (snd (submit_pass_data d2 (set_connection w1 NoConnection)))
      by now rewrite E2.
    apply store_ok_submit_pass_data. now apply (store_ok_ext w1). }
  assert (P : passes (committed w2) = (passes (committed w) ++ [row1; row2])%list).
  { rewrite P2, P1, <- app_assoc. reflexivity. }
  exists p1, p2, row1, row2. cbn [id].
  split; [reflexivity|]. split; [reflexivity|]. split; [|now split].
  destruct Hok2 as (_ & _ & _ & [Hnd _] & _).
  rewrite P, map_app in Hnd. apply NoDup_app_remove_l in Hnd.
  cbn [map] in Hnd. inversion Hnd as [|x l Hnin _]; subst.
  intros E. apply Hnin. left. congruence.
Qed.

(** ** What [base64.b64decode] lets through *)

Lemma is_ascii_app s1 s2 : is_ascii (s1 ++ s2) = is_ascii s1 && is_ascii s2.
Proof.
  induction s1 as [|c s1 IH]; [reflexivity|].
  cbn [append is_ascii]. now rewrite IH, andb_assoc.
Qed.

Lemma a2b_loop_skip c s2 s1 :
  Ascii.eqb c BASE64_PAD = false -> table_a2b c = None ->
  forall st, a2b_loop (s1 ++ String c s2) st = a2b_loop (s1 ++ s2) st.
Proof.
  intros Hp Ht. induction s1 as [|a s1 IH]; intros st.
  - cbn [append a2b_loop]. now rewrite Hp, Ht.
  - cbn [append a2b_loop].
    destruct (Ascii.eqb a BASE64_PAD).
    + destruct (2 <=? quad_pos st)%N; [|apply IH].
      destruct (4 <=? quad_pos st + (pads st + 1))%N; [reflexivity | apply IH].
    + destruct (table_a2b a); apply IH.
Qed.

(** X17: an ASCII character outside the base64 alphabet that is no pad
    character (a blank, a line break) makes no difference anywhere in the
    data of an image: the decoder gives the same bytes, or the same error,
    and the image is processed in the same way. *)
Theorem character_outside_alphabet_is_ignored pid c s1 s2 t w :
  table_a2b c = None -> c <> BASE64_PAD -> (N_of_ascii c < 128)%N ->
  b64decode (s1 ++ String c s2) = b64decode (s1 ++ s2) /\
  process_image pid (mk_ImageData (Val (s1 ++ String c s2)) t) w
  = process_image pid (mk_ImageData (Val (s1 ++ s2)) t) w.
Proof.
  intros Ht Hp Ha.
  assert (E : b64decode (s1 ++ String c s2) = b64decode (s1 ++ s2)).
  { unfold b64decode, a2b_base64.
    rewrite !is_ascii_app. cbn [is_ascii].
    apply N.ltb_lt in Ha. rewrite Ha. cbn [andb].
    rewrite a2b_loop_skip; [reflexivity| |exact Ht].
    now apply Ascii.eqb_neq. }
  split; [exact E|].
  unfold process_image. cbn [img_data img_title dict_get_default py_b64decode].
  unfold dict_get_default, py_b64decode. cbn. now rewrite E.
Qed.

Lemma a2b_loop_length s :
  forall st bs,
    a2b_loop s st = Some bs ->
    (4 * List.length bs
     <= 3 * String.length s + 4 * List.length (bin_data st)
        + (if (quad_pos st =? 0)%N then 0
           else if (quad_pos st =? 1)%N then 3
           else if (quad_pos st =? 2)%N then 2 else 1))%nat.
Proof.
  induction s as [|c s IH]; intros st bs H; cbn [a2b_loop] in H.
  - destruct (quad_pos st =? 0)%N; [|discriminate].
    inversion H. rewrite length_rev. cbn. lia.
  - cbn [String.length].
    destruct (Ascii.eqb c BASE64_PAD).
    + destruct (2 <=? quad_pos st)%N.
      * destruct (4 <=? quad_pos st + (pads st + 1))%N.
        -- inversion H. rewrite length_rev. lia.
        -- apply IH in H. cbn [quad_pos bin_data] in H. lia.
      * apply IH in H. lia.
    + destruct (table_a2b c) as [v|].
      * apply IH in H. unfold a2b_push in H.
        destruct (quad_pos st =? 0)%N; [cbn in H; lia|].
        destruct (quad_pos st =? 1)%N; [cbn in H; lia|].
        destruct (quad_pos st =? 2)%N; cbn in H; lia.
      * apply IH in H. lia.
Qed.

(** X18: the decoded bytes of an image number at most three quarters of the
    characters of its data; so an image whose data have no more than
    6,990,506 characters is never left out for its size. *)
Theorem decoded_size_within_three_quarters s bs :
  b64decode s = inr bs ->
  (4 * len bs <= 3 * Z.of_nat (String.length s))%Z /\
  ((Z.of_nat (String.length s) <= 6990506)%Z ->
   (len bs >? MAX_IMAGE_SIZE)%Z = false).
Proof.
  intros H. unfold b64decode, a2b_base64 in H.
  destruct (is_ascii s); [|discriminate].
  destruct (a2b_loop s a2b_init) as [bs'|] eqn:E; [|discriminate].
  inversion H; subst bs'. apply a2b_loop_length in E. cbn in E.
  assert (B : (4 * len bs <= 3 * Z.of_nat (String.length s))%Z) by (unfold len; lia).
  split; [exact B|]. intros Hs.
  rewrite Z.gtb_ltb. apply Z.ltb_ge. unfold MAX_IMAGE_SIZE. lia.
Qed.

End PipelineFacts.

(** ** The statements on sample data *)

Ltac run_sample :=
  repeat match goal with |- _ /\ _ => split end;
  lazymatch goal with
  | |- _ = (_, _) =>
      cbv delta [sample_w1 sample_w2 sample_w3 sample_w4];
      refine (run_eq _ _ _ _); vm_compute; reflexivity
  | |- _ <> _ => discriminate
  | |- _ = _ => vm_compute; reflexivity
  end.

(** C1, witness: the sample submission without images, no failure scheduled. *)
Lemma valid_submission_returns_200_witness :
  reaches_levels (sample_submission []) (fresh_world []) 1
    (sample_w3 (sample_submission []) []) /\
  images (sample_submission []) = [] /\
  (0 <= passes_id_seq (fresh_world []))%Z /\
  submit_create_difficulty_level (sample_submission []) 1
    (sample_w3 (sample_submission []) [])
  = (Ret true, sample_w4 (sample_submission []) []) /\
  exists w' row,
    submit_pass_data (sample_submission []) (fresh_world [])
    = (Ret (200%Z, None, Some 1%Z), w') /\
    (0 < 1)%Z /\
    passes (committed w') = (passes (committed (fresh_world [])) ++ [row])%list /\
    p_id row = 1%Z /\ p_status row = "new" /\
    p_title row = dict_get (title (sample_submission [])) /\
    p_add_time row = dict_get (add_time (sample_submission [])).
Proof.
  assert (H1 : reaches_levels (sample_submission []) (fresh_world []) 1
                 (sample_w3 (sample_submission []) [])).
  { exists (sample_w1 []), 1%Z, (sample_w2 (sample_submission []) []), 45%Z, 7%Z, 1200%Z.
    run_sample. }
  assert (H2 : images (sample_submission []) = []) by reflexivity.
  assert (H3 : (0 <= passes_id_seq (fresh_world []))%Z) by (vm_compute; discriminate).
  assert (H4 : submit_create_difficulty_level (sample_submission []) 1
                 (sample_w3 (sample_submission []) [])
               = (Ret true, sample_w4 (sample_submission []) [])) by run_sample.
  exact (conj H1 (conj H2 (conj H3 (conj H4
           (valid_submission_returns_200 _ _ _ _ _ _ H1 H2 H3 H4))))).
Defined.

(** C1, counterexample: the connection, the user and the pass are obtained
    for a complete, valid submission without images, the insert of the
    difficulty levels raises an exception that is no [psycopg2.Error] (as
    psycopg2 does for a text with a NUL character), and the outcome is 500,
    not 200, with the pass row committed. *)
Lemma valid_submission_500_counterexample :
  reaches_levels (sample_submission []) (fresh_world faults_value_error_at_levels) 1
    (sample_w3 (sample_submission []) faults_value_error_at_levels) /\
  images (sample_submission []) = [] /\
  fst (submit_pass_data (sample_submission [])
         (fresh_world faults_value_error_at_levels))
  = Ret (500%Z, Some MSG_PROCESSING, None) /\
  List.length
    (passes (committed (snd (submit_pass_data (sample_submission [])
                               (fresh_world faults_value_error_at_levels))))) = 1%nat.
Proof.
  split.
  - exists (sample_w1 faults_value_error_at_levels), 1%Z,
      (sample_w2 (sample_submission []) faults_value_error_at_levels),
      45%Z, 7%Z, 1200%Z.
    run_sample.
  - run_sample.
Qed.

(** C6, counterexample: the submission has reached the difficulty levels,
    their insert fails with a [psycopg2.Error] and so does the rollback in
    the handler of [execute_query]; the exception leaves
    [create_difficulty_level] and the outcome is 500, not 200. *)
Lemma difficulty_failure_surfaced_counterexample :
  reaches_levels (sample_submission []) (fresh_world faults_connection_lost_at_levels) 1
    (sample_w3 (sample_submission []) faults_connection_lost_at_levels) /\
  fst (submit_create_difficulty_level (sample_submission []) 1
         (sample_w3 (sample_submission []) faults_connection_lost_at_levels))
  = Raise Psycopg2Error /\
  fst (submit_pass_data (sample_submission [])
         (fresh_world faults_connection_lost_at_levels))
  = Ret (500%Z, Some MSG_PROCESSING, None).
Proof.
  split.
  - exists (sample_w1 faults_connection_lost_at_levels), 1%Z,
      (sample_w2 (sample_submission []) faults_connection_lost_at_levels),
      45%Z, 7%Z, 1200%Z.
    run_sample.
  - run_sample.
Qed.

(** C6, witness: the insert of the difficulty levels fails with a
    [psycopg2.Error], the rollback goes through, the answer is [False]. *)
Lemma difficulty_answer_not_surfaced_witness :
  reaches_levels (sample_submission []) (fresh_world [None; None; None; None; None; Some Psycopg2Error]) 1
    (sample_w3 (sample_submission []) [None; None; None; None; None; Some Psycopg2Error]) /\
  submit_create_difficulty_level (sample_submission []) 1
    (sample_w3 (sample_submission []) [None; None; None; None; None; Some Psycopg2Error])
  = (Ret false,
     sample_w4 (sample_submission []) [None; None; None; None; None; Some Psycopg2Error]) /\
  (exists w',
      submit_pass_data (sample_submission [])
        (fresh_world [None; None; None; None; None; Some Psycopg2Error])
      = (Ret (200%Z, None, Some 1%Z), w')) /\
  (exists row,
      difficulty_levels
        (committed (sample_w4 (sample_submission [])
                      [None; None; None; None; None; Some Psycopg2Error])) =
        if false
        then (difficulty_levels
                (committed (sample_w3 (sample_submission [])
                              [None; None; None; None; None; Some Psycopg2Error]))
              ++ [row])%list
        else difficulty_levels
               (committed (sample_w3 (sample_submission [])
                             [None; None; None; None; None; Some Psycopg2Error]))).
Proof.
  assert (H1 : reaches_levels (sample_submission [])
                 (fresh_world [None; None; None; None; None; Some Psycopg2Error]) 1
                 (sample_w3 (sample_submission [])
                    [None; None; None; None; None; Some Psycopg2Error])).
  { exists (sample_w1 [None; None; None; None; None; Some Psycopg2Error]), 1%Z,
      (sample_w2 (sample_submission []) [None; None; None; None; None; Some Psycopg2Error]),
      45%Z, 7%Z, 1200%Z.
    run_sample. }
  assert (H2 : submit_create_difficulty_level (sample_submission []) 1
                 (sample_w3 (sample_submission [])
                    [None; None; None; None; None; Some Psycopg2Error])
               = (Ret false,
                  sample_w4 (sample_submission [])
                    [None; None; None; None; None; Some Psycopg2Error])) by run_sample.
  exact (conj H1 (conj H2 (difficulty_answer_not_surfaced _ _ _ _ _ _ H1 H2))).
Defined.

(** C5, counterexample: the email is missing and the connection is not
    acquired; the outcome is 500 with the message on the connection, not
    400. *)
Lemma missing_user_field_500_counterexample :
  some_user_field_blank submission_without_email /\
  fst (submit_pass_data submission_without_email (fresh_world [Some Psycopg2Error]))
  = Ret (500%Z, Some MSG_CONNECT, None).
Proof. split; [left; left; reflexivity | run_sample]. Qed.

(** C5, witness: the email is missing and the connection is acquired. *)
Lemma missing_user_field_gives_400_witness :
  some_user_field_blank submission_without_email /\
  connect (fresh_world []) = (Ret true, sample_w1 []) /\
  exists w',
    submit_pass_data submission_without_email (fresh_world [])
    = (Ret (400%Z, Some MSG_USER_FIELDS, None), w') /\
    committed w' = committed (fresh_world []) /\
    users_id_seq w' = users_id_seq (fresh_world []) /\
    passes_id_seq w' = passes_id_seq (fresh_world []) /\
    faults w' = faults (sample_w1 []).
Proof.
  assert (H1 : some_user_field_blank submission_without_email)
    by (left; left; reflexivity).
  assert (H2 : connect (fresh_world []) = (Ret true, sample_w1 [])) by run_sample.
  exact (conj H1 (conj H2 (missing_user_field_gives_400 _ _ _ H1 H2))).
Defined.

(** C7, counterexample: [connect] fails; [submit_pass_data] returns 500
    without a [close()] call, and the connection attribute is still [None]:
    on this path the connection is not released once, and is not closed. *)
Lemma connect_failure_no_release_counterexample :
  fst (submit_pass_data (sample_submission []) (fresh_world [Some Psycopg2Error]))
  = Ret (500%Z, Some MSG_CONNECT, None) /\
  close_calls (snd (submit_pass_data (sample_submission [])
                      (fresh_world [Some Psycopg2Error])))
  = close_calls (fresh_world [Some Psycopg2Error]) /\
  connection (snd (submit_pass_data (sample_submission [])
                     (fresh_world [Some Psycopg2Error])))
  = NoConnection.
Proof. run_sample. Qed.

(** C8, counterexample: the image submitted as "QR==" is stored as the one
    byte "A", whose encoding is "QQ==". *)
Lemma stored_image_reencodes_differently_counterexample :
  img_data image_loose_bits = Val "QR==" /\
  exists row,
    images_ (committed (snd (process_image 1 image_loose_bits (open_world []))))
    = [row] /\
    b64encode (i_data row) = "QQ==" /\
    b64encode (i_data row) <> "QR==".
Proof.
  split; [reflexivity|].
  exists (mk_image_row 1 (Some "c") (bytes_of_string "A")).
  run_sample.
Qed.

(** C8, witness: the image submitted as the encoding of "ABC". *)
Lemma stored_image_reencodes_canonical_string_witness :
  ready (open_world []) /\
  img_data image_ABC = Val (b64encode (bytes_of_string "ABC")) /\
  images_ (committed (snd (process_image 1 image_ABC (open_world []))))
  = (images_ (committed (open_world []))
     ++ [mk_image_row 1 (Some "a") (bytes_of_string "ABC")])%list /\
  i_data (mk_image_row 1 (Some "a") (bytes_of_string "ABC"))
  = bytes_of_string "ABC" /\
  img_data image_ABC
  = Val (b64encode
           (i_data (mk_image_row 1 (Some "a")
                      (bytes_of_string "ABC")))).
Proof.
  assert (H1 : ready (open_world [])) by (split; reflexivity).
  assert (H2 : img_data image_ABC = Val (b64encode (bytes_of_string "ABC")))
    by reflexivity.
  assert (H3 : images_ (committed (snd (process_image 1 image_ABC (open_world []))))
               = (images_ (committed (open_world []))
                  ++ [mk_image_row 1 (Some "a")
                        (bytes_of_string "ABC")])%list) by (vm_compute; reflexivity).
  exact (conj H1 (conj H2 (conj H3
           (stored_image_reencodes_canonical_string _ _ _ _ _ H1 H2 H3)))).
Defined.

(** C3, witness: two calls for one email, with different other fields. *)
Lemma create_user_idempotent_on_email_witness :
  ready (open_world []) /\
  ready (snd (create_user (PN := decimal_numbers) (Some "qwerty@mail.ru")
                (Some "+7 555 55 55") (Some "Pupkin") (Some "Vasily")
                (Some "Ivanovich") (open_world []))) /\
  exists u row,
    fst (create_user (Some "qwerty@mail.ru") (Some "+7 555 55 55") (Some "Pupkin")
           (Some "Vasily") (Some "Ivanovich") (open_world []))
    = Ret (Some u) /\
    u <> 0%Z /\
    find (fun r => sql_eq (u_email r) (Some "qwerty@mail.ru"))
      (users (committed
                (snd (create_user (Some "qwerty@mail.ru") (Some "+7 555 55 55")
                        (Some "Pupkin") (Some "Vasily") (Some "Ivanovich")
                        (open_world [])))))
    = Some row /\
    u_id row = u /\
    fst (create_user (Some "qwerty@mail.ru") (Some "+7 000 00 00") (Some "Ivanov")
           (Some "Ivan") None
           (snd (create_user (Some "qwerty@mail.ru") (Some "+7 555 55 55")
                   (Some "Pupkin") (Some "Vasily") (Some "Ivanovich")
                   (open_world []))))
    = Ret (Some u) /\
    committed
      (snd (create_user (Some "qwerty@mail.ru") (Some "+7 000 00 00") (Some "Ivanov")
              (Some "Ivan") None
              (snd (create_user (Some "qwerty@mail.ru") (Some "+7 555 55 55")
                      (Some "Pupkin") (Some "Vasily") (Some "Ivanovich")
                      (open_world [])))))
    = committed
        (snd (create_user (Some "qwerty@mail.ru") (Some "+7 555 55 55")
                (Some "Pupkin") (Some "Vasily") (Some "Ivanovich")
                (open_world []))).
Proof.
  assert (H1 : ready (open_world [])) by (split; reflexivity).
  assert (H2 : ready (snd (create_user (PN := decimal_numbers) (Some "qwerty@mail.ru")
                             (Some "+7 555 55 55") (Some "Pupkin") (Some "Vasily")
                             (Some "Ivanovich") (open_world []))))
    by (split; vm_compute; reflexivity).
  refine (conj H1 (conj H2
            (create_user_idempotent_on_email "qwerty@mail.ru" _ _ _ _
               (Some "+7 000 00 00") (Some "Ivanov") (Some "Ivan") None
               _ _ H1 eq_refl _ _ H2 _ eq_refl))).
  - vm_compute. discriminate.
  - constructor.
  - vm_compute. reflexivity.
Defined.

(** C4, witness: three images, the second with a padding that does not
    decode. The theorem is taken at the faulty image; the submission ends
    with the rows of the two images beside it, in their order, and none for
    the faulty one. *)
Lemma image_fault_skips_only_that_image_witness :
  reaches_images (sample_submission [image_ABC; image_bad_padding; image_loose_bits])
    (fresh_world []) 1
    (sample_w4 (sample_submission [image_ABC; image_bad_padding; image_loose_bits]) []) /\
  (exists wa wb wc w',
    for_images 1 [image_ABC]
      (sample_w4 (sample_submission [image_ABC; image_bad_padding; image_loose_bits]) [])
    = (Ret tt, wa) /\
    process_image 1 image_bad_padding wa = (Ret tt, wb) /\
    for_images 1 [image_loose_bits] wb = (Ret tt, wc) /\
    submit_pass_data (sample_submission [image_ABC; image_bad_padding; image_loose_bits])
      (fresh_world [])
    = (Ret (200%Z, None, Some 1%Z), w') /\
    committed w' = committed wc /\
    (image_fault 1 image_bad_padding wa -> committed wb = committed wa) /\
    (forall bs,
        image_bytes_of image_bad_padding = inr bs -> (len bs <= MAX_IMAGE_SIZE)%Z ->
        (fst (create_image 1 (dict_get_default (img_title image_bad_padding) "") bs wa)
         = Ret true
         <-> call_outcome 0 wa = None /\ call_outcome 1 wa = None) /\
        (call_outcome 0 wa = None -> call_outcome 1 wa = None ->
         images_ (committed wb)
         = (images_ (committed wa) ++ [image_row_of 1 image_bad_padding bs])%list)) /\
    (exists l, images_ (committed wc) = (images_ (committed wb) ++ l)%list)) /\
  image_bytes_of image_bad_padding = inl BinasciiError /\
  images_ (committed
             (snd (submit_pass_data
                     (sample_submission [image_ABC; image_bad_padding; image_loose_bits])
                     (fresh_world []))))
  = [image_row_of 1 image_ABC (bytes_of_string "ABC");
     image_row_of 1 image_loose_bits (bytes_of_string "A")].
Proof.
  assert (H1 : reaches_images
                 (sample_submission [image_ABC; image_bad_padding; image_loose_bits])
                 (fresh_world []) 1
                 (sample_w4 (sample_submission
                               [image_ABC; image_bad_padding; image_loose_bits]) [])).
  { exists (sample_w3 (sample_submission
                         [image_ABC; image_bad_padding; image_loose_bits]) []), true.
    split; [|run_sample].
    exists (sample_w1 []), 1%Z,
      (sample_w2 (sample_submission [image_ABC; image_bad_padding; image_loose_bits]) []),
      45%Z, 7%Z, 1200%Z.
    run_sample. }
  assert (H2 : image_bytes_of image_bad_padding = inl BinasciiError)
    by (vm_compute; reflexivity).
  assert (H3 : images_ (committed
                 (snd (submit_pass_data
                         (sample_submission
                            [image_ABC; image_bad_padding; image_loose_bits])
                         (fresh_world []))))
               = [image_row_of 1 image_ABC (bytes_of_string "ABC");
                  image_row_of 1 image_loose_bits (bytes_of_string "A")])
    by (vm_compute; reflexivity).
  exact (conj H1
           (conj (image_fault_skips_only_that_image _ _ _ _ [image_ABC] image_bad_padding
                    [image_loose_bits] H1 eq_refl)
              (conj H2 H3))).
Defined.

(** C10, witness: the insert raises [IntegrityError] over an empty users
    table. *)
Lemma integrity_error_without_row_gives_500_witness :
  py_all (user_fields (sample_submission [])) = true /\
  call_outcome 1 (fresh_world [None; Some IntegrityError]) = Some IntegrityError /\
  exists w1 w2 w',
    connect (fresh_world [None; Some IntegrityError]) = (Ret true, w1) /\
    submit_create_user (sample_submission []) w1 = (Ret None, w2) /\
    submit_pass_data (sample_submission []) (fresh_world [None; Some IntegrityError])
    = (Ret (500%Z, Some MSG_CREATE_USER, None), w') /\
    committed w' = committed (fresh_world [None; Some IntegrityError]).
Proof.
  assert (H1 : py_all (user_fields (sample_submission [])) = true) by reflexivity.
  assert (H2 : call_outcome 1 (fresh_world [None; Some IntegrityError])
               = Some IntegrityError) by reflexivity.
  exact (conj H1 (conj H2
           (integrity_error_without_row_gives_500 (sample_submission [])
              (fresh_world [None; Some IntegrityError])
              H1 eq_refl H2 eq_refl eq_refl eq_refl))).
Defined.

Lemma boundary_bytes_len : len boundary_bytes = MAX_IMAGE_SIZE.
Proof.
  unfold len, boundary_bytes. rewrite repeat_length. apply Z2Nat.id. discriminate.
Qed.

(** C9, witness: an image of [MAX_IMAGE_SIZE] zero bytes on an open
    connection, no failure scheduled: its row is committed. *)
Lemma boundary_size_image_is_inserted_witness :
  ready (open_world []) /\
  image_bytes_of boundary_image = inr boundary_bytes /\
  len boundary_bytes = MAX_IMAGE_SIZE /\
  call_outcome 0 (open_world []) = None /\
  call_outcome 1 (open_world []) = None /\
  process_image 1 boundary_image (open_world [])
  = (Ret tt,
     snd (create_image 1 (dict_get_default (img_title boundary_image) "")
            boundary_bytes (open_world []))) /\
  fst (create_image 1 (dict_get_default (img_title boundary_image) "")
         boundary_bytes (open_world [])) = Ret true /\
  images_ (committed (snd (process_image 1 boundary_image (open_world []))))
  = (images_ (committed (open_world []))
     ++ [image_row_of 1 boundary_image boundary_bytes])%list.
Proof.
  assert (H1 : ready (open_world [])) by (split; reflexivity).
  assert (H2 : image_bytes_of boundary_image = inr boundary_bytes)
    by exact (b64decode_b64encode boundary_bytes).
  assert (H3 : len boundary_bytes = MAX_IMAGE_SIZE) by exact boundary_bytes_len.
  assert (H4 : call_outcome 0 (open_world []) = None) by reflexivity.
  assert (H5 : call_outcome 1 (open_world []) = None) by reflexivity.
  pose proof (boundary_size_image_is_inserted 1 boundary_image boundary_bytes
                (open_world []) H1 H2 H3) as T.
  destruct T as (P & I & R).
  split; [exact H1|]. split; [exact H2|]. split; [exact H3|].
  split; [exact H4|]. split; [exact H5|]. split; [exact P|].
  split; [exact (proj2 I (conj H4 H5))|].
  exact (R H4 H5).
Defined.


(** ** The further statements on sample data *)

(** X1, witness: the sample submission with an empty add_time. *)
Lemma missing_pass_field_gives_400_witness :
  reaches_pass_fields submission_without_add_time (fresh_world []) 1
    (sample_w2 submission_without_add_time []) /\
  some_pass_field_blank submission_without_add_time /\
  exists w',
    submit_pass_data submission_without_add_time (fresh_world [])
    = (Ret (400%Z, Some MSG_REQUIRED_FIELDS, None), w') /\
    committed w' = committed (sample_w2 submission_without_add_time []) /\
    passes (committed w') = passes (committed (fresh_world [])) /\
    connection w' = ConnClosed.
Proof.
  assert (H1 : reaches_pass_fields submission_without_add_time (fresh_world []) 1
                 (sample_w2 submission_without_add_time [])).
  { exists (sample_w1 []). run_sample. }
  assert (H2 : py_float (PN := decimal_numbers)
                 (latitude (get_dict (coords submission_without_add_time) empty_coords))
               = inr 45%Z) by (vm_compute; reflexivity).
  assert (H3 : py_float (PN := decimal_numbers)
                 (longitude (get_dict (coords submission_without_add_time) empty_coords))
               = inr 7%Z) by (vm_compute; reflexivity).
  assert (H4 : py_int (PN := decimal_numbers)
                 (height (get_dict (coords submission_without_add_time) empty_coords))
               = inr 1200%Z) by (vm_compute; reflexivity).
  assert (H5 : some_pass_field_blank submission_without_add_time).
  { right. right. right. reflexivity. }
  exact (conj H1 (conj H5
           (missing_pass_field_gives_400 _ _ _ _ _ _ _ H1 H2 H3 H4 H5))).
Defined.

(** X2, witness: the sample submission with the latitude "north". *)
Lemma non_numeric_coordinate_gives_500_witness :
  reaches_pass_fields submission_bad_latitude (fresh_world []) 1
    (sample_w2 submission_bad_latitude []) /\
  some_coordinate_not_numeric (PN := decimal_numbers) submission_bad_latitude /\
  exists w',
    submit_pass_data submission_bad_latitude (fresh_world [])
    = (Ret (500%Z, Some MSG_PROCESSING, None), w') /\
    committed w' = committed (sample_w2 submission_bad_latitude []) /\
    passes (committed w') = passes (committed (fresh_world [])) /\
    connection w' = ConnClosed.
Proof.
  assert (H1 : reaches_pass_fields submission_bad_latitude (fresh_world []) 1
                 (sample_w2 submission_bad_latitude [])).
  { exists (sample_w1 []). run_sample. }
  assert (H2 : some_coordinate_not_numeric (PN := decimal_numbers)
                 submission_bad_latitude).
  { left. exists ValueError. vm_compute. reflexivity. }
  exact (conj H1 (conj H2 (non_numeric_coordinate_gives_500 _ _ _ _ H1 H2))).
Defined.

(** X3, witness: [psycopg2.connect] raises a [psycopg2.Error]. *)
Lemma connect_failure_gives_500_witness :
  call_outcome 0 (fresh_world [Some Psycopg2Error]) = Some Psycopg2Error /\
  is_psycopg2_Error Psycopg2Error = true /\
  submit_pass_data (sample_submission []) (fresh_world [Some Psycopg2Error])
  = (Ret (500%Z, Some MSG_CONNECT, None),
     set_faults (fresh_world [Some Psycopg2Error])
       (tl (faults (fresh_world [Some Psycopg2Error])))).
Proof.
  assert (H1 : call_outcome 0 (fresh_world [Some Psycopg2Error]) = Some Psycopg2Error)
    by reflexivity.
  assert (H2 : is_psycopg2_Error Psycopg2Error = true) by reflexivity.
  exact (conj H1 (conj H2 (connect_failure_gives_500 (sample_submission []) _ _ H1 H2))).
Defined.

(** X4, witness: the insert of the pass raises a [psycopg2.Error]. *)
Lemma create_pass_failure_gives_500_witness :
  reaches_pass_fields (sample_submission []) (fresh_world faults_at_create_pass) 1
    (sample_w2 (sample_submission []) faults_at_create_pass) /\
  submit_create_pass (PN := decimal_numbers) (sample_submission []) 1 45%Z 7%Z 1200
    (sample_w2 (sample_submission []) faults_at_create_pass)
  = (Ret None, sample_w3 (sample_submission []) faults_at_create_pass) /\
  exists w',
    submit_pass_data (sample_submission []) (fresh_world faults_at_create_pass)
    = (Ret (500%Z, Some MSG_CREATE_PASS, None), w') /\
    committed w' = committed (sample_w2 (sample_submission []) faults_at_create_pass) /\
    connection w' = ConnClosed.
Proof.
  assert (H1 : reaches_pass_fields (sample_submission [])
                 (fresh_world faults_at_create_pass) 1
                 (sample_w2 (sample_submission []) faults_at_create_pass)).
  { exists (sample_w1 faults_at_create_pass). run_sample. }
  assert (H2 : py_float (PN := decimal_numbers)
                 (latitude (get_dict (coords (sample_submission [])) empty_coords))
               = inr 45%Z) by (vm_compute; reflexivity).
  assert (H3 : py_float (PN := decimal_numbers)
                 (longitude (get_dict (coords (sample_submission [])) empty_coords))
               = inr 7%Z) by (vm_compute; reflexivity).
  assert (H4 : py_int (PN := decimal_numbers)
                 (height (get_dict (coords (sample_submission [])) empty_coords))
               = inr 1200%Z) by (vm_compute; reflexivity).
  assert (H5 : py_all [dict_get (title (sample_submission []));
                       dict_get (add_time (sample_submission []))] = true)
    by reflexivity.
  assert (H6 : submit_create_pass (PN := decimal_numbers) (sample_submission []) 1
                 45%Z 7%Z 1200
                 (sample_w2 (sample_submission []) faults_at_create_pass)
               = (Ret None, sample_w3 (sample_submission []) faults_at_create_pass))
    by run_sample.
  exact (conj H1 (conj H6
           (create_pass_failure_gives_500 _ _ _ _ _ _ _ _ H1 H2 H3 H4 H5 H6))).
Defined.

Lemma store_ok_fresh_world fs : store_ok (fresh_world fs).
Proof.
  unfold store_ok, ids_from_sequence. cbn.
  repeat split; try constructor; lia.
Qed.

(** X6, witness: the sample submission over the empty store. *)
Lemma submit_pass_data_keeps_store_consistent_witness :
  store_ok (fresh_world []) /\
  store_ok (snd (submit_pass_data (sample_submission [image_ABC]) (fresh_world []))).
Proof.
  exact (conj (store_ok_fresh_world [])
           (submit_pass_data_keeps_store_consistent _ _ (store_ok_fresh_world []))).
Defined.

Lemma ready_open_world fs : ready (open_world fs).
Proof. split; reflexivity. Qed.

(** X7, witness: two images, the second with a padding that does not
    decode. *)
Lemma for_images_stores_in_order_within_size_witness :
  ready (open_world []) /\
  exists w' rows,
    for_images 1 [image_ABC; image_bad_padding] (open_world []) = (Ret tt, w') /\
    adds (committed (open_world [])) (committed w') [] [] [] rows /\
    stored_from 1 [image_ABC; image_bad_padding] rows /\
    Forall (fun r => i_pass_id r = 1%Z /\ (len (i_data r) <= MAX_IMAGE_SIZE)%Z) rows /\
    (List.length rows <= List.length [image_ABC; image_bad_padding])%nat.
Proof.
  exact (conj (ready_open_world [])
           (for_images_stores_in_order_within_size _ _ _ (ready_open_world []))).
Defined.

(** X8, witness: the sample submission, no failure scheduled. *)
Lemma outcome_200_has_its_pass_row_witness :
  submit_pass_data (sample_submission []) (fresh_world [])
  = (Ret (200%Z, None, Some 1%Z),
     snd (submit_pass_data (sample_submission []) (fresh_world []))) /\
  1%Z <> 0%Z /\ py_all (user_fields (sample_submission [])) = true /\
  connection (snd (submit_pass_data (sample_submission []) (fresh_world [])))
  = ConnClosed /\
  exists row,
    passes (committed (snd (submit_pass_data (sample_submission []) (fresh_world []))))
    = (passes (committed (fresh_world [])) ++ [row])%list /\
    pass_row_of_submission (sample_submission []) 1 row.
Proof.
  assert (H1 : submit_pass_data (sample_submission []) (fresh_world [])
               = (Ret (200%Z, None, Some 1%Z),
                  snd (submit_pass_data (sample_submission []) (fresh_world []))))
    by run_sample.
  exact (conj H1 (outcome_200_has_its_pass_row _ _ _ _ H1)).
Defined.

(** X10, witness: an insert of difficulty levels on an open connection. *)
Lemma execute_query_all_or_nothing_witness :
  ready (open_world []) /\
  (fst (execute_query sample_levels_statement (open_world [])) = Ret true
   <-> call_outcome 0 (open_world []) = None /\ call_outcome 1 (open_world []) = None) /\
  (fst (execute_query sample_levels_statement (open_world [])) = Ret true ->
   committed (snd (execute_query sample_levels_statement (open_world [])))
   = run_statement sample_levels_statement (committed (open_world []))) /\
  (fst (execute_query sample_levels_statement (open_world [])) <> Ret true ->
   committed (snd (execute_query sample_levels_statement (open_world [])))
   = committed (open_world [])) /\
  ready (snd (execute_query sample_levels_statement (open_world []))).
Proof.
  exact (conj (ready_open_world [])
           (execute_query_all_or_nothing _ _ (ready_open_world []))).
Defined.

(** X11, witness: an image with the empty string as data. *)
Lemma image_without_data_is_stored_empty_witness :
  ready (open_world []) /\
  (img_data image_empty_data = Missing \/ img_data image_empty_data = Val "") /\
  process_image 1 image_empty_data (open_world [])
  = (Ret tt,
     snd (create_image 1 (dict_get_default (img_title image_empty_data) "") []
            (open_world []))) /\
  (fst (create_image 1 (dict_get_default (img_title image_empty_data) "") []
          (open_world [])) = Ret true ->
   images_ (committed (snd (process_image 1 image_empty_data (open_world []))))
   = (images_ (committed (open_world []))
      ++ [mk_image_row 1 (dict_get_default (img_title image_empty_data) "") []])%list) /\
  process_image 1 (mk_ImageData Null (img_title image_empty_data)) (open_world [])
  = (Ret tt, open_world []).
Proof.
  assert (H2 : img_data image_empty_data = Missing \/ img_data image_empty_data = Val "")
    by (right; reflexivity).
  exact (conj (ready_open_world [])
           (conj H2 (image_without_data_is_stored_empty _ _ _ (ready_open_world []) H2))).
Defined.

(** X15, witness: the sample submission with an empty add_time passes the
    models, with an email check that asks for an at sign. *)
Lemma validated_submission_400_only_for_empty_add_time_witness :
  has_at_sign "" = false /\
  valid_SubmitPassData has_at_sign submission_without_add_time = true /\
  fst (submit_pass_data submission_without_add_time (fresh_world []))
  <> Ret (400%Z, Some MSG_USER_FIELDS, None) /\
  (fst (submit_pass_data submission_without_add_time (fresh_world []))
   = Ret (400%Z, Some MSG_REQUIRED_FIELDS, None) ->
   add_time submission_without_add_time = Val "").
Proof.
  assert (H0 : has_at_sign "" = false) by reflexivity.
  assert (H1 : valid_SubmitPassData has_at_sign submission_without_add_time = true)
    by (vm_compute; reflexivity).
  exact (conj H0 (conj H1
           (validated_submission_400_only_for_empty_add_time has_at_sign H0 _ _ H1))).
Defined.

(** X16, witness: the sample submission sent twice over the empty store. *)
Lemma two_answers_200_have_distinct_ids_witness :
  store_ok (fresh_world []) /\
  submit_data (sample_submission []) (fresh_world [])
  = (Ret (mk_SubmitPassResponse 200 None (Some 1%Z)),
     snd (submit_data (sample_submission []) (fresh_world []))) /\
  submit_data (sample_submission [])
    (snd (submit_data (sample_submission []) (fresh_world [])))
  = (Ret (mk_SubmitPassResponse 200 None (Some 2%Z)),
     snd (submit_data (sample_submission [])
            (snd (submit_data (sample_submission []) (fresh_world []))))) /\
  exists p1 p2 row1 row2,
    id (mk_SubmitPassResponse 200 None (Some 1%Z)) = Some p1 /\
    id (mk_SubmitPassResponse 200 None (Some 2%Z)) = Some p2 /\ p1 <> p2 /\
    passes (committed
              (snd (submit_data (sample_submission [])
                      (snd (submit_data (sample_submission []) (fresh_world []))))))
    = (passes (committed (fresh_world [])) ++ [row1; row2])%list /\
    p_id row1 = p1 /\ p_id row2 = p2.
Proof.
  assert (H1 : submit_data (sample_submission []) (fresh_world [])
               = (Ret (mk_SubmitPassResponse 200 None (Some 1%Z)),
                  snd (submit_data (sample_submission []) (fresh_world []))))
    by run_sample.
  assert (H2 : submit_data (sample_submission [])
                 (snd (submit_data (sample_submission []) (fresh_world [])))
               = (Ret (mk_SubmitPassResponse 200 None (Some 2%Z)),
                  snd (submit_data (sample_submission [])
                         (snd (submit_data (sample_submission []) (fresh_world []))))))
    by run_sample.
  exact (conj (store_ok_fresh_world []) (conj H1 (conj H2
           (two_answers_200_have_distinct_ids _ _ _ _ _ _ _
              (store_ok_fresh_world []) H1 eq_refl H2 eq_refl)))).
Defined.

(** X17, witness: a blank in the middle of the data "QUJD". *)
Lemma character_outside_alphabet_is_ignored_witness :
  table_a2b " " = None /\ " "%char <> BASE64_PAD /\ (N_of_ascii " " < 128)%N /\
  b64decode ("QU" ++ String " " "JD") = b64decode ("QU" ++ "JD") /\
  process_image 1 (mk_ImageData (Val ("QU" ++ String " " "JD")) (Val "a")) (open_world [])
  = process_image 1 (mk_ImageData (Val ("QU" ++ "JD")) (Val "a")) (open_world []).
Proof.
  assert (H1 : table_a2b " " = None) by reflexivity.
  assert (H2 : " "%char <> BASE64_PAD) by discriminate.
  assert (H3 : (N_of_ascii " " < 128)%N) by reflexivity.
  exact (conj H1 (conj H2 (conj H3
           (character_outside_alphabet_is_ignored 1 " " "QU" "JD" (Val "a")
              (open_world []) H1 H2 H3)))).
Defined.

(** X18, witness: the data "QUJD" decode to the three bytes of "ABC". *)
Lemma decoded_size_within_three_quarters_witness :
  b64decode "QUJD" = inr (bytes_of_string "ABC") /\
  (4 * len (bytes_of_string "ABC") <= 3 * Z.of_nat (String.length "QUJD"))%Z /\
  ((Z.of_nat (String.length "QUJD") <= 6990506)%Z ->
   (len (bytes_of_string "ABC") >? MAX_IMAGE_SIZE)%Z = false).
Proof.
  assert (H1 : b64decode "QUJD" = inr (bytes_of_string "ABC"))
    by (vm_compute; reflexivity).
  exact (conj H1 (decoded_size_within_three_quarters _ _ H1)).
Defined.
